(** * mark_duplicates_and_insert_sizes_for_TSO500_ichorCNA.py

    A shallow embedding of the coordination core of the script: reading the
    reference sequence order, the scaffold partitioning of
    [mark_duplicates_with_mate_cigar_parallel], the per-worker loop of
    [mark_duplicates_with_mate_cigar], the collection and re-ordering of the
    workers' messages, and the bounded wait of [wait_for_insert_metrics].

    Python integers are [Z]; lists are [list] with stdpp's lookup and insert;
    the dictionary [ref_dict] is a [gmap string Z]; an exception is a value of
    [exn] carried by [result]. External programs (samtools, picard) are
    represented by what the script reads from them: return codes and output
    lines. *)

From Stdlib Require Import ZArith Lia String Ascii DecimalString DecimalN.
From stdpp Require Import base option list gmap strings numbers sorting.

Local Open Scope Z_scope.

(** ** Exceptions and results *)

(** The exceptions the modelled code can raise; [SystemExit] is what
    [sys.exit(code)] raises. *)
Inductive exn : Type :=
  | ZeroDivisionError
  | IndexError
  | KeyError
  | ValueError
  | TypeError
  | TimeoutError
  | SubprocessError
  | FileNotFoundError
  | SystemExit (code : Z).

Inductive result (A : Type) : Type :=
  | Ok (a : A)
  | Raise (e : exn).
Arguments Ok {A} a.
Arguments Raise {A} e.

#[global] Instance result_ret : MRet result := @Ok.
#[global] Instance result_bind : MBind result := λ A B f r,
  match r with Ok a => f a | Raise e => Raise e end.
#[global] Instance result_fmap : FMap result := λ A B f r,
  match r with Ok a => Ok (f a) | Raise e => Raise e end.

#[global] Instance exn_eq_dec : EqDecision exn.
Proof. solve_decision. Defined.

Definition is_ok {A} (r : result A) : bool :=
  match r with Ok _ => true | Raise _ => false end.

(** [for x in xs: st = body(st, x)], stopping at the first exception. *)
Fixpoint for_each {St A} (body : St → A → result St) (xs : list A) (st : St)
  : result St :=
  match xs with
  | [] => Ok st
  | x :: xs' => st' ← body st x; for_each body xs' st'
  end.

(** A list comprehension [[f(x) for x in xs]] whose element may raise. *)
Fixpoint comprehension {A B} (f : A → result B) (xs : list A)
  : result (list B) :=
  match xs with
  | [] => Ok []
  | x :: xs' => y ← f x; ys ← comprehension f xs'; Ok (y :: ys)
  end.

(** ** Python built-ins used by the script *)

Module Py.

(** [l[i]] for a Python integer [i]: a negative index counts from the end. *)
Definition getitem {A} (l : list A) (i : Z) : result A :=
  let n := Z.of_nat (length l) in
  let j := if i <? 0 then n + i else i in
  if (0 <=? j) && (j <? n) then
    match l !! Z.to_nat j with Some x => Ok x | None => Raise IndexError end
  else Raise IndexError.

(** [l[i] = x]. *)
Definition setitem {A} (l : list A) (i : Z) (x : A) : result (list A) :=
  let n := Z.of_nat (length l) in
  let j := if i <? 0 then n + i else i in
  if (0 <=? j) && (j <? n) then Ok (<[Z.to_nat j := x]> l)
  else Raise IndexError.

(** [min(l)] on integers; the empty list raises [ValueError]. *)
Definition min (l : list Z) : result Z :=
  match l with
  | [] => Raise ValueError
  | x :: l' => Ok (foldl Z.min x l')
  end.

(** [l.index(x)]: the first position holding [x], [ValueError] if none. *)
Definition index `{EqDecision A} (l : list A) (x : A) : result nat :=
  match list_find (λ y, y = x) l with
  | Some (i, _) => Ok i
  | None => Raise ValueError
  end.

(** [s.split(sep)] for a one-character separator: never the empty list. *)
Fixpoint split (sep : ascii) (s : string) : list string :=
  match s with
  | EmptyString => [EmptyString]
  | String c r =>
      if Ascii.eqb c sep then EmptyString :: split sep r
      else match split sep r with
           | h :: t => String c h :: t
           | [] => [String c EmptyString]
           end
  end.

(** [int(s)] on a decimal literal: an optional sign followed by one or more
    ASCII digits. Anything else is a [ValueError] here (Python also accepts
    surrounding blanks and underscores between digits, which the length
    field of a header line never has). *)
Definition digits (s : string) : result Z :=
  match NilZero.uint_of_string s with
  | Some d => Ok (Z.of_N (N.of_uint d))
  | None => Raise ValueError
  end.

Definition int (s : string) : result Z :=
  match s with
  | String "-"%char r => Z.opp <$> digits r
  | String "+"%char r => digits r
  | _ => digits s
  end.

(** [s.startswith(p)]. *)
Fixpoint startswith (p s : string) : bool :=
  match p, s with
  | EmptyString, _ => true
  | String a p', String b s' => Ascii.eqb a b && startswith p' s'
  | String _ _, EmptyString => false
  end.

(** Text decoded from UTF-8 is held as its bytes; a character of more than
    one byte is recognised by its bytes, which in UTF-8 occur nowhere but
    at that character. *)

(** The white space of [str.strip()] that is one byte long: U+0009 to
    U+000D and U+001C to U+0020. *)
Definition space1 (a : ascii) : bool :=
  let a := nat_of_ascii a in
  ((9 <=? a) && (a <=? 13) || (28 <=? a) && (a <=? 32))%nat.

(** Two bytes: U+0085 and U+00A0. *)
Definition space2 (a b : ascii) : bool :=
  let a := nat_of_ascii a in
  let b := nat_of_ascii b in
  ((a =? 194) && ((b =? 133) || (b =? 160)))%nat.

(** Three bytes: U+1680, U+2000 to U+200A, U+2028, U+2029, U+202F, U+205F
    and U+3000. *)
Definition space3 (a b c : ascii) : bool :=
  let a := nat_of_ascii a in
  let b := nat_of_ascii b in
  let c := nat_of_ascii c in
  ((a =? 225) && (b =? 154) && (c =? 128)
   || (a =? 226) && (b =? 128)
      && ((128 <=? c) && (c <=? 138) || (c =? 168) || (c =? 169) || (c =? 175))
   || (a =? 226) && (b =? 129) && (c =? 159)
   || (a =? 227) && (b =? 128) && (c =? 128))%nat.

(** [s] is one character of white space. *)
Definition space (s : string) : bool :=
  match s with
  | String a EmptyString => space1 a
  | String a (String b EmptyString) => space2 a b
  | String a (String b (String c EmptyString)) => space3 a b c
  | _ => false
  end.

(** [s.lstrip()]. *)
Fixpoint lstrip (s : string) : string :=
  match s with
  | EmptyString => EmptyString
  | String a r =>
      if space1 a then lstrip r
      else match r with
           | EmptyString => s
           | String b r2 =>
               if space2 a b then lstrip r2
               else match r2 with
                    | EmptyString => s
                    | String c r3 => if space3 a b c then lstrip r3 else s
                    end
           end
  end.

(** [s.rstrip()]: with the rest of the text stripped, the character at
    the front goes as well when it is white space and nothing follows. *)
Fixpoint rstrip (s : string) : string :=
  match s with
  | EmptyString => EmptyString
  | String a r =>
      let r' := rstrip r in
      if space (String a r') then EmptyString else String a r'
  end.

(** [s.strip()]. *)
Definition strip (s : string) : string := rstrip (lstrip s).

(** The line boundaries of [str.splitlines()]: of one byte the line feed,
    the carriage return, U+000B, U+000C, U+001C, U+001D and U+001E; of two
    bytes U+0085; of three bytes U+2028 and U+2029. A carriage return
    followed by a line feed is one boundary. *)
Definition break1 (a : ascii) : bool :=
  let a := nat_of_ascii a in
  ((10 <=? a) && (a <=? 13) || (28 <=? a) && (a <=? 30))%nat.

Definition break2 (a b : ascii) : bool :=
  ((nat_of_ascii a =? 194) && (nat_of_ascii b =? 133))%nat.

Definition break3 (a b c : ascii) : bool :=
  let c := nat_of_ascii c in
  ((nat_of_ascii a =? 226) && (nat_of_ascii b =? 128)
   && ((c =? 168) || (c =? 169)))%nat.

(** The byte [a] put in front of the first of [lines]. *)
Definition extend_line (a : ascii) (lines : list string) : list string :=
  match lines with
  | [] => [String a EmptyString]
  | line :: rest => String a line :: rest
  end.

(** [s.splitlines()]: the lines without their boundaries; a boundary at
    the end of the text starts no further line. *)
Fixpoint splitlines (s : string) : list string :=
  match s with
  | EmptyString => []
  | String a r =>
      if break1 a then
        match r with
        | String b r2 =>
            if ((nat_of_ascii a =? 13) && (nat_of_ascii b =? 10))%nat
            then EmptyString :: splitlines r2
            else EmptyString :: splitlines r
        | EmptyString => [EmptyString]
        end
      else
        match r with
        | EmptyString => [String a EmptyString]
        | String b r2 =>
            if break2 a b then EmptyString :: splitlines r2
            else match r2 with
                 | EmptyString => extend_line a (splitlines r)
                 | String c r3 =>
                     if break3 a b c then EmptyString :: splitlines r3
                     else extend_line a (splitlines r)
                 end
        end
  end.

End Py.

(** ** The reference sequence order (lines 114-132) *)

(** [ref_seq_order_command] pipes the header through [grep '^@SQ'] and an
    awk program. A header line is held as its tab-separated fields. *)

Definition tab : string := String (ascii_of_nat 9) EmptyString.

Definition grep_SQ (fields : list string) : bool :=
  Py.startswith "@SQ" (String.concat tab fields).

(** [split($i, a, ":"); a[2]]: the second colon-separated piece, empty
    when there is none. *)
Definition awk_a2 (field : string) : string :=
  default EmptyString (Py.split ":" field !! 1%nat).

(** The body of the awk [for] loop on field [$i]; [v] holds the awk
    variables [(sn, ln)]. *)
Definition awk_field (v : string * string) (f : string) : string * string :=
  let v := if Py.startswith "SN:" f then (awk_a2 f, v.2) else v in
  if Py.startswith "LN:" f then (v.1, awk_a2 f) else v.

(** The awk program on the selected lines: [sn] and [ln] are globals of the
    awk run, so they are threaded from line to line; each line prints
    [sn "," ln]. *)
Fixpoint awk (v : string * string) (lines : list (list string)) : list string :=
  match lines with
  | [] => []
  | fields :: rest =>
      let v' := foldl awk_field v fields in
      (v'.1 +:+ "," +:+ v'.2) :: awk v' rest
  end.

Definition newline : string := String (ascii_of_nat 10) EmptyString.

(** What awk writes: each printed record followed by a line feed. *)
Definition printed (records : list string) : string :=
  foldr (λ record out, record +:+ newline +:+ out) EmptyString records.

(** The lines of [called_ref_order_command.stdout.strip().splitlines()] for
    a header (line 131). The output is taken to be valid UTF-8, which the
    decoding of line 121 requires; that decoding turns every carriage
    return, alone or before a line feed, into a line feed, which changes
    neither what [strip] removes nor where [splitlines] cuts. *)
Definition ref_seq_order (header : list (list string)) : list string :=
  Py.splitlines
    (Py.strip
       (printed (awk (EmptyString, EmptyString)
                   (filter (λ l, grep_SQ l = true) header)))).

(** [reference_names] and [ref_dict], filled together by the comprehension
    of lines 129-132. *)
Record catalog : Type := Catalog {
  reference_names : list string;
  ref_dict : gmap string Z
}.

Definition empty_catalog : catalog := Catalog [] ∅.

(** One element of the comprehension on the output line [t]. The filter is
    [(ref_name := t.split(',')[0]) and (ref_length := int(t.split(',')[1]))]:
    an empty name stops the [and] before [int] is evaluated, and a length
    of [0] is falsy. *)
Definition catalog_line (c : catalog) (t : string) : result catalog :=
  ref_name ← Py.getitem (Py.split "," t) 0;
  if bool_decide (ref_name = EmptyString) then Ok c
  else
    field ← Py.getitem (Py.split "," t) 1;
    ref_length ← Py.int field;
    if ref_length =? 0 then Ok c
    else Ok (Catalog (reference_names c ++ [ref_name])
                     (<[ref_name := ref_length]> (ref_dict c))).

(** Lines 121-132: [returncode] and [lines] are what the subprocess gave. *)
Definition read_reference_order (returncode : Z) (lines : list string)
  : result catalog :=
  if returncode =? 0 then for_each catalog_line lines empty_catalog
  else Raise SubprocessError.

(** The sequence of (name, length) pairs of a catalog, as line 138 zips it:
    [zip(reference_names, [ref_dict[r] for r in reference_names])]. *)
Definition scaffolds (c : catalog) : result (list (string * Z)) :=
  lengths ← comprehension
    (λ r, match ref_dict c !! r with Some n => Ok n | None => Raise KeyError end)
    (reference_names c);
  Ok (zip (reference_names c) lengths).

(** An [@SQ] line of a sequence dictionary: the name and the length it
    declares. *)
Record sq : Type := SQ { SN : string; LN : N }.

(** The length as the header writes it. *)
Definition decimal (n : N) : string := NilZero.string_of_uint (N.to_uint n).

(** The fields of the header line of [e]. *)
Definition sq_line (e : sq) : list string :=
  ["@SQ"; "SN:" +:+ SN e; "LN:" +:+ decimal (LN e)]%string.

(** The (name, length) pairs a sequence dictionary declares, in its order. *)
Definition declared (h : list sq) : list (string * Z) :=
  map (λ e, (SN e, Z.of_N (LN e))) h.

(** The catalog read from a sequence dictionary. *)
Definition catalog_of (h : list sq) : result catalog :=
  read_reference_order 0 (ref_seq_order (map sq_line h)).

(** ** The partition of scaffolds over workers (lines 133-148) *)

(** [sorted(l, key=lambda t: t[1], reverse=True)]. Python's sort is stable,
    also with [reverse=True]: scaffolds of equal length keep their order. *)
Fixpoint insert_descending (x : string * Z) (l : list (string * Z))
  : list (string * Z) :=
  match l with
  | [] => [x]
  | y :: l' => if x.2 <? y.2 then y :: insert_descending x l' else x :: l
  end.

Definition sorted_descending (l : list (string * Z)) : list (string * Z) :=
  foldr insert_descending [] l.

(** [sum(l)]. *)
Definition sum (l : list Z) : Z := foldr Z.add 0 l.

(** [sum(ref_dict.values())]. *)
Definition sum_values (d : gmap string Z) : Z := sum (map_to_list d).*2.

(** The two lists the loop fills, one entry per worker. *)
Record plan : Type := Plan {
  worker_scaffold_lists : list (list string);
  worker_scaffolds_cumulative_sums : list Z
}.

(** [worker_scaffold_lists[i].append(name)] followed by
    [worker_scaffolds_cumulative_sums[i] += length]. The lists of
    [worker_scaffold_lists] are built by a comprehension, so each worker
    has a list object of its own. *)
Definition assign (st : plan) (i : Z) (scaffold_name : string)
    (scaffold_length : Z) : result plan :=
  l ← Py.getitem (worker_scaffold_lists st) i;
  lists ← Py.setitem (worker_scaffold_lists st) i (l ++ [scaffold_name]);
  s ← Py.getitem (worker_scaffolds_cumulative_sums st) i;
  sums ← Py.setitem (worker_scaffolds_cumulative_sums st) i (s + scaffold_length);
  Ok (Plan lists sums).

(** The body of the loop of line 140 for the scaffold at [scaff_idx]. *)
Definition plan_scaffold (processes optimal_split_length : Z) (st : plan)
    (scaff_idx : nat) (t : string * Z) : result plan :=
  let '(scaffold_name, scaffold_length) := t in
  let naive := Z.of_nat scaff_idx `mod` processes in
  cur ← Py.getitem (worker_scaffolds_cumulative_sums st) naive;
  if cur + scaffold_length <? optimal_split_length then
    assign st naive scaffold_name scaffold_length
  else
    m ← Py.min (worker_scaffolds_cumulative_sums st);
    shortest_list_index ← Py.index (worker_scaffolds_cumulative_sums st) m;
    assign st (Z.of_nat shortest_list_index) scaffold_name scaffold_length.

(** [for scaff_idx, t in enumerate(l)], counting from [scaff_idx]. *)
Fixpoint for_enumerate {St A} (body : St → nat → A → result St)
    (scaff_idx : nat) (l : list A) (st : St) : result St :=
  match l with
  | [] => Ok st
  | t :: l' => st' ← body st scaff_idx t; for_enumerate body (S scaff_idx) l' st'
  end.

(** Lines 133-148. [//] is [Z.div] and [%] is [Z.modulo]: both round to
    the floor, as Python does; division by zero raises. *)
Definition partition (c : catalog) (processes : Z) : result plan :=
  let total_ref_length := sum_values (ref_dict c) in
  if processes =? 0 then Raise ZeroDivisionError
  else
    let optimal_split_length := total_ref_length / processes in
    let st := Plan (replicate (Z.to_nat processes) [])
                   (replicate (Z.to_nat processes) 0) in
    tuples ← scaffolds c;
    let descending_length_tuples := sorted_descending tuples in
    for_enumerate (plan_scaffold processes optimal_split_length) 0
      descending_length_tuples st.

(** The scenario of the specification: lengths 100, 90, 60, 50 and two
    workers. *)
Definition lengths_example : result plan :=
  c ← catalog_of [SQ "scaffold0" 100; SQ "scaffold1" 90;
                  SQ "scaffold2" 60; SQ "scaffold3" 50];
  partition c 2.

(** ** Paths *)

(** [pathlib] paths of a POSIX system: the components, and whether the path
    starts at the root. *)
Module Path.

Record t : Type := Make { anchored : bool; parts : list string }.

Definition component (c : string) : bool :=
  negb (bool_decide (c = EmptyString)) && negb (bool_decide (c = "."%string)).

(** [Path(s)]: empty components and [.] are dropped. *)
Definition of_string (s : string) : t :=
  Make (Py.startswith "/" s) (filter (λ c, component c = true) (Py.split "/" s)).

(** [p / s]. *)
Definition join (p : t) (s : string) : t :=
  let q := of_string s in
  if anchored q then q else Make (anchored p) (parts p ++ parts q).

Definition name (p : t) : string := List.last (parts p) EmptyString.

Definition parent (p : t) : t := Make (anchored p) (removelast (parts p)).

(** [p.stem]: the name up to its last dot, when that dot is neither the
    first nor the last character of the name. *)
Definition stem (p : t) : string :=
  let pieces := Py.split "." (name p) in
  let front := String.concat "." (removelast pieces) in
  let back := List.last pieces EmptyString in
  if (1 <? length pieces)%nat && negb (bool_decide (front = EmptyString))
     && negb (bool_decide (back = EmptyString))
  then front else name p.

(** [str(p)]. *)
Definition str (p : t) : string :=
  match anchored p, parts p with
  | false, [] => "."
  | false, _ => String.concat "/" (parts p)
  | true, _ => "/" +:+ String.concat "/" (parts p)
  end.

#[global] Instance eq_dec : EqDecision t.
Proof. solve_decision. Defined.

End Path.

(** ** The worker (lines 300-400) *)

(** An element of [created_files]: the pair
    [(scaffold_output_bam, scaffold_metrics_file)], or [None]. *)
Definition created_file : Type := option (Path.t * Path.t).

(** What a worker sends through its connection: [created_files], or [None]. *)
Definition message : Type := option (list created_file).

(** What a worker does to the outside, in order. [MarkDuplicates] is the
    piped [samtools view | picard MarkDuplicatesWithMateCigar] command of
    line 319 for one scaffold, [PrintFailed] the message of line 390. *)
Inductive action : Type :=
  | Mkdir (p : Path.t)
  | MarkDuplicates (scaffold : string) (output_bam metrics_file : Path.t)
  | PrintFailed (scaffold : string)
  | Send (m : message)
  | Close.

(** [f"{n:07}"]. *)
Definition format_07 (n : N) : string :=
  let d := decimal n in
  String.concat EmptyString (replicate (7 - String.length d) "0"%string) +:+ d.

Section Worker.

Variables temp_dir output_bam output_metrics_file : Path.t.
(** The [k]-th draw of [randint(0, 9999999)] and the return code of the
    [k]-th duplicate marking command, counting from 0. *)
Variable randint : nat → N.
Variable returncode : nat → Z.

Definition scaffold_temp_dir (k : nat) (scaffold : string) : Path.t :=
  Path.join temp_dir (scaffold +:+ "-" +:+ format_07 (randint k) +:+ "/tmp").

Definition scaffold_output_bam (k : nat) (scaffold : string) : Path.t :=
  Path.join (Path.parent (scaffold_temp_dir k scaffold))
    (Path.stem output_bam +:+ "-" +:+ scaffold +:+ ".bam").

Definition scaffold_metrics_file (k : nat) (scaffold : string) : Path.t :=
  Path.join (Path.parent (scaffold_temp_dir k scaffold))
    (Path.stem output_metrics_file +:+ "-" +:+ scaffold +:+ "." +:+
     List.last (Py.split "." (Path.name output_metrics_file)) EmptyString).

(** The [for] loop of line 306 from its [k]-th round on; [break] leaves
    the rest of the list alone. *)
Fixpoint scaffolds_loop (k : nat) (scaffolds_to_process : list string)
    (created_files : list created_file) : list action * list created_file :=
  match scaffolds_to_process with
  | [] => ([], created_files)
  | scaffold :: rest =>
      let run := [Mkdir (scaffold_temp_dir k scaffold);
                  MarkDuplicates scaffold (scaffold_output_bam k scaffold)
                    (scaffold_metrics_file k scaffold)] in
      if returncode k =? 0 then
        let '(acts, created) :=
          scaffolds_loop (S k) rest
            (created_files ++ [Some (scaffold_output_bam k scaffold,
                                     scaffold_metrics_file k scaffold)]) in
        (run ++ acts, created)
      else (run ++ [PrintFailed scaffold], created_files ++ [None])
  end.

Definition mark_duplicates_with_mate_cigar (scaffolds_to_process : list string)
  : list action :=
  let '(acts, created_files) := scaffolds_loop 0 scaffolds_to_process [] in
  acts ++ [Send (if bool_decide (None ∈ created_files) then None
                 else Some created_files);
           Close].

(** The commands for the scaffolds of [l], the first of them in round [k],
    when none of them stops the loop. *)
Fixpoint runs (k : nat) (l : list string) : list action :=
  match l with
  | [] => []
  | scaffold :: l' =>
      Mkdir (scaffold_temp_dir k scaffold)
      :: MarkDuplicates scaffold (scaffold_output_bam k scaffold)
           (scaffold_metrics_file k scaffold)
      :: runs (S k) l'
  end.

(** The pairs of files for the scaffolds of [l], in the order of [l]. *)
Fixpoint files (k : nat) (l : list string) : list created_file :=
  match l with
  | [] => []
  | scaffold :: l' =>
      Some (scaffold_output_bam k scaffold, scaffold_metrics_file k scaffold)
      :: files (S k) l'
  end.

End Worker.

(** The messages sent in a sequence of actions. *)
Definition sent (acts : list action) : list message :=
  omap (λ a, match a with Send m => Some m | _ => None end) acts.

(** The workers of lines 150-162, one per list of the plan, the first of
    them with index [w]: what they send, in the order of their connections.
    Worker [w] has draws [randint w] and return codes [returncode w] of its
    own. *)
Fixpoint run_workers (temp_dir output_bam output_metrics_file : Path.t)
    (randint : nat → nat → N) (returncode : nat → nat → Z) (w : nat)
    (worker_scaffold_lists : list (list string)) : list message :=
  match worker_scaffold_lists with
  | [] => []
  | scaffolds_to_process :: rest =>
      sent (mark_duplicates_with_mate_cigar temp_dir output_bam
              output_metrics_file (randint w) (returncode w)
              scaffolds_to_process)
      ++ run_workers temp_dir output_bam output_metrics_file randint
           returncode (S w) rest
  end.

(** The pairs of files that workers send when all their commands succeed,
    one list per worker, the first worker with index [w]. *)
Fixpoint outcomes (temp_dir output_bam output_metrics_file : Path.t)
    (randint : nat → nat → N) (w : nat)
    (worker_scaffold_lists : list (list string))
  : list (list (Path.t * Path.t)) :=
  match worker_scaffold_lists with
  | [] => []
  | scaffolds_to_process :: rest =>
      omap id (files temp_dir output_bam output_metrics_file (randint w) 0
                 scaffolds_to_process)
      :: outcomes temp_dir output_bam output_metrics_file randint (S w) rest
  end.

(** ** Collecting and ordering the results (lines 164-197) *)

(** [received_scaffold_files.extend(r_c.recv())]: extending a list by
    [None] raises [TypeError]. *)
Definition extend (received : list created_file) (m : message)
  : result (list created_file) :=
  match m with
  | Some created_files => Ok (received ++ created_files)
  | None => Raise TypeError
  end.

(** The scaffold a received path is taken to belong to:
    [rcv_scaf_path.stem.split('-')[-1]]. *)
Definition received_scaffold (p : Path.t) : string :=
  List.last (Py.split "-" (Path.stem p)) EmptyString.

(** Lines 193-195. *)
Definition ordered_scaffold_paths (reference_names : list string)
    (received_scaffold_bam_paths : list Path.t) : result (list string) :=
  let received_order := map received_scaffold received_scaffold_bam_paths in
  comprehension
    (λ order_scaff,
       i ← Py.index received_order order_scaff;
       p ← Py.getitem received_scaffold_bam_paths (Z.of_nat i);
       Ok (Path.str p))
    reference_names.

(** What the collecting process prints about failed workers (line 170):
    the number of [None] entries. *)
Inductive report : Type := Failed (count : nat).

(** Lines 164-195: the messages are read in the order of the connections;
    the result is the list of paths given to [samtools cat]. The moves of
    the metrics files (lines 176-191) touch the file system only and are
    left out. *)
Definition collect (reference_names : list string) (messages : list message)
  : list report * result (list string) :=
  match for_each extend messages [] with
  | Raise e => ([], Raise e)
  | Ok received_scaffold_files =>
      if bool_decide (None ∈ received_scaffold_files) then
        ([Failed (length (filter (λ rbp, rbp = None) received_scaffold_files))],
         Raise (SystemExit 1))
      else
        (* line 173: the [zip] of no pair yields nothing to unpack into the
           two names *)
        match omap id received_scaffold_files with
        | [] => ([], Raise ValueError)
        | files => ([], ordered_scaffold_paths reference_names files.*1)
        end
  end.

(** ** Waiting for the insert size metrics (lines 403-434) *)

(** What the wait does to the outside, in order. *)
Inductive wait_action : Type :=
  | Sleep (seconds : Z)
  | Terminate
  | WaitProcess.

(** [max_wait_minutes: int = 180]. *)
Definition default_max_wait_minutes : Z := 180.

Section Wait.

(** The [k]-th call of [process_handle.poll()]: [None] while the process
    runs, its return code afterwards. *)
Variable poll : nat → option Z.
Variable max_wait_minutes : Z.

(** The [while] loop from its [k]-th test on, followed by the check of
    the return code; [fuel] bounds the number of tests. *)
Fixpoint wait_loop (fuel k : nat) (wait_time : Z)
  : option (list wait_action * result Z) :=
  match fuel with
  | O => None
  | S fuel' =>
      match poll k with
      | Some code =>
          Some ([], if code =? 0 then Ok wait_time else Raise (SystemExit 1))
      | None =>
          let wait_time := wait_time + 10 in
          if max_wait_minutes <=? wait_time / 60 then
            Some ([Sleep 10; Terminate; WaitProcess], Raise TimeoutError)
          else
            '(acts, r) ← wait_loop fuel' (S k) wait_time;
            Some (Sleep 10 :: acts, r)
      end
  end.

Definition wait_for_insert_metrics (fuel : nat)
  : option (list wait_action * result Z) :=
  wait_loop fuel 0 0.

End Wait.

(** ** The partition as the specification words it (section 4.2) *)

Module Reference.

(** "total base pairs": the sum of the lengths of the scaffolds. *)
Definition total_base_pairs (cat : list (string * Z)) : Z := sum cat.*2.

(** The scaffolds with their position in the catalog. *)
Fixpoint number (k : nat) (cat : list (string * Z))
  : list (nat * (string * Z)) :=
  match cat with
  | [] => []
  | s :: cat' => (k, s) :: number (S k) cat'
  end.

(** [a] comes before [b] in the walk: the longer scaffold first, and of
    two scaffolds of equal length the one that is first in the catalog. *)
Definition before (a b : nat * (string * Z)) : bool :=
  (b.2.2 <? a.2.2) || ((a.2.2 =? b.2.2) && (a.1 <? b.1)%nat).

(** [a] put at its place in a list that is in the order of [before]. *)
Fixpoint place (a : nat * (string * Z)) (l : list (nat * (string * Z)))
  : list (nat * (string * Z)) :=
  match l with
  | [] => [a]
  | b :: l' => if before a b then a :: l else b :: place a l'
  end.

(** "Sort scaffolds by length descending (ties broken by original catalog
    order)". *)
Definition sorted_walk (cat : list (string * Z)) : list (string * Z) :=
  (foldr place [] (number 0 cat)).*2.

(** Running totals and assigned names, per worker index. *)
Record state : Type := State {
  total : nat → Z;
  assigned : nat → list string
}.

(** "a per-worker running total, initialized to zero". *)
Definition start : state := State (λ _, 0) (λ _, []).

(** Scaffold [s] assigned to worker [w], whose running total is updated. *)
Definition give (w : nat) (s : string * Z) (st : state) : state :=
  State (λ v, if bool_decide (v = w) then total st v + s.2 else total st v)
        (λ v, if bool_decide (v = w) then assigned st v ++ [s.1]
              else assigned st v).

(** The worker with the smallest running total among the first [n]
    workers, the lowest index on ties. *)
Fixpoint smallest (f : nat → Z) (n : nat) : nat :=
  match n with
  | O => O
  | S n' => let w := smallest f n' in if f n' <? f w then n' else w
  end.

(** "first try worker [i mod N]: if that worker's running total plus this
    scaffold's length is strictly less than target, assign there. Otherwise
    assign the scaffold to whichever worker currently has the smallest
    running total". *)
Definition worker_for (N : nat) (target : Z) (st : state) (i : nat)
    (s : string * Z) : nat :=
  if total st (i mod N) + s.2 <? target then (i mod N)%nat
  else smallest (total st) N.

(** The walk over the sorted list from its [i]-th scaffold on. *)
Fixpoint walk (N : nat) (target : Z) (i : nat) (l : list (string * Z))
    (st : state) : state :=
  match l with
  | [] => st
  | s :: l' => walk N target (S i) l' (give (worker_for N target st i s) s st)
  end.

(** "target = total_base_pairs / N (integer division)", then the walk; the
    plan lists the workers [0 .. N-1]. *)
Definition partition (cat : list (string * Z)) (N : nat) : plan :=
  let target := total_base_pairs cat / Z.of_nat N in
  let st := walk N target 0 (sorted_walk cat) start in
  Plan (map (assigned st) (seq 0 N)) (map (total st) (seq 0 N)).

End Reference.

(** ** Notions used in the statements *)

(** The two lists of the code hold what the running totals and assigned
    names of [Reference.state] say for the workers [0 .. N-1]. *)
Definition represents (N : nat) (st : plan) (rst : Reference.state) : Prop :=
  worker_scaffold_lists st = map (Reference.assigned rst) (seq 0 N)
  ∧ worker_scaffolds_cumulative_sums st = map (Reference.total rst) (seq 0 N).

(** The keys of [ref_dict] are the names of [reference_names]. *)
Definition keyed (c : catalog) : Prop :=
  ∀ n, n ∈ reference_names c ↔ is_Some (ref_dict c !! n).

(** The (name, length) pairs of a keyed catalog. *)
Definition pairs (c : catalog) : list (string * Z) :=
  map (λ n, (n, default 0 (ref_dict c !! n))) (reference_names c).

(** [max] over the lengths of the catalog. *)
Definition longest (cat : list (string * Z)) : Z := foldr Z.max 0 cat.*2.

(** The base pairs of the scaffolds of [names]: the sum of their lengths
    in [ref_dict]. *)
Definition base_pairs (c : catalog) (names : list string) : Z :=
  sum (map (λ n, default 0 (ref_dict c !! n)) names).

(** [c in s]. *)
Fixpoint contains (c : ascii) (s : string) : bool :=
  match s with
  | EmptyString => false
  | String a r => Ascii.eqb a c || contains c r
  end.

(** What the awk program prints for an [@SQ] line whose name has no colon. *)
Definition sq_output (e : sq) : string := SN e +:+ "," +:+ decimal (LN e).

(** A printable ASCII character other than the blank. *)
Definition graphic (a : ascii) : bool :=
  ((33 <=? nat_of_ascii a) && (nat_of_ascii a <=? 126))%nat.

Fixpoint printable (s : string) : bool :=
  match s with
  | EmptyString => true
  | String a r => graphic a && printable r
  end.

(** Names the pipeline hands through unchanged: not empty, made of
    printable characters other than the blank, as the names of a sequence
    dictionary are, and free of the separators [:] (awk) and [,]
    (Python). *)
Definition plain (name : string) : Prop :=
  name ≠ EmptyString ∧ printable name = true
  ∧ contains ":" name = false ∧ contains "," name = false.

(** The messages of workers that all succeeded: each sends the list of its
    (output, metrics) pairs. *)
Definition successful (outcomes : list (list (Path.t * Path.t))) : list message :=
  map (λ files, Some (map Some files)) outcomes.

(** The path chosen for one reference name (the body of the comprehension
    of line 194). *)
Definition chosen (paths : list Path.t) (order_scaff : string) : result string :=
  i ← Py.index (map received_scaffold paths) order_scaff;
  p ← Py.getitem paths (Z.of_nat i);
  Ok (Path.str p).

(** Files as the workers name them, for the scaffolds chr1, chr2, chr3 and
    chrX. *)
Definition example_file (scaffold : string) : Path.t * Path.t :=
  (scaffold_output_bam (Path.of_string "/tmp/w")
     (Path.of_string "/out/sample.markdup.bam") (λ _, 7%N) 0 scaffold,
   scaffold_metrics_file (Path.of_string "/tmp/w")
     (Path.of_string "/out/sample.markdup.metrics") (λ _, 7%N) 0 scaffold).

(** The number of tests of the [while] loop that see the process running
    before the loop gives up: the accumulated wait of [10 * polls] seconds
    reaches [max_wait_minutes] whole minutes. *)
Definition polls_before_cap (max_wait_minutes : Z) : nat :=
  Z.to_nat (Z.max 1 (6 * max_wait_minutes)).

(** ** Notions used in the statements on whole runs *)

(** Every command a worker runs for the scaffolds of [l] returns 0. *)
Definition succeeds (returncode : nat → Z) (l : list string) : bool :=
  forallb (λ i, returncode i =? 0) (seq 0 (length l)).

(** Every worker of the plan succeeds, the first of them having index [w]. *)
Fixpoint all_succeed (returncode : nat → nat → Z) (w : nat)
    (worker_scaffold_lists : list (list string)) : bool :=
  match worker_scaffold_lists with
  | [] => true
  | l :: rest => succeeds (returncode w) l && all_succeed returncode (S w) rest
  end.

(** The seconds slept in a sequence of actions of the wait. *)
Definition slept (acts : list wait_action) : Z :=
  foldr (λ a t, match a with Sleep seconds => seconds + t | _ => t end) 0 acts.

(** ** The command line and the reported time *)

(** Lines 458-465: the number of processes asked for on the command line is
    brought into the range from 2 to 24. *)
Definition clamp_processes (parallel_processes : Z) : Z :=
  if 24 <? parallel_processes then 24
  else if parallel_processes <? 2 then 2
  else parallel_processes.

(** Lines 66-68 and the [--threads] option of the two [samtools sort]
    commands of line 86: [half_processes - 1]. *)
Definition sort_threads (processes : Z) : Z :=
  let half_processes := processes / 2 in
  let half_processes := if half_processes <? 1 then 2 else half_processes in
  half_processes - 1.

(** Lines 411-412: [(waited_hours, waited_minutes, waited_seconds)] from two
    [divmod]s. *)
Definition waited (wait_time : Z) : Z * Z * Z :=
  let waited_hours := wait_time / 3600 in
  let remainder := wait_time `mod` 3600 in
  (waited_hours, remainder / 60, remainder `mod` 60).

(** ** Moving the metrics files of the scaffolds (lines 176-183) *)

(** [present] holds the names of the files in [metrics_output_dir] and
    [gone] the metrics files that were moved already. For each metrics
    file: when a file of its name is at the destination, that file is
    deleted after a warning; then the metrics file is moved there, which
    fails with [FileNotFoundError] when the file was moved before. The
    result lists the names of the deleted files, in order, holds the names
    in the directory at the end, and tells how the loop ended. The metrics
    files are taken to exist when the loop starts (each is the
    [METRICS_FILE] of a command that returned 0), and the directory to
    hold regular files only. *)
Fixpoint move_metrics (received_scaffold_metrics_files gone : list Path.t)
    (present : gset string) : list string * gset string * result unit :=
  match received_scaffold_metrics_files with
  | [] => ([], present, Ok tt)
  | metrics_file :: rest =>
      let name := Path.name metrics_file in
      let deleted := if bool_decide (name ∈ present) then [name] else [] in
      if bool_decide (metrics_file ∈ gone) then
        (deleted, present ∖ {[name]}, Raise FileNotFoundError)
      else
        let '(deleted', present', r) :=
          move_metrics rest (metrics_file :: gone) ({[name]} ∪ present) in
        (deleted ++ deleted', present', r)
  end.

(** The name of the metrics file of a scaffold (line 310):
    [f"{output_metrics_file.stem}-{scaffold}.{extension}"]. *)
Definition scaffold_metrics_name (output_metrics_file : Path.t)
    (scaffold : string) : string :=
  Path.stem output_metrics_file +:+ "-" +:+ scaffold +:+ "." +:+
  List.last (Py.split "." (Path.name output_metrics_file)) EmptyString.

(** ** The duplicate marking as a whole (lines 52-247) *)

(** What the script prints before it exits with a status. *)
Inductive notice : Type :=
  | MateFixingFailed
  | WorkersFailed (count : nat)
  | ConcatenationFailed
  | IndexingFailed
  | RsyncFailed.

(** What the collecting process does to the outside, in order: the commands
    it runs, the workers it starts, the files and directories it moves or
    removes, and what it prints before an exit. The directories it creates,
    the warnings it prints and the tests for files and directories left by
    an earlier run (lines 75-83, 108-111, 188-191 and 224-232), which depend
    on the file system only, leave no step. The look-ups of [samtools] and
    [picard] (lines 57-65) are taken to succeed. *)
Inductive step : Type :=
  | MateFixing (threads : Z) (bam_path fixed_bam_path : Path.t)
  | ReferenceOrder (fixed_bam_path : Path.t)
  | Workers (fixed_bam_path : Path.t) (worker_scaffold_lists : list (list string))
  | MoveMetrics (received_scaffold_metrics_files : list Path.t)
      (metrics_output_dir : Path.t)
  | Concatenation (ordered_scaffold_paths : list string)
      (concatenated_bam : Path.t)
  | RemoveTrees (directories : list Path.t)
  | RemoveMateFixed (fixed_bam_path : Path.t)
  | Indexing (concatenated_bam index_path : Path.t)
  | Rsync (source : string) (final_output_dir : Path.t)
  | Unlink (files : list Path.t)
  | Print (what : notice).

(** How a run ends: it returns, raises, or blocks for ever in [recv]. *)
Inductive ending (A : Type) : Type :=
  | Returns (a : A)
  | Raises (e : exn)
  | Blocks.
Arguments Returns {A} a.
Arguments Raises {A} e.
Arguments Blocks {A}.


(** A run: the steps taken and the ending. *)
Record run (A : Type) : Type := Run { steps : list step; outcome : ending A }.
Arguments Run {A} steps outcome.
Arguments steps {A} r.
Arguments outcome {A} r.

#[global] Instance run_ret : MRet run := λ A a, Run [] (Returns a).
#[global] Instance run_bind : MBind run := λ A B k m,
  match outcome m with
  | Returns a => Run (steps m ++ steps (k a)) (outcome (k a))
  | Raises e => Run (steps m) (Raises e)
  | Blocks => Run (steps m) Blocks
  end.

Definition does (s : step) : run unit := Run [s] (Returns tt).

Definition raise {A} (e : exn) : run A := Run [] (Raises e).

Definition lift {A} (r : result A) : run A :=
  match r with Ok a => mret a | Raise e => raise e end.

(** [try: cmd.check_returncode() except CalledProcessError: print(..); exit(status)]. *)
Definition check_returncode (returncode : Z) (what : notice) (status : Z)
  : run unit :=
  if returncode =? 0 then mret tt
  else _ ← does (Print what); raise (SystemExit status).

(** What the commands of a run give: their return codes, the lines of the
    output of the reference order command, and for worker [w] the draws of
    [randint] and the return codes of its duplicate marking commands. *)
Record subprocesses : Type := Subprocesses {
  called_mate_fixing_cmd : Z;
  called_ref_order_command : Z * list string;
  draws : nat → nat → N;
  paired_end_dup_marking_cmd : nat → nat → Z;
  concatenation_subprocess : Z;
  indexing_subprocess : Z;
  rsync_subprocess : Z
}.

(** Lines 150-157: one pipe per [parallel_processes], the global that the
    main block sets, and one worker per [processes]. The [zip] of no pipe
    yields nothing to unpack into the two names; a worker beyond the pipes
    finds no connection at its index. *)
Definition connections (parallel_processes processes : Z) : result nat :=
  if parallel_processes <? 1 then Raise ValueError
  else if parallel_processes <? processes then Raise IndexError
  else Ok (Z.to_nat parallel_processes).

(** Lines 165-166: one [recv] per pipe, in the order of the pipes; the
    first pipes are those of the workers. No process sends through a pipe
    beyond them, and the collecting process keeps its sending end open, so
    [recv] does not return there. *)
Fixpoint receive (pipes : nat) (messages : list message)
    (received_scaffold_files : list created_file) : run (list created_file) :=
  match pipes with
  | O => mret received_scaffold_files
  | S pipes' =>
      match messages with
      | [] => Run [] Blocks
      | m :: rest =>
          received ← lift (extend received_scaffold_files m);
          receive pipes' rest received
      end
  end.

(** [s[:-1]]. *)
Fixpoint drop_last (s : string) : string :=
  match s with
  | EmptyString => EmptyString
  | String _ EmptyString => EmptyString
  | String c r => String c (drop_last r)
  end.

Section Parallel.

Variable env : subprocesses.
(** The global [parallel_processes] of lines 457-465, read at line 151. *)
Variable parallel_processes : Z.

(** Lines 173-247, for the pairs of files that were received: the files
    are unzipped, the metrics files moved, the BAM files of the scaffolds
    concatenated in reference order, indexed and synchronized to the
    directory of the output. Whether the loop that moves the metrics files
    fails does not depend on the files in the directory
    ([move_metrics_spec]); it is run here on the empty one. *)
Definition deliver (bam_path temp_path fixed_bam_path : Path.t)
    (complete_output_bam complete_output_metrics_file : Path.t)
    (reference_names : list string)
    (received_scaffold_files : list (Path.t * Path.t)) : run Path.t :=
  match received_scaffold_files with
  | [] => raise ValueError
  | _ :: _ =>
      let received_scaffold_bam_paths := received_scaffold_files.*1 in
      let received_scaffold_metrics_files := received_scaffold_files.*2 in
      let metrics_output_dir :=
        Path.join (Path.parent complete_output_metrics_file)
          (Path.stem bam_path +:+ "_scaffold_metrics") in
      _ ← does (MoveMetrics received_scaffold_metrics_files
                  metrics_output_dir);
      _ ← lift (move_metrics received_scaffold_metrics_files [] ∅).2;
      let concatenated_bam :=
        Path.join temp_path (Path.name complete_output_bam) in
      ordered ← lift (ordered_scaffold_paths reference_names
                        received_scaffold_bam_paths);
      _ ← does (Concatenation ordered concatenated_bam);
      _ ← check_returncode (concatenation_subprocess env)
            ConcatenationFailed 1;
      _ ← does (RemoveTrees (map Path.parent received_scaffold_bam_paths));
      _ ← does (RemoveMateFixed fixed_bam_path);
      let index_path :=
        Path.of_string (Path.str concatenated_bam +:+ ".bai") in
      _ ← does (Indexing concatenated_bam index_path);
      _ ← check_returncode (indexing_subprocess env) IndexingFailed 1;
      let final_output_dir := Path.parent complete_output_bam in
      _ ← does (Rsync (drop_last (Path.str concatenated_bam) +:+ "*")
                  final_output_dir);
      _ ← check_returncode (rsync_subprocess env) RsyncFailed 1;
      _ ← does (Unlink [index_path; concatenated_bam]);
      mret temp_path
  end.

Definition mark_duplicates_with_mate_cigar_parallel (bam_path temp_dir : Path.t)
    (processes : Z) (complete_output_bam complete_output_metrics_file : Path.t)
  : run Path.t :=
  let temp_path := temp_dir in
  let fixed_bam_path :=
    Path.join temp_path (Path.stem bam_path +:+ ".mateFixed.sorted.bam") in
  _ ← does (MateFixing (sort_threads processes) bam_path fixed_bam_path);
  _ ← check_returncode (called_mate_fixing_cmd env) MateFixingFailed 3;
  _ ← does (ReferenceOrder fixed_bam_path);
  c ← lift (read_reference_order (called_ref_order_command env).1
              (called_ref_order_command env).2);
  p ← lift (partition c processes);
  pipes ← lift (connections parallel_processes processes);
  _ ← does (Workers fixed_bam_path (worker_scaffold_lists p));
  received_scaffold_files ←
    receive pipes
      (run_workers temp_dir complete_output_bam complete_output_metrics_file
         (draws env) (paired_end_dup_marking_cmd env) 0
         (worker_scaffold_lists p)) [];
  if bool_decide (None ∈ received_scaffold_files) then
    _ ← does (Print (WorkersFailed
                       (length (filter (λ rbp, rbp = None)
                                  received_scaffold_files))));
    raise (SystemExit 1)
  else
    deliver bam_path temp_path fixed_bam_path complete_output_bam
      complete_output_metrics_file (reference_names c)
      (omap id received_scaffold_files).

End Parallel.

(** * Properties *)

(** ** Python built-ins *)

Ltac zbool :=
  repeat match goal with
  | |- context [Z.ltb ?a ?b] => destruct (Z.ltb_spec a b)
  | |- context [Z.leb ?a ?b] => destruct (Z.leb_spec a b)
  | |- context [Z.eqb ?a ?b] => destruct (Z.eqb_spec a b)
  end.

Lemma getitem_nat {A} (l : list A) (i : nat) (x : A) :
  l !! i = Some x → Py.getitem l (Z.of_nat i) = Ok x.
Proof.
  intros Hx. pose proof (lookup_lt_Some _ _ _ Hx) as Hlt.
  unfold Py.getitem.
  destruct (Z.ltb_spec (Z.of_nat i) 0) as [|_]; [lia|].
  destruct (Z.leb_spec 0 (Z.of_nat i)) as [_|]; [|lia].
  destruct (Z.ltb_spec (Z.of_nat i) (Z.of_nat (length l))) as [_|]; [|lia].
  simpl. by rewrite Nat2Z.id, Hx.
Qed.

Lemma setitem_nat {A} (l : list A) (i : nat) (x : A) :
  (i < length l)%nat → Py.setitem l (Z.of_nat i) x = Ok (<[i := x]> l).
Proof.
  intros Hlt. unfold Py.setitem.
  destruct (Z.ltb_spec (Z.of_nat i) 0) as [|_]; [lia|].
  destruct (Z.leb_spec 0 (Z.of_nat i)) as [_|]; [|lia].
  destruct (Z.ltb_spec (Z.of_nat i) (Z.of_nat (length l))) as [_|]; [|lia].
  simpl. by rewrite Nat2Z.id.
Qed.

Lemma getitem_empty {A} (i : Z) : Py.getitem (@nil A) i = Raise IndexError.
Proof.
  unfold Py.getitem. cbn [length]. zbool; simpl; try done; lia.
Qed.

Lemma foldl_min_le (l : list Z) (x : Z) :
  foldl Z.min x l ≤ x ∧ Forall (λ y, foldl Z.min x l ≤ y) l.
Proof.
  revert x. induction l as [|y l IH]; intros x; simpl; [split; [lia|constructor]|].
  destruct (IH (Z.min x y)) as [H1 H2]. split; [lia|].
  constructor; [lia|done].
Qed.

Lemma foldl_min_elem (l : list Z) (x : Z) : foldl Z.min x l ∈ x :: l.
Proof.
  revert x. induction l as [|y l IH]; intros x; simpl; [set_solver|].
  specialize (IH (Z.min x y)).
  apply elem_of_cons in IH as [->|IH]; [|set_solver].
  destruct (Z.min_spec x y) as [[_ ->]|[_ ->]]; set_solver.
Qed.

(** [min] then [index] on a non-empty list: the first position of a
    smallest entry. *)
Lemma min_index (l : list Z) :
  l ≠ [] →
  ∃ m j, Py.min l = Ok m ∧ Py.index l m = Ok j ∧ l !! j = Some m
         ∧ Forall (λ y, m ≤ y) l ∧ ∀ k y, (k < j)%nat → l !! k = Some y → m < y.
Proof.
  destruct l as [|x l]; [done|intros _].
  set (m := foldl Z.min x l).
  assert (Hall : Forall (λ y, m ≤ y) (x :: l)).
  { destruct (foldl_min_le l x). by constructor. }
  assert (Hin : m ∈ x :: l) by apply foldl_min_elem.
  destruct (list_find (λ y, y = m) (x :: l)) as [[j y]|] eqn:Hfind.
  - apply list_find_Some in Hfind as (Hj & -> & Hbefore).
    exists m, j. simpl. fold m. unfold Py.index.
    replace (list_find (λ y, y = m) (x :: l)) with (Some (j, m)); last first.
    { symmetry. apply list_find_Some. done. }
    repeat split; try done.
    intros k y Hk Hy. specialize (Hbefore k y Hy Hk).
    rewrite Forall_forall in Hall.
    assert (m ≤ y) by (apply Hall; eapply list_elem_of_lookup_2; done). lia.
  - apply list_find_None in Hfind. rewrite Forall_forall in Hfind.
    by specialize (Hfind m Hin).
Qed.

(** ** The worker with the smallest running total *)

Lemma smallest_spec (f : nat → Z) (n : nat) :
  (0 < n)%nat →
  (Reference.smallest f n < n)%nat
  ∧ (∀ w, (w < n)%nat → f (Reference.smallest f n) ≤ f w)
  ∧ (∀ w, (w < Reference.smallest f n)%nat → f (Reference.smallest f n) < f w).
Proof.
  induction n as [|n IH]; [lia|intros _].
  destruct n as [|n].
  - simpl. zbool; [lia|]. split; [lia|]. split; intros w Hw; [|lia].
    by replace w with 0%nat by lia.
  - destruct IH as (Hlt & Hle & Hfirst); [lia|].
    change (Reference.smallest f (S (S n)))
      with (let w := Reference.smallest f (S n) in
            if f (S n) <? f w then S n else w).
    cbv zeta. destruct (Z.ltb_spec (f (S n)) (f (Reference.smallest f (S n))))
      as [Hnew|Hold].
    + split; [lia|]. split; intros w Hw.
      * destruct (decide (w = S n)) as [->|]; [lia|].
        specialize (Hle w). lia.
      * specialize (Hle w). lia.
    + split; [lia|]. split; intros w Hw.
      * destruct (decide (w = S n)) as [->|]; [lia|]. apply Hle. lia.
      * by apply Hfirst.
Qed.

(** [min] followed by [index] on the list of the running totals picks the
    worker [Reference.smallest] names. *)
Lemma min_index_smallest (f : nat → Z) (n : nat) :
  (0 < n)%nat →
  ∃ m, Py.min (map f (seq 0 n)) = Ok m
       ∧ Py.index (map f (seq 0 n)) m = Ok (Reference.smallest f n).
Proof.
  intros Hn.
  destruct (min_index (map f (seq 0 n))) as (m & j & Hmin & Hidx & Hj & Hall & Hfirst).
  { destruct n; [lia|done]. }
  exists m. split; [done|]. rewrite Hidx. f_equal.
  destruct (smallest_spec f n Hn) as (Hlt & Hle & Hlow).
  assert (Hlook : ∀ w, (w < n)%nat → map f (seq 0 n) !! w = Some (f w)).
  { intros w Hw. rewrite list_lookup_fmap, lookup_seq_lt by done. done. }
  assert (Hjn : (j < n)%nat).
  { apply lookup_lt_Some in Hj. by rewrite length_map, length_seq in Hj. }
  assert (Hfj : f j = m).
  { rewrite Hlook in Hj by done. by injection Hj. }
  rewrite Forall_forall in Hall.
  assert (Hms : m ≤ f (Reference.smallest f n)).
  { apply Hall. eapply list_elem_of_lookup_2. by apply Hlook. }
  destruct (Nat.lt_trichotomy j (Reference.smallest f n)) as [Hc|[Hc|Hc]]; [|done|].
  - specialize (Hlow j Hc). lia.
  - specialize (Hfirst _ _ Hc (Hlook _ Hlt)). specialize (Hle j Hjn). lia.
Qed.

(** ** The loop of the partition follows the walk of the specification *)

Lemma insert_map_seq {A} (f g : nat → A) (w N : nat) (x : A) :
  (w < N)%nat → g w = x → (∀ v, v ≠ w → g v = f v) →
  <[w := x]> (map f (seq 0 N)) = map g (seq 0 N).
Proof.
  intros Hw Hx Hg. apply list_eq. intros v.
  destruct (decide (v < N)%nat) as [Hv|Hv].
  - destruct (decide (v = w)) as [->|Hne].
    + rewrite list_lookup_insert_eq by (by rewrite length_map, length_seq).
      rewrite list_lookup_fmap, lookup_seq_lt by done. simpl. by rewrite Hx.
    + rewrite list_lookup_insert_ne by done.
      rewrite !list_lookup_fmap, lookup_seq_lt by done. simpl. by rewrite Hg.
  - rewrite !lookup_ge_None_2; [done| |].
    + rewrite length_map, length_seq. lia.
    + rewrite length_insert, length_map, length_seq. lia.
Qed.

Lemma assign_represents (N : nat) (st : plan) (rst : Reference.state)
    (w : nat) (s : string * Z) :
  (w < N)%nat → represents N st rst →
  ∃ st', assign st (Z.of_nat w) s.1 s.2 = Ok st'
         ∧ represents N st' (Reference.give w s rst).
Proof.
  intros Hw [Hl Hs]. unfold assign. rewrite Hl, Hs.
  rewrite (getitem_nat _ w (Reference.assigned rst w)); last first.
  { by rewrite list_lookup_fmap, lookup_seq_lt. }
  cbn [mbind result_bind].
  rewrite setitem_nat by (by rewrite length_map, length_seq).
  cbn [mbind result_bind].
  rewrite (getitem_nat _ w (Reference.total rst w)); last first.
  { by rewrite list_lookup_fmap, lookup_seq_lt. }
  cbn [mbind result_bind].
  rewrite setitem_nat by (by rewrite length_map, length_seq).
  cbn [mbind result_bind].
  eexists. split; [done|]. split; cbn [worker_scaffold_lists worker_scaffolds_cumulative_sums].
  - apply insert_map_seq; [done| |]; simpl.
    + by rewrite bool_decide_true.
    + intros v Hv. by rewrite bool_decide_false.
  - apply insert_map_seq; [done| |]; simpl.
    + by rewrite bool_decide_true.
    + intros v Hv. by rewrite bool_decide_false.
Qed.

Lemma plan_scaffold_represents (N : nat) (target : Z) (st : plan)
    (rst : Reference.state) (i : nat) (s : string * Z) :
  (0 < N)%nat → represents N st rst →
  ∃ st', plan_scaffold (Z.of_nat N) target st i s = Ok st'
         ∧ represents N st'
             (Reference.give (Reference.worker_for N target rst i s) s rst).
Proof.
  intros HN Hrep. pose proof Hrep as [Hl Hs].
  unfold plan_scaffold, Reference.worker_for. destruct s as [name len].
  rewrite <- Nat2Z.inj_mod.
  assert (Hmod : (i `mod` N < N)%nat) by (apply Nat.mod_upper_bound; lia).
  rewrite (getitem_nat _ _ (Reference.total rst (i `mod` N))); last first.
  { by rewrite Hs, list_lookup_fmap, lookup_seq_lt. }
  cbn [mbind result_bind snd].
  destruct (Z.ltb_spec (Reference.total rst (i `mod` N) + len) target).
  - by apply (assign_represents N st rst _ (name, len)).
  - destruct (min_index_smallest (Reference.total rst) N HN) as (m & Hmin & Hidx).
    rewrite Hs, Hmin. cbn [mbind result_bind]. rewrite Hidx.
    cbn [mbind result_bind].
    apply (assign_represents N st rst _ (name, len)); [|done].
    by apply smallest_spec.
Qed.

Lemma for_enumerate_represents (N : nat) (target : Z) (l : list (string * Z)) :
  (0 < N)%nat → ∀ (i : nat) (st : plan) (rst : Reference.state),
  represents N st rst →
  ∃ st', for_enumerate (plan_scaffold (Z.of_nat N) target) i l st = Ok st'
         ∧ represents N st' (Reference.walk N target i l rst).
Proof.
  intros HN. induction l as [|s l IH]; intros i st rst Hrep; simpl.
  - by exists st.
  - destruct (plan_scaffold_represents N target st rst i s HN Hrep)
      as (st1 & -> & Hrep1).
    cbn [mbind result_bind]. by apply IH.
Qed.

(** ** What every catalog read by the script satisfies *)

Lemma catalog_line_keyed (c c' : catalog) (t : string) :
  keyed c → catalog_line c t = Ok c' → keyed c'.
Proof.
  intros Hk. unfold catalog_line.
  destruct (Py.getitem (Py.split "," t) 0) as [ref_name|]; [|done].
  cbn [mbind result_bind]. case_bool_decide; [by intros [= <-]|].
  destruct (Py.getitem (Py.split "," t) 1) as [field|]; [|done].
  cbn [mbind result_bind].
  destruct (Py.int field) as [ref_length|]; [|done].
  cbn [mbind result_bind].
  destruct (ref_length =? 0); intros [= <-]; [done|].
  intros n. cbn [reference_names ref_dict].
  rewrite elem_of_app, list_elem_of_singleton, lookup_insert_is_Some, (Hk n).
  destruct (decide (ref_name = n)) as [->|Hne].
  - split; [by left|by intros _; right].
  - split.
    + intros [Hn|Hn]; [by right|congruence].
    + intros [Hn|[_ Hn]]; [congruence|by left].
Qed.

Lemma for_each_catalog_line_keyed (lines : list string) (c c' : catalog) :
  keyed c → for_each catalog_line lines c = Ok c' → keyed c'.
Proof.
  revert c. induction lines as [|t lines IH]; intros c Hk; simpl.
  - by intros [= <-].
  - destruct (catalog_line c t) as [c1|] eqn:Hline; [|done].
    cbn [mbind result_bind]. apply IH. by eapply catalog_line_keyed.
Qed.

Lemma read_reference_order_keyed (returncode : Z) (lines : list string)
    (c : catalog) :
  read_reference_order returncode lines = Ok c → keyed c.
Proof.
  unfold read_reference_order. destruct (returncode =? 0); [|done].
  apply for_each_catalog_line_keyed. intros n. cbn.
  rewrite lookup_empty. split; [by intros ?%elem_of_nil|by intros [? ?]].
Qed.

Lemma scaffolds_keyed (c : catalog) : keyed c → scaffolds c = Ok (pairs c).
Proof.
  intros Hk. unfold scaffolds, pairs.
  assert (Hall : Forall (λ n, is_Some (ref_dict c !! n)) (reference_names c)).
  { apply Forall_forall. intros n Hn. by apply Hk. }
  induction Hall as [|n l [len Hn] Hl IH]; [done|].
  cbn [comprehension]. rewrite Hn. cbn [mbind result_bind].
  destruct (comprehension _ l) as [lens|]; [|done].
  cbn [mbind result_bind] in *. injection IH as IH. simpl. by rewrite Hn, IH.
Qed.

Lemma pairs_names (c : catalog) : (pairs c).*1 = reference_names c.
Proof.
  unfold pairs. induction (reference_names c) as [|n l IH]; simpl; [done|].
  by f_equal.
Qed.

Lemma represents_start (N : nat) :
  represents N (Plan (replicate N []) (replicate N 0)) Reference.start.
Proof.
  assert (Hrep : ∀ {A} (x : A) a, replicate N x = map (λ _, x) (seq a N)).
  { intros A x. induction N as [|N IH]; intros a; simpl; [done|].
    f_equal. apply IH. }
  split; apply Hrep.
Qed.

(** With at least one worker the partition of a keyed catalog never raises:
    it is the walk of the specification for the code's own target. *)
Lemma partition_walk (c : catalog) (processes : Z) :
  keyed c → 1 ≤ processes →
  let N := Z.to_nat processes in
  let st := Reference.walk N (sum_values (ref_dict c) / processes) 0
              (sorted_descending (pairs c)) Reference.start in
  partition c processes
  = Ok (Plan (map (Reference.assigned st) (seq 0 N))
             (map (Reference.total st) (seq 0 N))).
Proof.
  intros Hk Hp N st. unfold partition.
  destruct (Z.eqb_spec processes 0); [lia|].
  rewrite (scaffolds_keyed c Hk). cbn [mbind result_bind].
  destruct (for_enumerate_represents N (sum_values (ref_dict c) / processes)
              (sorted_descending (pairs c)) ltac:(lia) 0%nat _ _
              (represents_start N)) as (st' & Hrun & [Hl Hs]).
  replace (Z.of_nat N) with processes in Hrun by lia.
  fold N. rewrite Hrun. f_equal. destruct st'. simpl in *. by subst.
Qed.

(** ** Sums *)

Lemma sum_Permutation (l k : list Z) : l ≡ₚ k → sum l = sum k.
Proof. induction 1; simpl; lia. Qed.

Lemma sum_seq_lower (f : nat → Z) (m : Z) (n : nat) :
  ∀ a, (∀ w, (a ≤ w < a + n)%nat → m ≤ f w) →
  Z.of_nat n * m ≤ sum (map f (seq a n)).
Proof.
  induction n as [|n IH]; intros a Hm; simpl; [lia|].
  specialize (IH (S a)). specialize (Hm a) as Ha.
  assert (Z.of_nat n * m ≤ sum (map f (seq (S a) n))).
  { apply IH. intros w Hw. apply Hm. lia. }
  lia.
Qed.

(** ** The sorted walk is a rearrangement of the catalog *)

Lemma insert_descending_Permutation (x : string * Z) (l : list (string * Z)) :
  insert_descending x l ≡ₚ x :: l.
Proof.
  induction l as [|y l IH]; simpl; [done|].
  destruct (x.2 <? y.2); [|done]. rewrite IH. apply perm_swap.
Qed.

Lemma sorted_descending_Permutation (l : list (string * Z)) :
  sorted_descending l ≡ₚ l.
Proof.
  induction l as [|x l IH]; simpl; [done|].
  rewrite insert_descending_Permutation. by constructor.
Qed.

(** ** Giving a scaffold to a worker *)

Lemma worker_for_lt (N : nat) (target : Z) (st : Reference.state) (i : nat)
    (s : string * Z) :
  (0 < N)%nat → (Reference.worker_for N target st i s < N)%nat.
Proof.
  intros HN. unfold Reference.worker_for.
  destruct (_ <? _); [apply Nat.mod_upper_bound; lia|by apply smallest_spec].
Qed.

Lemma give_assigned_outside (w : nat) (s : string * Z) (st : Reference.state)
    (n : nat) :
  ∀ a, (w < a ∨ a + n ≤ w)%nat →
  map (Reference.assigned (Reference.give w s st)) (seq a n)
  = map (Reference.assigned st) (seq a n).
Proof.
  induction n as [|n IH]; intros a Hw; simpl; [done|].
  rewrite bool_decide_false by lia. f_equal. apply IH. lia.
Qed.

Lemma give_assigned (w : nat) (s : string * Z) (st : Reference.state) (v : nat) :
  Reference.assigned (Reference.give w s st) v
  = if bool_decide (v = w) then Reference.assigned st v ++ [s.1]
    else Reference.assigned st v.
Proof. done. Qed.

Lemma give_total (w : nat) (s : string * Z) (st : Reference.state) (v : nat) :
  Reference.total (Reference.give w s st) v
  = if bool_decide (v = w) then Reference.total st v + s.2
    else Reference.total st v.
Proof. done. Qed.

Lemma give_assigned_inside (w : nat) (s : string * Z) (st : Reference.state)
    (n : nat) :
  ∀ a, (a ≤ w < a + n)%nat →
  concat (map (Reference.assigned (Reference.give w s st)) (seq a n))
  ≡ₚ concat (map (Reference.assigned st) (seq a n)) ++ [s.1].
Proof.
  induction n as [|n IH]; intros a Hw; [lia|].
  cbn [seq map concat]. rewrite give_assigned.
  destruct (decide (a = w)) as [->|Hne].
  - rewrite bool_decide_true by done.
    rewrite give_assigned_outside by lia.
    rewrite <- !(assoc_L (++)). apply Permutation_app_head, Permutation_app_comm.
  - rewrite bool_decide_false by done. rewrite IH by lia.
    by rewrite (assoc_L (++)).
Qed.

Lemma give_total_outside (w : nat) (s : string * Z) (st : Reference.state)
    (n : nat) :
  ∀ a, (w < a ∨ a + n ≤ w)%nat →
  map (Reference.total (Reference.give w s st)) (seq a n)
  = map (Reference.total st) (seq a n).
Proof.
  induction n as [|n IH]; intros a Hw; simpl; [done|].
  rewrite bool_decide_false by lia. f_equal. apply IH. lia.
Qed.

Lemma give_total_inside (w : nat) (s : string * Z) (st : Reference.state)
    (n : nat) :
  ∀ a, (a ≤ w < a + n)%nat →
  sum (map (Reference.total (Reference.give w s st)) (seq a n))
  = sum (map (Reference.total st) (seq a n)) + s.2.
Proof.
  induction n as [|n IH]; intros a Hw; [lia|].
  cbn [seq map sum foldr]. change (foldr Z.add 0) with sum. rewrite give_total.
  destruct (decide (a = w)) as [->|Hne].
  - rewrite bool_decide_true by done.
    rewrite give_total_outside by lia. lia.
  - rewrite bool_decide_false by done. rewrite IH by lia. lia.
Qed.

(** Every scaffold of the walk lands in the list of one worker. *)
Lemma walk_assigned (N : nat) (target : Z) (l : list (string * Z)) :
  (0 < N)%nat → ∀ (i : nat) (st : Reference.state),
  concat (map (Reference.assigned (Reference.walk N target i l st)) (seq 0 N))
  ≡ₚ concat (map (Reference.assigned st) (seq 0 N)) ++ l.*1.
Proof.
  intros HN. induction l as [|s l IH]; intros i st; simpl.
  - by rewrite (right_id_L [] (++)).
  - rewrite IH. rewrite give_assigned_inside.
    + by rewrite <- (assoc_L (++)).
    + pose proof (worker_for_lt N target st i s HN). lia.
Qed.

Lemma start_assigned (N : nat) :
  concat (map (Reference.assigned Reference.start) (seq 0 N)) = [].
Proof. generalize 0%nat. induction N as [|N IH]; intros a; simpl; [done|apply IH]. Qed.

Lemma partition_lists (c : catalog) (processes : Z) :
  keyed c → 1 ≤ processes →
  ∃ p, partition c processes = Ok p
       ∧ length (worker_scaffold_lists p) = Z.to_nat processes
       ∧ concat (worker_scaffold_lists p) ≡ₚ reference_names c.
Proof.
  intros Hk Hp. eexists. split; [by apply partition_walk|].
  cbn [worker_scaffold_lists].
  split; [by rewrite length_map, length_seq|].
  rewrite walk_assigned by lia. rewrite start_assigned. simpl.
  rewrite sorted_descending_Permutation. by rewrite pairs_names.
Qed.

(** C2. With at least one worker, the partition of a catalog the script has
    read gives one list per worker, and the lists together hold the names of
    the catalog, each as often as the catalog has it: every scaffold is in
    the list of exactly one worker, and when the names of the catalog are
    distinct no name is in two lists or twice in one list. *)
Theorem partition_assigns_every_scaffold_once (returncode : Z)
    (lines : list string) (c : catalog) (processes : Z) :
  read_reference_order returncode lines = Ok c → 1 ≤ processes →
  ∃ p, partition c processes = Ok p
       ∧ length (worker_scaffold_lists p) = Z.to_nat processes
       ∧ concat (worker_scaffold_lists p) ≡ₚ reference_names c
       ∧ (NoDup (reference_names c) → NoDup (concat (worker_scaffold_lists p))).
Proof.
  intros Hread Hp. apply read_reference_order_keyed in Hread as Hk.
  destruct (partition_lists c processes Hk Hp) as (p & Hpart & Hlen & Hperm).
  exists p. repeat split; [done..|]. intros Hnd. by rewrite Hperm.
Qed.

Lemma partition_assigns_every_scaffold_once_witness :
  ∃ c, read_reference_order 0 ["chr1,100"; "chr2,90"; "chr3,60"]%string = Ok c
       ∧ ∃ p, partition c 2 = Ok p
              ∧ length (worker_scaffold_lists p) = Z.to_nat 2
              ∧ concat (worker_scaffold_lists p) ≡ₚ reference_names c
              ∧ (NoDup (reference_names c)
                 → NoDup (concat (worker_scaffold_lists p))).
Proof.
  eexists. split; [vm_compute; reflexivity|].
  apply (partition_assigns_every_scaffold_once 0
           ["chr1,100"; "chr2,90"; "chr3,60"]%string);
    [vm_compute; reflexivity|lia].
Defined.

(** ** The target of the code and the total of the catalog *)

Lemma map_to_list_pairs (c : catalog) :
  keyed c → NoDup (reference_names c) → map_to_list (ref_dict c) ≡ₚ pairs c.
Proof.
  intros Hk Hnd. apply NoDup_Permutation.
  - apply NoDup_map_to_list.
  - apply (NoDup_fmap_1 fst). by rewrite pairs_names.
  - intros [k v]. rewrite elem_of_map_to_list. unfold pairs.
    rewrite list_elem_of_fmap. split.
    + intros Hkv. exists k. rewrite Hkv. split; [done|]. apply Hk. by eexists.
    + intros (n & [= -> ->] & Hn). apply Hk in Hn as [v Hv]. by rewrite Hv.
Qed.

Lemma sum_values_pairs (c : catalog) :
  keyed c → NoDup (reference_names c) →
  sum_values (ref_dict c) = Reference.total_base_pairs (pairs c).
Proof.
  intros Hk Hnd. unfold sum_values, Reference.total_base_pairs.
  apply sum_Permutation, fmap_Permutation. by apply map_to_list_pairs.
Qed.

(** ** Bounded imbalance *)

Lemma sum_cons (x : Z) (l : list Z) : sum (x :: l) = x + sum l.
Proof. done. Qed.

Lemma sum_nonneg (l : list (string * Z)) :
  Forall (λ s, 0 ≤ s.2) l → 0 ≤ sum l.*2.
Proof.
  induction 1 as [|s l Hs Hl IH]; [done|]. rewrite fmap_cons, sum_cons. lia.
Qed.

Lemma longest_nonneg (cat : list (string * Z)) : 0 ≤ longest cat.
Proof. unfold longest. induction cat as [|s cat IH]; csimpl; lia. Qed.

Lemma longest_upper (cat : list (string * Z)) :
  Forall (λ s, s.2 ≤ longest cat) cat.
Proof.
  unfold longest. induction cat as [|s cat IH]; csimpl; constructor; [lia|].
  eapply Forall_impl; [exact IH|]. intros t Ht. simpl in *. lia.
Qed.

Lemma sum_app (l k : list Z) : sum (l ++ k) = sum l + sum k.
Proof. induction l as [|x l IH]; [done|]. cbn [app]. rewrite !sum_cons. lia. Qed.

(** The walk with any threshold that is not above the bound. *)
Lemma walk_bounded_threshold (N : nat) (t T M : Z) (l : list (string * Z)) :
  (0 < N)%nat → 0 ≤ M → t ≤ T / Z.of_nat N + M →
  ∀ (i : nat) (st : Reference.state),
  Forall (λ s, 0 ≤ s.2 ≤ M) l →
  sum (map (Reference.total st) (seq 0 N)) + sum l.*2 = T →
  (∀ w, (w < N)%nat → Reference.total st w ≤ T / Z.of_nat N + M) →
  ∀ w, (w < N)%nat →
  Reference.total (Reference.walk N t i l st) w ≤ T / Z.of_nat N + M.
Proof.
  intros HN HM Ht. induction l as [|s l IH]; intros i st Hl Hsum Hst; [done|].
  apply Forall_cons in Hl as [Hs Hl]. cbn [Reference.walk].
  pose proof (worker_for_lt N t st i s HN) as Hw.
  rewrite fmap_cons, sum_cons in Hsum.
  apply IH; [done| |].
  - rewrite give_total_inside by lia. lia.
  - intros v Hv. rewrite give_total. case_bool_decide as Hvw; [subst v|by apply Hst].
    unfold Reference.worker_for.
    destruct (Z.ltb_spec (Reference.total st (i `mod` N) + s.2) t)
      as [Hnaive|_]; [lia|].
    destruct (smallest_spec (Reference.total st) N HN) as (_ & Hle & _).
    assert (Hlow : Z.of_nat N * Reference.total st (Reference.smallest (Reference.total st) N)
                   ≤ sum (map (Reference.total st) (seq 0 N))).
    { apply sum_seq_lower. intros u Hu. apply Hle. lia. }
    assert (Hrest : 0 ≤ sum l.*2).
    { apply sum_nonneg. eapply Forall_impl; [exact Hl|]. intros u Hu. simpl in Hu. lia. }
    assert (Reference.total st (Reference.smallest (Reference.total st) N)
            ≤ T / Z.of_nat N).
    { apply Z.div_le_lower_bound; lia. }
    lia.
Qed.

(** The running total of a worker is the sum of the lengths of the
    scaffolds in its list. *)
Lemma walk_base_pairs (c : catalog) (N : nat) (t : Z) (l : list (string * Z)) :
  Forall (λ s, s.2 = default 0 (ref_dict c !! s.1)) l →
  ∀ (i : nat) (st : Reference.state),
  (∀ v, Reference.total st v = base_pairs c (Reference.assigned st v)) →
  ∀ v, Reference.total (Reference.walk N t i l st) v
       = base_pairs c (Reference.assigned (Reference.walk N t i l st) v).
Proof.
  induction 1 as [|s l Hs Hl IH]; intros i st Hst; [done|].
  cbn [Reference.walk]. apply IH. intros v.
  rewrite give_total, give_assigned. case_bool_decide; [|done].
  unfold base_pairs in *. rewrite map_app, sum_app. cbn [map].
  rewrite sum_cons, <- Hs, Hst. change (sum []) with 0. lia.
Qed.

Lemma pairs_lengths (c : catalog) :
  Forall (λ s, s.2 = default 0 (ref_dict c !! s.1)) (pairs c).
Proof. unfold pairs. apply Forall_fmap, Forall_forall. done. Qed.

(** Every key of [ref_dict] is a reference name, so the sum of its values
    is not above the sum over the names, which counts a name as often as
    it occurs. *)
Lemma sum_values_pairs_le (c : catalog) :
  keyed c → map_Forall (λ _ len, 0 ≤ len) (ref_dict c) →
  sum_values (ref_dict c) ≤ Reference.total_base_pairs (pairs c)
  ∧ Forall (λ s : string * Z, 0 ≤ s.2) (pairs c).
Proof.
  intros Hk Hpos.
  assert (Hall : Forall (λ s : string * Z, 0 ≤ s.2) (pairs c)).
  { unfold pairs. apply Forall_fmap, Forall_forall. intros n Hn. simpl.
    apply Hk in Hn as [len Hlen]. rewrite Hlen. by apply (Hpos n). }
  split; [|done].
  assert (Hsub : map_to_list (ref_dict c) ⊆+ pairs c).
  { apply NoDup_submseteq; [apply NoDup_map_to_list|].
    intros [k v] Hkv%elem_of_map_to_list. unfold pairs.
    apply list_elem_of_fmap. exists k. rewrite Hkv. split; [done|].
    apply Hk. by eexists. }
  apply submseteq_Permutation in Hsub as [rest Hrest].
  unfold sum_values, Reference.total_base_pairs.
  rewrite (sum_Permutation _ _ (fmap_Permutation snd _ _ Hrest)).
  rewrite fmap_app, sum_app.
  assert (0 ≤ sum rest.*2); [|lia].
  apply sum_nonneg. rewrite Hrest in Hall. by apply Forall_app in Hall as [_ ?].
Qed.

(** C4. With at least one worker, for a catalog the script has read whose
    lengths are not negative, the cumulative sum of every worker is the sum
    of the lengths of the scaffolds in its list, and it is at most the
    target (the total of the lengths of the scaffolds divided by the number
    of workers, rounded down) plus the largest length of the catalog. *)
Theorem partition_bounded_imbalance (returncode : Z) (lines : list string)
    (c : catalog) (processes : Z) :
  read_reference_order returncode lines = Ok c → 1 ≤ processes →
  map_Forall (λ _ len, 0 ≤ len) (ref_dict c) →
  ∃ cat p, scaffolds c = Ok cat ∧ partition c processes = Ok p
       ∧ worker_scaffolds_cumulative_sums p
         = map (base_pairs c) (worker_scaffold_lists p)
       ∧ Forall (λ names,
           base_pairs c names
           ≤ Reference.total_base_pairs cat / processes + longest cat)
           (worker_scaffold_lists p).
Proof.
  intros Hread Hp Hpos. apply read_reference_order_keyed in Hread as Hk.
  exists (pairs c). eexists. split; [by apply scaffolds_keyed|].
  split; [by apply partition_walk|].
  cbn [worker_scaffolds_cumulative_sums worker_scaffold_lists].
  destruct (sum_values_pairs_le c Hk Hpos) as [Hle Hall].
  set (T := Reference.total_base_pairs (pairs c)).
  set (t := sum_values (ref_dict c) / processes).
  set (N := Z.to_nat processes).
  assert (Hsums : ∀ v,
    Reference.total (Reference.walk N t 0 (sorted_descending (pairs c))
                       Reference.start) v
    = base_pairs c (Reference.assigned
                      (Reference.walk N t 0 (sorted_descending (pairs c))
                         Reference.start) v)).
  { apply walk_base_pairs; [|done].
    rewrite sorted_descending_Permutation. apply pairs_lengths. }
  split.
  - rewrite <- list_fmap_compose. apply list_fmap_ext. intros _ v _. apply Hsums.
  - apply Forall_fmap, Forall_forall. intros w Hw%elem_of_seq. simpl.
    rewrite <- Hsums.
    pose proof (longest_nonneg (pairs c)) as HM.
    replace processes with (Z.of_nat N) by lia.
    apply walk_bounded_threshold; [lia|done| | | | |lia].
    + assert (t ≤ T / Z.of_nat N); [|lia].
      unfold t. replace (Z.of_nat N) with processes by lia.
      apply Z.div_le_mono; [lia|done].
    + apply Forall_forall. intros s Hs.
      rewrite sorted_descending_Permutation in Hs.
      rewrite Forall_forall in Hall.
      pose proof (longest_upper (pairs c)) as Hup.
      rewrite Forall_forall in Hup. split; [by apply Hall|by apply Hup].
    + assert (H0 : sum (map (Reference.total Reference.start) (seq 0 N)) = 0).
      { generalize 0%nat. clear. induction N as [|N IH]; intros a; [done|].
        cbn [seq map]. rewrite sum_cons, IH. done. }
      rewrite H0. unfold T, Reference.total_base_pairs.
      apply sum_Permutation, fmap_Permutation, sorted_descending_Permutation.
    + intros v _. simpl.
      assert (0 ≤ T / Z.of_nat N); [|lia].
      apply Z.div_pos; [|lia]. by apply sum_nonneg.
Qed.

Lemma partition_bounded_imbalance_witness :
  ∃ c, read_reference_order 0 ["chr1,100"; "chr2,90"; "chr3,60"]%string = Ok c
       ∧ ∃ cat p, scaffolds c = Ok cat ∧ partition c 2 = Ok p
              ∧ worker_scaffolds_cumulative_sums p
                = map (base_pairs c) (worker_scaffold_lists p)
              ∧ Forall (λ names,
                  base_pairs c names
                  ≤ Reference.total_base_pairs cat / 2 + longest cat)
                  (worker_scaffold_lists p).
Proof.
  eexists. split; [vm_compute; reflexivity|].
  apply (partition_bounded_imbalance 0
           ["chr1,100"; "chr2,90"; "chr3,60"]%string);
    [vm_compute; reflexivity|lia|].
  apply (bool_decide_unpack _). vm_compute. exact I.
Defined.

(** ** The stable sort is the sort by length and position *)

Lemma place_positions (P : nat * (string * Z) → Prop) (a : nat * (string * Z))
    (l : list (nat * (string * Z))) :
  P a → Forall P l → Forall P (Reference.place a l).
Proof.
  intros Ha. induction 1 as [|b l Hb Hl IH]; simpl; [by repeat constructor|].
  destruct (Reference.before a b); repeat constructor; done.
Qed.

Lemma place_insert_descending (k : nat) (x : string * Z)
    (l : list (nat * (string * Z))) :
  Forall (λ b, (k < b.1)%nat) l →
  (Reference.place (k, x) l).*2 = insert_descending x l.*2.
Proof.
  induction 1 as [|b l Hb Hl IH]; [done|]. cbn [Reference.place].
  rewrite fmap_cons. cbn [insert_descending]. unfold Reference.before.
  cbn [fst snd].
  destruct (Z.ltb_spec x.2 b.2.2) as [Hlt|Hge].
  - destruct (Z.ltb_spec b.2.2 x.2); [lia|].
    destruct (Z.eqb_spec x.2 b.2.2); [lia|]. cbn [orb andb].
    by rewrite fmap_cons, IH.
  - destruct (Z.ltb_spec b.2.2 x.2); [done|].
    destruct (Z.eqb_spec x.2 b.2.2); [|lia].
    destruct (Nat.ltb_spec k b.1); [done|lia].
Qed.

Lemma sort_number (cat : list (string * Z)) :
  ∀ k, Forall (λ b, (k ≤ b.1)%nat) (foldr Reference.place [] (Reference.number k cat))
       ∧ (foldr Reference.place [] (Reference.number k cat)).*2
         = sorted_descending cat.
Proof.
  induction cat as [|s cat IH]; intros k; [by split|].
  destruct (IH (S k)) as [Hpos Hsort]. cbn [Reference.number foldr]. split.
  - apply place_positions; [simpl; lia|].
    eapply Forall_impl; [exact Hpos|]. intros b Hb. simpl in Hb. lia.
  - rewrite place_insert_descending.
    + by rewrite Hsort.
    + eapply Forall_impl; [exact Hpos|]. intros b Hb. simpl in Hb. lia.
Qed.

Lemma sorted_walk_sorted_descending (cat : list (string * Z)) :
  Reference.sorted_walk cat = sorted_descending cat.
Proof. apply sort_number. Qed.

(** C3 (amended). With at least one worker, for a catalog the script has
    read whose names are distinct, the partition is the one of the algorithm the
    specification gives: the target is the total of the lengths divided by
    the number of workers, the scaffolds are walked longest first and in
    catalog order among equal lengths, and the i-th of them goes to worker
    [i mod N] when that keeps its total below the target and to the worker
    with the smallest total, the lowest index on ties, otherwise. For the
    lengths 100, 90, 60, 50 and two workers, worker 0 gets scaffolds 0 and
    3 and worker 1 gets scaffolds 1 and 2, 150 base pairs each. *)
Theorem partition_is_reference_algorithm (returncode : Z)
    (lines : list string) (c : catalog) (processes : Z) :
  read_reference_order returncode lines = Ok c → 1 ≤ processes →
  NoDup (reference_names c) →
  (∃ cat, scaffolds c = Ok cat
          ∧ partition c processes
            = Ok (Reference.partition cat (Z.to_nat processes)))
  ∧ lengths_example
    = Ok (Plan [["scaffold0"; "scaffold3"]; ["scaffold1"; "scaffold2"]]%string
               [150; 150]).
Proof.
  intros Hread Hp Hnd. apply read_reference_order_keyed in Hread as Hk.
  split; [|vm_compute; reflexivity].
  exists (pairs c). split; [by apply scaffolds_keyed|].
  rewrite partition_walk by done. cbv zeta. unfold Reference.partition.
  rewrite sorted_walk_sorted_descending, (sum_values_pairs c Hk Hnd).
  by rewrite Z2Nat.id by lia.
Qed.

Lemma partition_is_reference_algorithm_witness :
  ∃ c, read_reference_order 0 ["chr1,100"; "chr2,90"; "chr3,90"]%string = Ok c
  ∧ (∃ cat, scaffolds c = Ok cat
            ∧ partition c 2 = Ok (Reference.partition cat (Z.to_nat 2)))
  ∧ lengths_example
    = Ok (Plan [["scaffold0"; "scaffold3"]; ["scaffold1"; "scaffold2"]]%string
               [150; 150]).
Proof.
  eexists. split; [vm_compute; reflexivity|].
  apply (partition_is_reference_algorithm 0
           ["chr1,100"; "chr2,90"; "chr3,90"]%string);
    [vm_compute; reflexivity|lia|].
  apply (bool_decide_unpack _). vm_compute. exact I.
Defined.

(** C3 (as stated) fails: awk cuts the names [x:1] and [x:2] of a header at
    the colon, so the catalog holds the name [x] twice while [ref_dict]
    holds one length for it. The code divides the sum of the values of
    [ref_dict], 13, the algorithm of the specification the total of the
    lengths of the scaffolds, 16: the targets are 6 and 8 and the plans
    differ. *)
Lemma repeated_name_changes_the_plan :
  (catalog_of [SQ "x:1" 1; SQ "x:2" 3; SQ "a" 3; SQ "b" 3; SQ "c" 4]
   ≫= scaffolds)
  = Ok [("x", 3); ("x", 3); ("a", 3); ("b", 3); ("c", 4)]%string
  ∧ (c ← catalog_of [SQ "x:1" 1; SQ "x:2" 3; SQ "a" 3; SQ "b" 3; SQ "c" 4];
     partition c 2)
    = Ok (Plan [["c"; "a"]; ["x"; "x"; "b"]]%string [7; 9])
  ∧ Reference.partition
      [("x", 3); ("x", 3); ("a", 3); ("b", 3); ("c", 4)]%string 2
    = Plan [["c"; "x"]; ["x"; "a"; "b"]]%string [7; 9].
Proof. repeat split; vm_compute; reflexivity. Qed.
(** ** When the partition fails *)

Lemma sorted_descending_nil (l : list (string * Z)) :
  sorted_descending l = [] → l = [].
Proof.
  intros Hnil. apply Permutation_nil_r.
  rewrite <- Hnil. symmetry. apply sorted_descending_Permutation.
Qed.

(** C8 (amended). For a catalog the script has read, the partition succeeds
    for every number of workers of at least 1, also when the catalog is
    empty; with 0 workers it fails on the division; with a negative number
    it fails on the first list access unless the catalog is empty, in which
    case it returns no lists at all. *)
Theorem partition_failures (returncode : Z) (lines : list string) (c : catalog)
    (processes : Z) :
  read_reference_order returncode lines = Ok c →
  (1 ≤ processes → is_ok (partition c processes) = true)
  ∧ (processes = 0 → partition c processes = Raise ZeroDivisionError)
  ∧ (processes < 0 →
     partition c processes
     = match reference_names c with
       | [] => Ok (Plan [] [])
       | _ :: _ => Raise IndexError
       end).
Proof.
  intros Hread. apply read_reference_order_keyed in Hread as Hk.
  split; [|split].
  - intros Hp. by rewrite partition_walk.
  - intros ->. done.
  - intros Hp. unfold partition.
    destruct (Z.eqb_spec processes 0); [lia|].
    rewrite (scaffolds_keyed c Hk). cbn [mbind result_bind].
    replace (Z.to_nat processes) with 0%nat by lia. cbn [replicate].
    destruct (sorted_descending (pairs c)) as [|[name len] l] eqn:Hsort.
    + apply sorted_descending_nil in Hsort.
      apply (f_equal (fmap fst)) in Hsort. rewrite pairs_names in Hsort.
      by rewrite Hsort.
    + assert (Hne : reference_names c ≠ []).
      { intros Hnil. rewrite <- pairs_names in Hnil.
        apply fmap_nil_inv in Hnil. by rewrite Hnil in Hsort. }
      destruct (reference_names c); [done|].
      cbn [for_enumerate plan_scaffold worker_scaffolds_cumulative_sums].
      by rewrite getitem_empty.
Qed.

Lemma partition_failures_witness :
  ∃ c, read_reference_order 0 ["chr1,100"; "chr2,90"]%string = Ok c
  ∧ is_ok (partition c 2) = true
  ∧ partition c 0 = Raise ZeroDivisionError
  ∧ partition c (-1) = Raise IndexError.
Proof.
  eexists. split; [vm_compute; reflexivity|].
  split; [|split].
  - refine (proj1 (partition_failures 0 ["chr1,100"; "chr2,90"]%string _ 2 _) _);
      [vm_compute; reflexivity|lia].
  - refine (proj1 (proj2 (partition_failures 0 ["chr1,100"; "chr2,90"]%string
                            _ 0 _)) _); [vm_compute; reflexivity|lia].
  - refine (proj2 (proj2 (partition_failures 0 ["chr1,100"; "chr2,90"]%string
                            _ (-1) _)) _); [vm_compute; reflexivity|lia].
Defined.

(** C8 (as stated) fails: a catalog with no entry is read without error and
    partitioned without error, every worker getting an empty list. *)
Lemma partition_of_empty_catalog_succeeds :
  read_reference_order 0 [] = Ok empty_catalog
  ∧ partition empty_catalog 2 = Ok (Plan [[]; []] [0; 0]).
Proof. split; vm_compute; reflexivity. Qed.
(** ** Splitting strings *)

Lemma split_free (sep : ascii) (s : string) :
  contains sep s = false → Py.split sep s = [s].
Proof.
  induction s as [|a s IH]; [done|]. cbn [contains Py.split].
  destruct (Ascii.eqb a sep); [done|]. intros Hs. by rewrite IH.
Qed.

Lemma split_app (sep : ascii) (a b : string) :
  contains sep a = false →
  Py.split sep (a +:+ String sep b) = a :: Py.split sep b.
Proof.
  induction a as [|x a IH]; simpl.
  - by rewrite Ascii.eqb_refl.
  - destruct (Ascii.eqb x sep); [done|]. intros Ha. by rewrite IH.
Qed.

(** ** Decimal numerals *)

Lemma string_of_uint_free (c : ascii) (d : Decimal.uint) :
  c = ":"%char ∨ c = ","%char →
  contains c (NilEmpty.string_of_uint d) = false.
Proof.
  intros Hc. induction d as [|d IH|d IH|d IH|d IH|d IH|d IH|d IH|d IH|d IH|d IH];
    [done|..]; cbn [NilEmpty.string_of_uint contains]; rewrite IH;
    by destruct Hc as [-> | ->].
Qed.

Lemma decimal_free (c : ascii) (n : N) :
  c = ":"%char ∨ c = ","%char → contains c (decimal n) = false.
Proof.
  intros Hc. unfold decimal, NilZero.string_of_uint.
  destruct (N.to_uint n) eqn:Hd; try (rewrite <- Hd; by apply string_of_uint_free).
  by destruct Hc as [-> | ->].
Qed.

Lemma to_uint_nonnil (n : N) : N.to_uint n ≠ Decimal.Nil.
Proof. destruct n as [|p]; [done|]. apply DecimalPos.Unsigned.to_uint_nonnil. Qed.

Lemma int_decimal (n : N) : Py.int (decimal n) = Ok (Z.of_N n).
Proof.
  assert (Hd : Py.digits (decimal n) = Ok (Z.of_N n)).
  { unfold Py.digits, decimal.
    rewrite NilZero.usu by apply to_uint_nonnil.
    by rewrite DecimalN.Unsigned.of_to. }
  rewrite <- Hd. unfold decimal, NilZero.string_of_uint.
  pose proof (to_uint_nonnil n) as Hnil.
  destruct (N.to_uint n); done.
Qed.

(** ** The output line of a header line *)

Lemma awk_a2_tag (tag value : string) :
  contains ":" tag = false → contains ":" value = false →
  awk_a2 (tag +:+ String ":" value) = value.
Proof.
  intros Ht Hv. unfold awk_a2. rewrite split_app by done.
  by rewrite split_free.
Qed.

Lemma awk_sq_line (v : string * string) (e : sq) :
  contains ":" (SN e) = false →
  foldl awk_field v (sq_line e) = (SN e, decimal (LN e)).
Proof.
  intros Hn. unfold sq_line. cbn [foldl].
  assert (H1 : awk_field v "@SQ" = v) by done. rewrite H1.
  assert (H2 : awk_field v ("SN:" +:+ SN e) = (SN e, v.2)).
  { unfold awk_field.
    change ("SN:" +:+ SN e)%string with ("SN" +:+ String ":" (SN e))%string.
    rewrite awk_a2_tag by done. done. }
  rewrite H2.
  unfold awk_field.
  change ("LN:" +:+ decimal (LN e))%string
    with ("LN" +:+ String ":" (decimal (LN e)))%string.
  rewrite awk_a2_tag; [done|done|]. apply decimal_free. by left.
Qed.

(** *** Stripping and splitting the output *)

Lemma graphic_range (a : ascii) :
  graphic a = true → (33 ≤ nat_of_ascii a ≤ 126)%nat.
Proof. unfold graphic. intros [?%Nat.leb_le ?%Nat.leb_le]%andb_true_iff. lia. Qed.

Ltac bytes :=
  repeat match goal with
  | |- context [(?x <=? ?y)%nat] => destruct (Nat.leb_spec x y); try lia
  | |- context [(?x =? ?y)%nat] => destruct (Nat.eqb_spec x y); try lia
  end; try done.

Lemma space_graphic (a : ascii) (r : string) :
  graphic a = true → Py.space (String a r) = false.
Proof.
  intros Ha%graphic_range. destruct r as [|b [|c [|d r]]]; cbn [Py.space];
    unfold Py.space1, Py.space2, Py.space3; cbv zeta; bytes.
Qed.

Lemma space_newline (a : ascii) (r : string) :
  graphic a = true → Py.space (newline +:+ String a r) = false.
Proof.
  intros Ha%graphic_range. destruct r as [|c [|d r]]; cbn;
    unfold Py.space2, Py.space3; cbv zeta; bytes.
Qed.

Lemma lstrip_graphic (a : ascii) (r : string) :
  graphic a = true → Py.lstrip (String a r) = String a r.
Proof.
  intros Ha%graphic_range. cbn [Py.lstrip].
  unfold Py.space1, Py.space2, Py.space3. cbv zeta.
  destruct r as [|b [|c r]]; bytes.
Qed.

Lemma rstrip_printable (x t : string) :
  printable x = true → Py.rstrip (x +:+ t) = x +:+ Py.rstrip t.
Proof.
  induction x as [|a x IH]; [done|]. cbn [printable].
  intros [Ha Hx]%andb_true_iff.
  change (String a x +:+ t)%string with (String a (x +:+ t)).
  cbn [Py.rstrip]. rewrite (IH Hx). by rewrite space_graphic.
Qed.

Lemma splitlines_graphic (a : ascii) (r : string) :
  graphic a = true →
  Py.splitlines (String a r) = Py.extend_line a (Py.splitlines r).
Proof.
  intros Ha%graphic_range. cbn [Py.splitlines].
  unfold Py.break1, Py.break2, Py.break3. cbv zeta.
  destruct r as [|b [|c r]]; bytes.
Qed.

Lemma splitlines_line (x t : string) :
  printable x = true →
  Py.splitlines (x +:+ newline +:+ t) = x :: Py.splitlines t.
Proof.
  induction x as [|a x IH].
  - intros _. by destruct t.
  - cbn [printable]. intros [Ha Hx]%andb_true_iff.
    change (String a x +:+ newline +:+ t)%string
      with (String a (x +:+ newline +:+ t)).
    rewrite splitlines_graphic by done. by rewrite (IH Hx).
Qed.

Lemma splitlines_last (x : string) :
  printable x = true → x ≠ EmptyString → Py.splitlines x = [x].
Proof.
  induction x as [|a x IH]; [done|]. cbn [printable].
  intros [Ha Hx]%andb_true_iff _. rewrite splitlines_graphic by done.
  destruct x as [|b x]; [done|]. by rewrite IH.
Qed.

Lemma append_nil_r (s : string) : (s +:+ EmptyString)%string = s.
Proof.
  induction s as [|a s IH]; [done|].
  change (String a (s +:+ EmptyString) = String a s). by rewrite IH.
Qed.

(** Lines of printable characters come back as they were printed. *)
Lemma splitlines_strip_printed (records : list string) :
  Forall (λ x, printable x = true ∧ x ≠ EmptyString) records →
  Py.splitlines (Py.strip (printed records)) = records.
Proof.
  intros Hall. unfold Py.strip.
  assert (Hl : Py.lstrip (printed records) = printed records).
  { destruct Hall as [|x l [Hx Hne] _]; [done|].
    destruct x as [|a x]; [done|]. cbn [printable] in Hx.
    apply andb_true_iff in Hx as [Ha _].
    change (printed (String a x :: l))
      with (String a (x +:+ newline +:+ printed l)).
    by apply lstrip_graphic. }
  rewrite Hl. clear Hl.
  assert (Hr : Py.rstrip (printed records) = String.concat newline records).
  { induction Hall as [|x l [Hx Hne] Hl IH]; [done|].
    change (printed (x :: l)) with (x +:+ newline +:+ printed l)%string.
    rewrite rstrip_printable by done.
    change (newline +:+ printed l)%string
      with (String (ascii_of_nat 10) (printed l)).
    cbn [Py.rstrip]. rewrite IH. destruct Hl as [|y l [Hy Hyne] _].
    - cbn. by rewrite append_nil_r.
    - destruct y as [|b y]; [done|]. cbn [printable] in Hy.
      apply andb_true_iff in Hy as [Hb _].
      assert (Hc : ∃ r, String.concat newline (String b y :: l) = String b r).
      { destruct l; [by eexists|]. by eexists. }
      destruct Hc as [r Hc]. rewrite Hc.
      change (String (ascii_of_nat 10) (String b r))
        with (newline +:+ String b r)%string.
      rewrite space_newline by done. by rewrite <- Hc. }
  rewrite Hr. clear Hr.
  induction Hall as [|x l [Hx Hne] Hl IH]; [done|].
  destruct Hl as [|y l Hy Hl].
  - by apply splitlines_last.
  - change (String.concat newline (x :: y :: l))
      with (x +:+ newline +:+ String.concat newline (y :: l))%string.
    rewrite splitlines_line by done. by rewrite IH.
Qed.

Lemma printable_append (a b : string) :
  printable (a +:+ b) = printable a && printable b.
Proof.
  induction a as [|x a IH]; [done|].
  change (String x a +:+ b)%string with (String x (a +:+ b)).
  cbn [printable]. rewrite IH. by rewrite andb_assoc.
Qed.

Lemma printable_decimal (n : N) : printable (decimal n) = true.
Proof.
  assert (Hd : ∀ d, printable (NilEmpty.string_of_uint d) = true).
  { intros d.
    induction d as [|d IH|d IH|d IH|d IH|d IH|d IH|d IH|d IH|d IH|d IH];
      [done|..]; cbn [NilEmpty.string_of_uint printable]; by rewrite IH. }
  unfold decimal, NilZero.string_of_uint.
  destruct (N.to_uint n) eqn:Hn; try (rewrite <- Hn; apply Hd). done.
Qed.

Lemma sq_output_printable (e : sq) :
  plain (SN e) → printable (sq_output e) = true ∧ sq_output e ≠ EmptyString.
Proof.
  intros (Hne & Hp & _). unfold sq_output. split.
  - by rewrite !printable_append, Hp, printable_decimal.
  - by destruct (SN e).
Qed.

Lemma ref_seq_order_sq (h : list sq) :
  Forall (λ e, plain (SN e)) h →
  ref_seq_order (map sq_line h) = map sq_output h.
Proof.
  intros Hh. unfold ref_seq_order.
  assert (Hgrep : filter (λ l, grep_SQ l = true) (map sq_line h) = map sq_line h).
  { clear. induction h as [|e h IH]; [done|]. cbn [map].
    rewrite filter_cons_True by done. by rewrite IH. }
  rewrite Hgrep. clear Hgrep.
  assert (Hawk : ∀ v, awk v (map sq_line h) = map sq_output h).
  { induction Hh as [|e h (_ & _ & He & _) Hh IH]; intros v; [done|].
    cbn [map awk]. rewrite awk_sq_line by done. cbn [fst snd]. by rewrite IH. }
  rewrite Hawk. apply splitlines_strip_printed.
  apply Forall_fmap. eapply Forall_impl; [exact Hh|].
  intros e He. by apply sq_output_printable.
Qed.

Lemma catalog_line_sq (c : catalog) (e : sq) :
  plain (SN e) →
  catalog_line c (sq_output e)
  = if Z.of_N (LN e) =? 0 then Ok c
    else Ok (Catalog (reference_names c ++ [SN e])
                     (<[SN e := Z.of_N (LN e)]> (ref_dict c))).
Proof.
  intros (Hne & _ & _ & Hcomma). unfold catalog_line, sq_output.
  change ("," +:+ decimal (LN e))%string with (String "," (decimal (LN e))).
  rewrite split_app by done.
  rewrite split_free by (apply decimal_free; by right).
  change 0 with (Z.of_nat 0). rewrite (getitem_nat _ 0 (SN e)) by done.
  cbn [mbind result_bind]. rewrite bool_decide_false by done.
  change 1 with (Z.of_nat 1). rewrite (getitem_nat _ 1 (decimal (LN e))) by done.
  cbn [mbind result_bind]. rewrite int_decimal. done.
Qed.

(** ** The catalog of a sequence dictionary *)

Lemma for_each_sq (h : list sq) :
  Forall (λ e, plain (SN e)) h → ∀ c,
  for_each catalog_line (map sq_output h) c
  = Ok (Catalog
          (reference_names c ++ (filter (λ s, s.2 ≠ 0) (declared h)).*1)
          (foldl (λ d s, <[s.1 := s.2]> d) (ref_dict c)
             (filter (λ s, s.2 ≠ 0) (declared h)))).
Proof.
  induction 1 as [|e h He Hh IH]; intros c.
  - cbn. rewrite (right_id_L [] (++)). by destruct c.
  - cbn [map for_each declared]. rewrite catalog_line_sq by done.
    destruct (Z.eqb_spec (Z.of_N (LN e)) 0) as [Hz|Hz]; cbn [mbind result_bind].
    + rewrite filter_cons_False by (simpl; lia). apply IH.
    + rewrite filter_cons_True by done. rewrite IH.
      cbn [reference_names ref_dict fmap list_fmap foldl fst snd].
      by rewrite <- (assoc_L (++)).
Qed.

Lemma foldl_insert_other (l : list (string * Z)) (k : string) :
  k ∉ l.*1 → ∀ d : gmap string Z,
  foldl (λ d s, <[s.1 := s.2]> d) d l !! k = d !! k.
Proof.
  induction l as [|[k' v'] l IH]; intros Hk d; [done|].
  rewrite fmap_cons, not_elem_of_cons in Hk. destruct Hk as [Hne Hk].
  cbn [foldl]. rewrite IH by done. by apply lookup_insert_ne.
Qed.

Lemma foldl_insert_lookup (l : list (string * Z)) :
  NoDup l.*1 → ∀ d : gmap string Z,
  Forall (λ s, foldl (λ d s, <[s.1 := s.2]> d) d l !! s.1 = Some s.2) l.
Proof.
  induction l as [|[k v] l IH]; intros Hnd d; [constructor|].
  rewrite fmap_cons in Hnd. apply NoDup_cons in Hnd as [Hk Hnd].
  cbn [foldl]. constructor; [|by apply IH].
  simpl. rewrite foldl_insert_other by done. apply lookup_insert_eq.
Qed.

Lemma declared_names (h : list sq) : (declared h).*1 = map SN h.
Proof. induction h as [|e h IH]; [done|]. cbn. by f_equal. Qed.

(** C9 (amended). For every sequence dictionary whose names are distinct,
    not empty, made of printable characters other than the blank and free
    of colons and commas, the catalog holds the declared (name, length)
    pairs in the order of the header, except that an entry of length 0 is
    left out. *)
Theorem catalog_of_sequence_dictionary (h : list sq) :
  Forall (λ e, plain (SN e)) h → NoDup (map SN h) →
  (catalog_of h ≫= scaffolds) = Ok (filter (λ s, s.2 ≠ 0) (declared h)).
Proof.
  intros Hplain Hnd.
  destruct (catalog_of h) as [c|] eqn:Hc; last first.
  { unfold catalog_of, read_reference_order in Hc. cbn in Hc.
    by rewrite ref_seq_order_sq, for_each_sq in Hc. }
  cbn [mbind result_bind].
  pose proof (read_reference_order_keyed _ _ _ Hc) as Hk.
  rewrite (scaffolds_keyed c Hk). f_equal.
  unfold catalog_of, read_reference_order in Hc. cbn in Hc.
  rewrite ref_seq_order_sq, for_each_sq in Hc by done.
  injection Hc as <-. unfold pairs. cbn [reference_names ref_dict].
  set (l := filter (λ s, s.2 ≠ 0) (declared h)).
  assert (Hl : NoDup l.*1).
  { eapply sublist_NoDup; [exact Hnd|]. rewrite <- declared_names.
    apply fmap_sublist, sublist_filter. }
  pose proof (foldl_insert_lookup l Hl ∅) as Hlook.
  revert Hlook. generalize (foldl (λ d s, <[s.1 := s.2]> d) (∅ : gmap string Z) l).
  intros d Hd. clear -Hd.
  induction Hd as [|[k v] l Hkv Hd IH]; [done|].
  cbn in *. rewrite Hkv. cbn. by f_equal.
Qed.

Lemma catalog_of_sequence_dictionary_witness :
  (catalog_of [SQ "chr1" 100; SQ "chr2" 0; SQ "chrM" 16] ≫= scaffolds)
  = Ok (filter (λ s, s.2 ≠ 0)
          (declared [SQ "chr1" 100; SQ "chr2" 0; SQ "chrM" 16])).
Proof.
  apply catalog_of_sequence_dictionary.
  - repeat constructor; done.
  - apply (bool_decide_unpack _). vm_compute. exact I.
Defined.

(** A colon in a name is where awk cuts it: the hypothesis on the names
    cannot be dropped. *)
Example name_with_colon_is_cut :
  (catalog_of [SQ "HLA-A*01:01" 3000] ≫= scaffolds)
  = Ok [("HLA-A*01"%string, 3000)].
Proof. vm_compute. reflexivity. Qed.

(** A blank in front of the first name is taken off with the white space
    around the output (line 131). *)
Example blank_before_first_name_is_stripped :
  (catalog_of [SQ " chr1" 100; SQ "chr2" 90] ≫= scaffolds)
  = Ok [("chr1"%string, 100); ("chr2"%string, 90)].
Proof. vm_compute. reflexivity. Qed.

(** C9 (as stated) fails: an entry of length 0 is declared by the header but
    is not in the catalog. *)
Lemma zero_length_entry_is_omitted :
  declared [SQ "chr1" 100; SQ "chrZ" 0]
  = [("chr1"%string, 100); ("chrZ"%string, 0)]
  ∧ (catalog_of [SQ "chr1" 100; SQ "chrZ" 0] ≫= scaffolds)
    = Ok [("chr1"%string, 100)].
Proof. split; vm_compute; reflexivity. Qed.
(** ** Collecting the messages of successful workers *)

Lemma for_each_extend_successful (outcomes : list (list (Path.t * Path.t))) :
  ∀ received,
  for_each extend (successful outcomes) received
  = Ok (received ++ map Some (concat outcomes)).
Proof.
  induction outcomes as [|files outcomes IH]; intros received.
  - cbn. by rewrite (right_id_L [] (++)).
  - cbn [successful map for_each extend mbind result_bind]. fold (successful outcomes).
    rewrite IH. cbn [concat]. by rewrite map_app, (assoc_L (++)).
Qed.

Lemma omap_id_Some {A} (l : list A) : omap id (map Some l) = l.
Proof. induction l as [|x l IH]; [done|]. cbn. by f_equal. Qed.

Lemma collect_successful (names : list string)
    (outcomes : list (list (Path.t * Path.t))) :
  collect names (successful outcomes)
  = ([], match concat outcomes with
         | [] => Raise ValueError
         | files => ordered_scaffold_paths names files.*1
         end).
Proof.
  unfold collect. rewrite for_each_extend_successful. cbn [app].
  rewrite bool_decide_false; last first.
  { intros (x & [=] & _)%list_elem_of_fmap. }
  rewrite omap_id_Some. by destruct (concat outcomes).
Qed.

(** ** Looking a reference name up among the received files *)

Lemma index_elem `{EqDecision A} (l : list A) (x : A) :
  x ∈ l → ∃ i, Py.index l x = Ok i ∧ l !! i = Some x.
Proof.
  intros Hx. unfold Py.index.
  destruct (list_find (λ y, y = x) l) as [[i y]|] eqn:Hfind.
  - apply list_find_Some in Hfind as (Hi & -> & _). by exists i.
  - apply list_find_None in Hfind. rewrite Forall_forall in Hfind.
    by destruct (Hfind x Hx).
Qed.

Lemma index_not_elem `{EqDecision A} (l : list A) (x : A) :
  x ∉ l → Py.index l x = Raise ValueError.
Proof.
  intros Hx. unfold Py.index.
  destruct (list_find (λ y, y = x) l) as [[i y]|] eqn:Hfind; [|done].
  apply list_find_Some in Hfind as (Hi & -> & _).
  destruct Hx. by eapply list_elem_of_lookup_2.
Qed.

Lemma chosen_found (paths : list Path.t) (n : string) :
  n ∈ map received_scaffold paths →
  ∃ p, p ∈ paths ∧ received_scaffold p = n ∧ chosen paths n = Ok (Path.str p).
Proof.
  intros Hn. destruct (index_elem _ _ Hn) as (i & Hidx & Hi).
  rewrite list_lookup_fmap in Hi.
  destruct (paths !! i) as [p|] eqn:Hp; [|done]. injection Hi as Hi.
  exists p. split; [by eapply list_elem_of_lookup_2|]. split; [done|].
  unfold chosen. rewrite Hidx. cbn [mbind result_bind].
  by rewrite (getitem_nat _ _ p).
Qed.

Lemma chosen_missing (paths : list Path.t) (n : string) :
  n ∉ map received_scaffold paths → chosen paths n = Raise ValueError.
Proof. intros Hn. unfold chosen. by rewrite index_not_elem. Qed.

Lemma ordered_scaffold_paths_found (names : list string) (paths : list Path.t) :
  Forall (λ n, n ∈ map received_scaffold paths) names →
  ∃ ps, ordered_scaffold_paths names paths = Ok (map Path.str ps)
        ∧ map received_scaffold ps = names ∧ Forall (λ p, p ∈ paths) ps.
Proof.
  unfold ordered_scaffold_paths. fold (chosen paths).
  induction 1 as [|n names Hn Hnames (ps & Hps & Hids & Hin)].
  - by exists [].
  - destruct (chosen_found paths n Hn) as (p & Hp & Hid & Hchosen).
    exists (p :: ps). cbn [comprehension]. rewrite Hchosen, Hps.
    cbn. rewrite Hid, Hids. by repeat constructor.
Qed.

Lemma ordered_scaffold_paths_missing (names : list string) (paths : list Path.t) :
  Exists (λ n, n ∉ map received_scaffold paths) names →
  ordered_scaffold_paths names paths = Raise ValueError.
Proof.
  unfold ordered_scaffold_paths. fold (chosen paths).
  induction names as [|n names IH]; intros Hex; [by apply Exists_nil in Hex|].
  cbn [comprehension].
  destruct (decide (n ∈ map received_scaffold paths)) as [Hn|Hn].
  - destruct (chosen_found paths n Hn) as (p & _ & _ & ->).
    cbn [mbind result_bind]. rewrite IH; [done|].
    apply Exists_cons in Hex as [Hex|Hex]; done.
  - by rewrite chosen_missing.
Qed.

(** ** The order of arrival does not matter *)

Lemma concat_Permutation {A} (l k : list (list A)) :
  l ≡ₚ k → concat l ≡ₚ concat k.
Proof.
  induction 1 as [|x l k _ IH|x y l|l k m _ IH1 _ IH2]; cbn [concat].
  - done.
  - by rewrite IH.
  - rewrite !(assoc_L (++)). apply Permutation_app_tail, Permutation_app_comm.
  - by etrans.
Qed.

Lemma NoDup_fmap_eq {A B} (f : A → B) (l : list A) (x y : A) :
  NoDup (map f l) → x ∈ l → y ∈ l → f x = f y → x = y.
Proof.
  induction l as [|z l IH]; intros Hnd Hx Hy Hf; [by apply elem_of_nil in Hx|].
  cbn [map] in Hnd. apply NoDup_cons in Hnd as [Hz Hnd].
  apply elem_of_cons in Hx as [->|Hx]; apply elem_of_cons in Hy as [->|Hy].
  - done.
  - destruct Hz. rewrite Hf. by apply (list_elem_of_fmap_2 f).
  - destruct Hz. rewrite <- Hf. by apply (list_elem_of_fmap_2 f).
  - by apply IH.
Qed.

Lemma same_scaffolds_same_paths (paths ps ps' : list Path.t) :
  NoDup (map received_scaffold paths) →
  Forall (λ p, p ∈ paths) ps → Forall (λ p, p ∈ paths) ps' →
  map received_scaffold ps = map received_scaffold ps' → ps = ps'.
Proof.
  intros Hnd Hps. revert ps'.
  induction Hps as [|p ps Hp Hps IH]; intros [|p' ps'] Hps' Heq; try done.
  apply Forall_cons in Hps' as [Hp' Hps']. injection Heq as Hid Heq.
  f_equal; [by eapply NoDup_fmap_eq|by apply IH].
Qed.

(** C1 (amended). For a non-empty list of reference names and the messages
    of successful workers in which every reference name is the name that
    line 193 reads off the path of some file, no two files give the same
    name and no two outcomes hold the same metrics file (the loop of lines
    178-183, which [collect] leaves out, fails on a metrics file that comes
    twice): the paths given to the concatenation are received files, in
    reference order (the i-th path belongs to the i-th reference name), and
    they are the same in whatever order the messages of the workers are
    received. *)
Theorem concatenation_in_reference_order (names : list string)
    (outcomes : list (list (Path.t * Path.t))) :
  names ≠ [] →
  NoDup (map received_scaffold (concat outcomes).*1) →
  NoDup (concat outcomes).*2 →
  Forall (λ n, n ∈ map received_scaffold (concat outcomes).*1) names →
  ∃ ps, map received_scaffold ps = names
        ∧ Forall (λ p, p ∈ (concat outcomes).*1) ps
        ∧ ∀ outcomes', outcomes ≡ₚ outcomes' →
            collect names (successful outcomes') = ([], Ok (map Path.str ps)).
Proof.
  intros Hne Hnd _ Hall.
  destruct (ordered_scaffold_paths_found names _ Hall) as (ps & _ & Hids & Hin).
  exists ps. split; [done|]. split; [done|]. intros outcomes' Hperm.
  assert (Hpaths : (concat outcomes').*1 ≡ₚ (concat outcomes).*1).
  { apply fmap_Permutation. symmetry. by apply concat_Permutation. }
  assert (Hall' : Forall (λ n, n ∈ map received_scaffold (concat outcomes').*1) names).
  { eapply Forall_impl; [exact Hall|]. intros n Hn. simpl in *.
    by rewrite Hpaths. }
  destruct (ordered_scaffold_paths_found names _ Hall') as (ps' & Hps' & Hids' & Hin').
  rewrite collect_successful.
  assert (ps' = ps) as ->.
  { apply (same_scaffolds_same_paths (concat outcomes).*1); [done| |done|congruence].
    eapply Forall_impl; [exact Hin'|]. intros p Hp. simpl in *. by rewrite <- Hpaths. }
  destruct (concat outcomes') as [|file files] eqn:Hfiles; [|by rewrite Hps'].
  destruct names as [|n names]; [done|].
  apply Forall_cons in Hall' as [Hn _]. by apply elem_of_nil in Hn.
Qed.

(** As many names as files: a file that belongs to no reference name leaves
    a reference name without a file. *)
Lemma unmatched_file_leaves_name_missing (names : list string)
    (paths : list Path.t) :
  NoDup names → length paths = length names →
  Exists (λ p, received_scaffold p ∉ names) paths →
  Exists (λ n, n ∉ map received_scaffold paths) names.
Proof.
  intros Hnd Hlen Hex.
  destruct (decide (Exists (λ n, n ∉ map received_scaffold paths) names))
    as [|Hall]; [done|].
  apply not_Exists_Forall in Hall; [|apply _].
  rewrite Forall_forall in Hall.
  assert (Hperm : names ≡ₚ map received_scaffold paths).
  { apply submseteq_length_Permutation.
    - apply NoDup_submseteq; [done|]. intros n Hn. specialize (Hall n Hn).
      simpl in Hall. by destruct (decide (n ∈ map received_scaffold paths)).
    - rewrite length_map. lia. }
  apply Exists_exists in Hex as (p & Hp & Hid). destruct Hid.
  rewrite Hperm. by apply (list_elem_of_fmap_2 received_scaffold).
Qed.

(** C10 (amended). For the messages of successful workers, the re-ordering
    raises [ValueError], and nothing is concatenated, when some reference
    name has no received file; this is so whenever there are as many files
    as reference names, the names are distinct, and some file belongs to no
    reference name. When every reference name has a file the re-ordering
    succeeds, whatever other files were received. *)
Theorem reordering_fails_on_missing_reference (names : list string)
    (outcomes : list (list (Path.t * Path.t))) :
  (Exists (λ n, n ∉ map received_scaffold (concat outcomes).*1) names →
   collect names (successful outcomes) = ([], Raise ValueError))
  ∧ (NoDup names → length (concat outcomes) = length names →
     Exists (λ p, received_scaffold p ∉ names) (concat outcomes).*1 →
     collect names (successful outcomes) = ([], Raise ValueError))
  ∧ (names ≠ [] →
     Forall (λ n, n ∈ map received_scaffold (concat outcomes).*1) names →
     ∃ ps, collect names (successful outcomes) = ([], Ok (map Path.str ps))
           ∧ map received_scaffold ps = names).
Proof.
  rewrite collect_successful.
  assert (Hmissing :
    Exists (λ n, n ∉ map received_scaffold (concat outcomes).*1) names →
    ([], match concat outcomes with
         | [] => Raise ValueError
         | files => ordered_scaffold_paths names files.*1
         end) = (@nil report, @Raise (list string) ValueError)).
  { intros Hex. destruct (concat outcomes); [done|].
    by rewrite ordered_scaffold_paths_missing. }
  split; [done|]. split.
  - intros Hnd Hlen Hex. apply Hmissing.
    apply unmatched_file_leaves_name_missing; [done| |done].
    by rewrite length_fmap.
  - intros Hne Hall.
    destruct (ordered_scaffold_paths_found names _ Hall) as (ps & Hps & Hids & _).
    exists ps. split; [|done].
    destruct (concat outcomes) eqn:Hfiles; [|by rewrite Hps].
    destruct names as [|n names]; [done|].
    apply Forall_cons in Hall as [Hn _]. by apply elem_of_nil in Hn.
Qed.

Lemma concatenation_in_reference_order_witness :
  collect ["chr1"; "chr2"; "chr3"]%string
    (successful [[example_file "chr3"]; [example_file "chr1"];
                 [example_file "chr2"]])
  = collect ["chr1"; "chr2"; "chr3"]%string
      (successful [[example_file "chr1"]; [example_file "chr2"];
                   [example_file "chr3"]])
  ∧ collect ["chr1"; "chr2"; "chr3"]%string
      (successful [[example_file "chr3"]; [example_file "chr1"];
                   [example_file "chr2"]])
    = ([], Ok ["/tmp/w/chr1-0000007/sample.markdup-chr1.bam";
               "/tmp/w/chr2-0000007/sample.markdup-chr2.bam";
               "/tmp/w/chr3-0000007/sample.markdup-chr3.bam"]%string).
Proof.
  destruct (concatenation_in_reference_order
              ["chr1"; "chr2"; "chr3"]%string
              [[example_file "chr3"]; [example_file "chr1"];
               [example_file "chr2"]]) as (ps & Hps & _ & Hsame).
  - done.
  - apply (bool_decide_unpack _). vm_compute. exact I.
  - apply (bool_decide_unpack _). vm_compute. exact I.
  - apply (bool_decide_unpack _). vm_compute. exact I.
  - split.
    + rewrite (Hsame _ (reflexivity _)).
      rewrite (Hsame [[example_file "chr1"]; [example_file "chr2"];
                      [example_file "chr3"]]); [done|].
      apply Permutation_cons_append.
    + vm_compute. reflexivity.
Defined.

(** C1 (as stated) fails: the file a worker writes for the scaffold
    [HLA-A] is read back as the file of [A] (line 193 takes what follows
    the last [-] of the stem), so the reference name has no file and the
    re-ordering raises [ValueError], although the outcomes cover the
    catalog. *)
Lemma name_with_dash_is_not_found :
  Path.str (example_file "HLA-A").1
  = "/tmp/w/HLA-A-0000007/sample.markdup-HLA-A.bam"%string
  ∧ received_scaffold (example_file "HLA-A").1 = "A"%string
  ∧ collect ["HLA-A"]%string (successful [[example_file "HLA-A"]])
    = ([], Raise ValueError).
Proof. repeat split; vm_compute; reflexivity. Qed.

Lemma reordering_fails_on_missing_reference_witness :
  collect ["chr1"; "chr2"]%string (successful [[example_file "chr1"]])
  = ([], Raise ValueError)
  ∧ collect ["chr1"; "chr2"]%string
      (successful [[example_file "chr1"]; [example_file "chrX"]])
    = ([], Raise ValueError)
  ∧ ∃ ps, collect ["chr1"]%string
            (successful [[example_file "chr1"]; [example_file "chrX"]])
          = ([], Ok (map Path.str ps))
          ∧ map received_scaffold ps = ["chr1"]%string.
Proof.
  split; [|split].
  - refine (proj1 (reordering_fails_on_missing_reference _ _) _).
    apply (bool_decide_unpack _). vm_compute. exact I.
  - refine (proj1 (proj2 (reordering_fails_on_missing_reference _ _)) _ _ _).
    + apply (bool_decide_unpack _). vm_compute. exact I.
    + done.
    + apply (bool_decide_unpack _). vm_compute. exact I.
  - refine (proj2 (proj2 (reordering_fails_on_missing_reference _ _)) _ _);
      [done|].
    apply (bool_decide_unpack _). vm_compute. exact I.
Defined.

(** C10 (as stated) fails: the file of chrX matches no reference name, and
    the re-ordering succeeds without it. *)
Lemma unmatched_result_is_dropped :
  received_scaffold (example_file "chrX").1 = "chrX"%string
  ∧ collect ["chr1"]%string
      (successful [[example_file "chr1"]; [example_file "chrX"]])
    = ([], Ok ["/tmp/w/chr1-0000007/sample.markdup-chr1.bam"]%string).
Proof. split; vm_compute; reflexivity. Qed.

(** ** A worker that failed *)

Lemma for_each_extend_None (messages : list message) :
  None ∈ messages → ∀ received,
  for_each extend messages received = Raise TypeError.
Proof.
  induction messages as [|m messages IH]; intros Hin received.
  - by apply elem_of_nil in Hin.
  - destruct m as [files|]; [|done]. cbn [for_each extend mbind result_bind].
    apply IH. by apply elem_of_cons in Hin as [|].
Qed.

(** The test of line 169 looks for [None] among the entries of the
    received lists: had a worker sent a list holding [None], the count would
    be printed and the run would end with [exit(1)]. *)
Example collect_counts_None_entries :
  collect ["chr1"; "chr2"]%string
    [Some [Some (example_file "chr1")]; Some [None]]
  = ([Failed 1], Raise (SystemExit 1)).
Proof. vm_compute. reflexivity. Qed.

(** C5 (what the code does). When some worker has sent the failure marker
    [None], extending the list of received files by it raises [TypeError]:
    no count of failed workers is printed and [exit(1)] of line 172 is not
    reached. *)
Theorem collect_failure_marker_raises_TypeError (names : list string)
    (messages : list message) :
  None ∈ messages → collect names messages = ([], Raise TypeError).
Proof. intros Hin. unfold collect. by rewrite for_each_extend_None. Qed.

Lemma collect_failure_marker_raises_TypeError_witness :
  collect ["chr1"; "chr2"]%string [Some [Some (example_file "chr1")]; None]
  = ([], Raise TypeError).
Proof.
  apply collect_failure_marker_raises_TypeError.
  apply (bool_decide_unpack _). vm_compute. exact I.
Defined.

(** ** The worker *)

Section WorkerFacts.

Variables temp_dir output_bam output_metrics_file : Path.t.
Variable randint : nat → N.
Variable returncode : nat → Z.

Lemma sent_runs (k : nat) (l : list string) :
  sent (runs temp_dir output_bam output_metrics_file randint k l) = [].
Proof. revert k. induction l as [|s l IH]; intros k; [done|]. apply IH. Qed.

Lemma files_no_None (k : nat) (l : list string) :
  None ∉ files temp_dir output_bam output_metrics_file randint k l.
Proof.
  revert k. induction l as [|s l IH]; intros k; cbn [files].
  - apply not_elem_of_nil.
  - apply not_elem_of_cons. split; [done|apply IH].
Qed.

Lemma scaffolds_loop_success (l : list string) :
  ∀ k created,
  (∀ i, (i < length l)%nat → returncode (k + i) = 0) →
  scaffolds_loop temp_dir output_bam output_metrics_file randint returncode
    k l created
  = (runs temp_dir output_bam output_metrics_file randint k l,
     created ++ files temp_dir output_bam output_metrics_file randint k l).
Proof.
  induction l as [|s l IH]; intros k created Hok.
  - cbn. by rewrite (right_id_L [] (++)).
  - cbn [scaffolds_loop]. specialize (Hok 0%nat) as H0.
    rewrite Nat.add_0_r in H0. rewrite H0 by (cbn; lia).
    cbn [Z.eqb]. rewrite IH.
    + cbn [runs files app]. by rewrite <- (assoc_L (++)).
    + intros i Hi. replace (S k + i)%nat with (k + S i)%nat by lia.
      apply Hok. cbn. lia.
Qed.

Lemma scaffolds_loop_failure (l : list string) :
  ∀ k created j,
  (j < length l)%nat → returncode (k + j) ≠ 0 →
  (∀ i, (i < j)%nat → returncode (k + i) = 0) →
  ∃ failed, l !! j = Some failed ∧
  scaffolds_loop temp_dir output_bam output_metrics_file randint returncode
    k l created
  = (runs temp_dir output_bam output_metrics_file randint k (take (S j) l)
     ++ [PrintFailed failed],
     created
     ++ files temp_dir output_bam output_metrics_file randint k (take j l)
     ++ [None]).
Proof.
  induction l as [|s l IH]; intros k created j Hj Hfail Hok; [cbn in Hj; lia|].
  cbn [scaffolds_loop]. destruct j as [|j].
  - rewrite Nat.add_0_r in Hfail. exists s. split; [done|].
    destruct (Z.eqb_spec (returncode k) 0); [done|].
    cbn [take runs files app]. by rewrite take_0.
  - specialize (Hok 0%nat) as H0. rewrite Nat.add_0_r in H0.
    rewrite H0 by lia. cbn [Z.eqb].
    destruct (IH (S k) (created ++ [Some
                 (scaffold_output_bam temp_dir output_bam randint k s,
                  scaffold_metrics_file temp_dir output_metrics_file randint k s)])
                j) as (failed & Hfailed & ->).
    + cbn in Hj. lia.
    + by replace (S k + j)%nat with (k + S j)%nat by lia.
    + intros i Hi. replace (S k + i)%nat with (k + S i)%nat by lia.
      apply Hok. lia.
    + exists failed. split; [done|].
      cbn [take runs files app]. by rewrite <- (assoc_L (++)).
Qed.

(** C7. The worker runs the duplicate marking for its scaffolds in the
    order of the list. When every command returns 0 it sends the list of
    the (output, metrics) pairs of all scaffolds, in that order (the empty
    list for no scaffolds); when the command of the j-th scaffold is the
    first to fail, nothing is run for the scaffolds after it and the worker
    sends [None]. In both cases one message is sent, and the connection is
    closed right after it. *)
Theorem worker_sends_one_outcome (scaffolds_to_process : list string) :
  let trace := mark_duplicates_with_mate_cigar temp_dir output_bam
                 output_metrics_file randint returncode
                 scaffolds_to_process in
  let commands := runs temp_dir output_bam output_metrics_file randint 0 in
  let pairs := files temp_dir output_bam output_metrics_file randint 0 in
  ((∀ i, (i < length scaffolds_to_process)%nat → returncode i = 0) →
   trace = commands scaffolds_to_process
           ++ [Send (Some (pairs scaffolds_to_process)); Close]
   ∧ sent trace = [Some (pairs scaffolds_to_process)])
  ∧ (∀ j, (j < length scaffolds_to_process)%nat → returncode j ≠ 0 →
     (∀ i, (i < j)%nat → returncode i = 0) →
     ∃ failed, scaffolds_to_process !! j = Some failed
     ∧ trace = commands (take (S j) scaffolds_to_process)
               ++ [PrintFailed failed; Send None; Close]
     ∧ sent trace = [None]).
Proof.
  cbv zeta. unfold mark_duplicates_with_mate_cigar. split.
  - intros Hok. rewrite scaffolds_loop_success by done. cbn [app].
    rewrite bool_decide_false by apply files_no_None.
    split; [done|]. unfold sent. rewrite omap_app. fold sent.
    by rewrite sent_runs.
  - intros j Hj Hfail Hok.
    destruct (scaffolds_loop_failure scaffolds_to_process 0 [] j)
      as (failed & Hfailed & ->); [done..|].
    exists failed. split; [done|]. cbn [app].
    rewrite bool_decide_true by (apply elem_of_app; right; by left).
    rewrite <- (assoc_L (++)). split; [done|].
    unfold sent. rewrite omap_app. fold sent. by rewrite sent_runs.
Qed.

End WorkerFacts.

Lemma worker_sends_one_outcome_witness :
  let rc := λ k : nat, if (k =? 1)%nat then 1 else 0 in
  let run := mark_duplicates_with_mate_cigar (Path.of_string "/tmp/w")
               (Path.of_string "/out/sample.markdup.bam")
               (Path.of_string "/out/sample.markdup.metrics") (λ _, 7%N) in
  sent (run (λ _, 0) ["chr1"; "chr2"]%string)
  = [Some [Some (example_file "chr1"); Some (example_file "chr2")]]
  ∧ ∃ failed, ["chr1"; "chr2"; "chr3"]%string !! 1%nat = Some failed
    ∧ run rc ["chr1"; "chr2"; "chr3"]%string
      = runs (Path.of_string "/tmp/w") (Path.of_string "/out/sample.markdup.bam")
          (Path.of_string "/out/sample.markdup.metrics") (λ _, 7%N) 0
          ["chr1"; "chr2"]%string
        ++ [PrintFailed failed; Send None; Close]
    ∧ sent (run rc ["chr1"; "chr2"; "chr3"]%string) = [None].
Proof.
  cbv zeta. split.
  - refine (proj2 (proj1 (worker_sends_one_outcome _ _ _ _ (λ _, 0) _) _)).
    done.
  - refine (proj2 (worker_sends_one_outcome _ _ _ _ _ _) 1%nat _ _ _);
      [cbn; lia|done|].
    intros i Hi. by replace i with 0%nat by lia.
Defined.

(** ** The wait for the insert size metrics *)

Section WaitFacts.

Variable poll : nat → option Z.
Variable max_wait_minutes : Z.

Lemma cap_reached (k : nat) :
  (max_wait_minutes <=? (Z.of_nat k * 10 + 10) / 60)
  = bool_decide (polls_before_cap max_wait_minutes ≤ S k)%nat.
Proof.
  unfold polls_before_cap.
  destruct (Z.leb_spec max_wait_minutes ((Z.of_nat k * 10 + 10) / 60)) as [H|H].
  - rewrite bool_decide_true; [done|].
    assert (6 * max_wait_minutes ≤ Z.of_nat k + 1); [|lia].
    revert H. Z.div_mod_to_equations. lia.
  - rewrite bool_decide_false; [done|].
    assert (Z.of_nat k + 1 < 6 * max_wait_minutes); [|lia].
    revert H. Z.div_mod_to_equations. lia.
Qed.

Lemma wait_loop_timeout (n : nat) :
  ∀ k fuel,
  (k + S n = polls_before_cap max_wait_minutes)%nat → (n < fuel)%nat →
  (∀ i, (k ≤ i < polls_before_cap max_wait_minutes)%nat → poll i = None) →
  wait_loop poll max_wait_minutes fuel k (Z.of_nat k * 10)
  = Some (replicate (S n) (Sleep 10) ++ [Terminate; WaitProcess],
          Raise TimeoutError).
Proof.
  induction n as [|n IH]; intros k fuel Hk Hfuel Hrun;
    (destruct fuel as [|fuel]; [lia|]); cbn [wait_loop];
    rewrite (Hrun k) by lia; cbv zeta; rewrite cap_reached.
  - by rewrite bool_decide_true by lia.
  - rewrite bool_decide_false by lia.
    replace (Z.of_nat k * 10 + 10) with (Z.of_nat (S k) * 10) by lia.
    rewrite (IH (S k) fuel); [done|lia|lia|]. intros i Hi. apply Hrun. lia.
Qed.

Lemma wait_loop_finished (n : nat) :
  ∀ k fuel code,
  (k + n < polls_before_cap max_wait_minutes)%nat → (n < fuel)%nat →
  (∀ i, (k ≤ i < k + n)%nat → poll i = None) → poll (k + n)%nat = Some code →
  wait_loop poll max_wait_minutes fuel k (Z.of_nat k * 10)
  = Some (replicate n (Sleep 10),
          if code =? 0 then Ok (Z.of_nat (k + n) * 10) else Raise (SystemExit 1)).
Proof.
  induction n as [|n IH]; intros k fuel code Hk Hfuel Hrun Hdone;
    (destruct fuel as [|fuel]; [lia|]); cbn [wait_loop].
  - rewrite Nat.add_0_r in Hdone. rewrite Hdone. by rewrite Nat.add_0_r.
  - rewrite (Hrun k) by lia. cbv zeta. rewrite cap_reached.
    rewrite bool_decide_false by lia.
    replace (Z.of_nat k * 10 + 10) with (Z.of_nat (S k) * 10) by lia.
    rewrite (IH (S k) fuel code); [|lia|lia| |].
    + cbn. by replace (S (k + n)) with (k + S n)%nat by lia.
    + intros i Hi. apply Hrun. lia.
    + by replace (S k + n)%nat with (k + S n)%nat by lia.
Qed.

(** C6 (amended). The loop tests the process every 10 seconds, at 0, 10,
    ... seconds of accumulated wait, and gives up as soon as the wait
    reaches [max_wait_minutes] whole minutes, without another test. With
    enough fuel: when the process is running at every test before the cap,
    it is terminated and [TimeoutError] is raised; when one of these tests
    finds it finished, no timeout is raised. *)
Theorem wait_times_out_at_cap (fuel : nat) :
  (polls_before_cap max_wait_minutes < fuel)%nat →
  ((∀ i, (i < polls_before_cap max_wait_minutes)%nat → poll i = None) →
   wait_for_insert_metrics poll max_wait_minutes fuel
   = Some (replicate (polls_before_cap max_wait_minutes) (Sleep 10)
           ++ [Terminate; WaitProcess], Raise TimeoutError))
  ∧ (∀ j code, (j < polls_before_cap max_wait_minutes)%nat →
     (∀ i, (i < j)%nat → poll i = None) → poll j = Some code →
     wait_for_insert_metrics poll max_wait_minutes fuel
     = Some (replicate j (Sleep 10),
             if code =? 0 then Ok (Z.of_nat j * 10) else Raise (SystemExit 1))).
Proof.
  intros Hfuel. unfold wait_for_insert_metrics. split.
  - intros Hrun.
    assert (HP : (0 < polls_before_cap max_wait_minutes)%nat)
      by (unfold polls_before_cap; lia).
    destruct (polls_before_cap max_wait_minutes) as [|n] eqn:HPn; [lia|].
    change 0 with (Z.of_nat 0 * 10).
    apply wait_loop_timeout; [lia|lia|]. rewrite HPn. intros i Hi. apply Hrun. lia.
  - intros j code Hj Hrun Hdone. change 0 with (Z.of_nat 0 * 10).
    rewrite (wait_loop_finished j 0 fuel code); [done|lia|lia| |done].
    intros i Hi. apply Hrun. lia.
Qed.

End WaitFacts.

Lemma wait_times_out_at_cap_witness :
  wait_for_insert_metrics (λ _, None) 1 10
  = Some (replicate 6 (Sleep 10) ++ [Terminate; WaitProcess], Raise TimeoutError)
  ∧ wait_for_insert_metrics (λ k, if (k <? 5)%nat then None else Some 0) 1 10
    = Some (replicate 5 (Sleep 10), Ok 50).
Proof.
  split.
  - refine (proj1 (wait_times_out_at_cap (λ _, None) 1 10 _) _);
      [vm_compute; lia|done].
  - refine (proj2 (wait_times_out_at_cap
                     (λ k, if (k <? 5)%nat then None else Some 0) 1 10 _)
                  5%nat 0 _ _ _).
    + vm_compute; lia.
    + vm_compute; lia.
    + intros i Hi. destruct (Nat.ltb_spec i 5); [done|lia].
    + done.
Defined.

(** C6 (as stated) fails: with the default cap of 180 minutes, a process
    that is running at the test at 10790 seconds and has finished by 10800
    seconds, the cap itself, is not tested again: [TimeoutError] is
    raised. *)
Lemma finishing_at_the_cap_times_out :
  snd <$> wait_for_insert_metrics
            (λ k, if (k <? 1080)%nat then None else Some 0)
            default_max_wait_minutes 2000
  = Some (Raise TimeoutError).
Proof. vm_compute. reflexivity. Qed.
(** ** The scaffold name in the file name of a worker *)

Lemma split_cons (sep : ascii) (s : string) :
  ∃ h t, Py.split sep s = h :: t.
Proof.
  induction s as [|c s (h & t & IH)]; cbn [Py.split]; [by eexists _, _|].
  destruct (Ascii.eqb c sep); [by eexists _, _|]. rewrite IH. by eexists _, _.
Qed.

(** [(a + sep + b).split(sep) == a.split(sep) + b.split(sep)]. *)
Lemma split_append (sep : ascii) (a b : string) :
  Py.split sep (a +:+ String sep b) = Py.split sep a ++ Py.split sep b.
Proof.
  induction a as [|c a IH]; simpl.
  - by rewrite Ascii.eqb_refl.
  - destruct (Ascii.eqb c sep); [by rewrite IH|]. rewrite IH.
    by destruct (split_cons sep a) as (h & t & ->).
Qed.

(** [sep.join(s.split(sep)) == s]. *)
Lemma concat_split (sep : ascii) (s : string) :
  String.concat (String sep EmptyString) (Py.split sep s) = s.
Proof.
  induction s as [|c s IH]; [done|]. cbn [Py.split].
  destruct (split_cons sep s) as (h & t & Hs). rewrite Hs in *.
  destruct (Ascii.eqb_spec c sep) as [->|_].
  - change (String.concat (String sep EmptyString) (EmptyString :: h :: t))
      with (String sep (String.concat (String sep EmptyString) (h :: t))).
    by rewrite IH.
  - destruct t as [|x t].
    + cbn in *. by rewrite IH.
    + change (String.concat (String sep EmptyString) (String c h :: x :: t))
        with (String c (String.concat (String sep EmptyString) (h :: x :: t))).
      by rewrite IH.
Qed.

Lemma contains_append (c : ascii) (a b : string) :
  contains c (a +:+ b) = contains c a || contains c b.
Proof.
  induction a as [|x a IH]; [done|]. simpl. rewrite IH. by rewrite orb_assoc.
Qed.

Lemma append_assoc (a b c : string) : (a +:+ b) +:+ c = a +:+ (b +:+ c).
Proof.
  induction a as [|x a IH]; [done|].
  change (String x ((a +:+ b) +:+ c) = String x (a +:+ (b +:+ c))).
  by rewrite IH.
Qed.

Lemma startswith_contains (c : ascii) (s : string) :
  contains c s = false → Py.startswith (String c EmptyString) s = false.
Proof.
  destruct s as [|a s]; [done|]. cbn [contains Py.startswith].
  destruct (Ascii.eqb_spec a c) as [->|Hne]; [done|]. intros _.
  destruct (Ascii.eqb_spec c a) as [->|_]; done.
Qed.

Lemma last_snoc {A} (l : list A) (x d : A) : List.last (l ++ [x]) d = x.
Proof. apply List.last_last. Qed.

Lemma stem_suffixed (parent : Path.t) (front : string) :
  front ≠ EmptyString → contains "/" front = false → front ≠ "."%string →
  Path.stem (Path.join parent (front +:+ ".bam")) = front.
Proof.
  intros Hne Hslash Hdot.
  set (name := (front +:+ ".bam")%string).
  assert (Hname_slash : contains "/" name = false).
  { unfold name. by rewrite contains_append, Hslash. }
  assert (Hname : Path.name (Path.join parent name) = name).
  { unfold Path.join, Path.of_string. rewrite split_free by done.
    assert (Hstart : Py.startswith "/" name = false)
      by (by apply startswith_contains).
    rewrite Hstart. cbn [Path.anchored Path.parts].
    rewrite filter_cons_True; last first.
    { unfold Path.component, name.
      destruct front as [|c [|c' front]]; [done| |];
        rewrite !bool_decide_false; done. }
    unfold Path.name. cbn [Path.parts]. rewrite filter_nil. apply last_snoc. }
  assert (Hsplit : Py.split "." name = Py.split "." front ++ ["bam"%string]).
  { unfold name.
    change (front +:+ ".bam")%string with (front +:+ String "." "bam")%string.
    by rewrite split_append. }
  unfold Path.stem. rewrite Hname, Hsplit. cbv zeta.
  rewrite removelast_last, last_snoc, concat_split.
  rewrite length_app. destruct (split_cons "." front) as (h & t & ->).
  cbn [length]. rewrite bool_decide_false by done.
  replace (1 <? S (length t) + 1)%nat with true; [done|].
  symmetry. apply Nat.ltb_lt. lia.
Qed.

(** For a scaffold name without [-] or [/], the collector reads the name of
    the scaffold back from the output file the worker creates for it. *)
Lemma received_scaffold_output_bam (temp_dir output_bam : Path.t)
    (randint : nat → N) (k : nat) (scaffold : string) :
  contains "/" (Path.stem output_bam) = false →
  contains "-" scaffold = false → contains "/" scaffold = false →
  received_scaffold (scaffold_output_bam temp_dir output_bam randint k scaffold)
  = scaffold.
Proof.
  intros Hstem Hdash Hslash. unfold received_scaffold, scaffold_output_bam.
  set (front := (Path.stem output_bam +:+ "-" +:+ scaffold)%string).
  replace (Path.stem output_bam +:+ "-" +:+ scaffold +:+ ".bam")%string
    with (front +:+ ".bam")%string; last first.
  { unfold front. by rewrite !append_assoc. }
  assert (Hfront : contains "-" front = true).
  { unfold front. rewrite contains_append. simpl. by rewrite orb_true_r. }
  rewrite stem_suffixed.
  - unfold front. change ("-" +:+ scaffold)%string with (String "-" scaffold).
    rewrite split_append, (split_free "-" scaffold) by done. apply last_snoc.
  - intros Hnil. by rewrite Hnil in Hfront.
  - unfold front. rewrite !contains_append, Hstem, Hslash. done.
  - intros Hdot. by rewrite Hdot in Hfront.
Qed.

(** A dash in the name of a scaffold breaks this: the collector takes the
    part after the last dash for the name. *)
Example received_scaffold_with_dash :
  received_scaffold (example_file "HLA-A").1 = "A"%string.
Proof. vm_compute. reflexivity. Qed.
(** ** From the partition to the concatenation *)

Section Pipeline.

Variables temp_dir output_bam output_metrics_file : Path.t.
Variable randint : nat → nat → N.

Hypothesis stem_free : contains "/" (Path.stem output_bam) = false.

Lemma files_Some (rand : nat → N) (k : nat) (l : list string) :
  files temp_dir output_bam output_metrics_file rand k l
  = map Some (omap id (files temp_dir output_bam output_metrics_file rand k l)).
Proof. revert k. induction l as [|s l IH]; intros k; [done|]. cbn. by rewrite <- IH. Qed.

Lemma run_workers_successful (lists : list (list string)) :
  ∀ w, run_workers temp_dir output_bam output_metrics_file randint
         (λ _ _, 0) w lists
       = successful (outcomes temp_dir output_bam output_metrics_file randint w lists).
Proof.
  induction lists as [|l lists IH]; intros w; [done|].
  cbn [run_workers outcomes successful map].
  fold (successful (outcomes temp_dir output_bam output_metrics_file randint (S w) lists)).
  rewrite IH. unfold mark_duplicates_with_mate_cigar.
  rewrite scaffolds_loop_success by done. cbn [app].
  rewrite bool_decide_false by apply files_no_None.
  unfold sent. rewrite omap_app. fold sent. rewrite sent_runs. cbn.
  by rewrite <- files_Some.
Qed.

Lemma files_received_scaffold (rand : nat → N) (l : list string) :
  Forall (λ n, contains "-" n = false ∧ contains "/" n = false) l →
  ∀ k, map received_scaffold
         (omap id (files temp_dir output_bam output_metrics_file rand k l)).*1
       = l.
Proof.
  induction 1 as [|s l [Hdash Hslash] Hl IH]; intros k; [done|].
  cbn. rewrite IH. by rewrite received_scaffold_output_bam.
Qed.

Lemma outcomes_received_scaffold (lists : list (list string)) :
  Forall (λ n, contains "-" n = false ∧ contains "/" n = false) (concat lists) →
  ∀ w, map received_scaffold (concat (outcomes temp_dir output_bam output_metrics_file randint w lists)).*1
       = concat lists.
Proof.
  induction lists as [|l lists IH]; intros Hall w; [done|].
  cbn [concat] in Hall. apply Forall_app in Hall as [Hl Hlists].
  cbn [outcomes concat]. rewrite fmap_app, map_app.
  by rewrite IH, files_received_scaffold.
Qed.

(** X1. A run in which every duplicate marking succeeds: for a non-empty
    catalog whose names are distinct and hold neither [-] nor [/], the
    re-ordering finds a file for every reference name, and the files go to
    the concatenation in reference order: the i-th path is a file of a
    worker, and the one written for the i-th reference name. *)
Theorem successful_run_concatenates_in_reference_order (returncode : Z)
    (lines : list string) (c : catalog) (processes : Z) :
  read_reference_order returncode lines = Ok c → 1 ≤ processes →
  reference_names c ≠ [] →
  NoDup (reference_names c) →
  Forall (λ n, contains "-" n = false ∧ contains "/" n = false)
    (reference_names c) →
  ∃ p ps, partition c processes = Ok p
          ∧ collect (reference_names c)
              (run_workers temp_dir output_bam output_metrics_file randint
                 (λ _ _, 0) 0 (worker_scaffold_lists p))
            = ([], Ok (map Path.str ps))
          ∧ map received_scaffold ps = reference_names c
          ∧ Forall (λ q, q ∈ (concat (outcomes temp_dir output_bam
                                        output_metrics_file randint 0
                                        (worker_scaffold_lists p))).*1) ps
          ∧ NoDup (map received_scaffold
                     (concat (outcomes temp_dir output_bam
                                output_metrics_file randint 0
                                (worker_scaffold_lists p))).*1).
Proof.
  intros Hread Hp Hne Hnd Hnames. apply read_reference_order_keyed in Hread as Hk.
  destruct (partition_lists c processes Hk Hp) as (p & Hpart & _ & Hperm).
  assert (Hids : map received_scaffold
                   (concat (outcomes temp_dir output_bam output_metrics_file randint 0
                              (worker_scaffold_lists p))).*1
                 = concat (worker_scaffold_lists p)).
  { apply outcomes_received_scaffold. by rewrite Hperm. }
  assert (Hall : Forall (λ n, n ∈ map received_scaffold
                    (concat (outcomes temp_dir output_bam output_metrics_file randint 0
                              (worker_scaffold_lists p))).*1)
                   (reference_names c)).
  { rewrite Hids. apply Forall_forall. intros n Hn. by rewrite Hperm. }
  destruct (ordered_scaffold_paths_found _ _ Hall) as (ps & Hps & Hnames' & Hin).
  exists p, ps. split; [done|]. split; [|split; [done|split; [done|]]].
  - rewrite run_workers_successful, collect_successful.
    destruct (concat (outcomes temp_dir output_bam output_metrics_file randint 0
                        (worker_scaffold_lists p))) eqn:Hfiles;
      [|by rewrite Hps].
    destruct (reference_names c) as [|n names]; [done|].
    apply Forall_cons in Hall as [Hn _]. by apply elem_of_nil in Hn.
  - rewrite Hids. by rewrite Hperm.
Qed.

End Pipeline.

Lemma successful_run_concatenates_in_reference_order_witness :
  ∃ c, read_reference_order 0 ["chr1,100"; "chr2,90"; "chr3,60"]%string = Ok c
  ∧ ∃ p ps, partition c 2 = Ok p
    ∧ collect (reference_names c)
        (run_workers (Path.of_string "/tmp/w")
           (Path.of_string "/out/sample.markdup.bam")
           (Path.of_string "/out/sample.markdup.metrics")
           (λ _ _, 7%N) (λ _ _, 0) 0 (worker_scaffold_lists p))
      = ([], Ok (map Path.str ps))
    ∧ map received_scaffold ps = reference_names c
    ∧ Forall (λ q, q ∈ (concat (outcomes (Path.of_string "/tmp/w")
                                  (Path.of_string "/out/sample.markdup.bam")
                                  (Path.of_string "/out/sample.markdup.metrics")
                                  (λ _ _, 7%N) 0
                                  (worker_scaffold_lists p))).*1) ps
    ∧ NoDup (map received_scaffold
               (concat (outcomes (Path.of_string "/tmp/w")
                          (Path.of_string "/out/sample.markdup.bam")
                          (Path.of_string "/out/sample.markdup.metrics")
                          (λ _ _, 7%N) 0 (worker_scaffold_lists p))).*1).
Proof.
  eexists. split; [vm_compute; reflexivity|].
  apply (successful_run_concatenates_in_reference_order
           (Path.of_string "/tmp/w") (Path.of_string "/out/sample.markdup.bam")
           (Path.of_string "/out/sample.markdup.metrics") (λ _ _, 7%N)
           eq_refl 0 ["chr1,100"; "chr2,90"; "chr3,60"]%string);
    [vm_compute; reflexivity|lia|done| |].
  - apply (bool_decide_unpack _). vm_compute. exact I.
  - apply (bool_decide_unpack _). vm_compute. exact I.
Defined.

(** ** Workers and collector together *)

(** Either every one of the first [n] commands returns 0, or one of them is
    the first that does not. *)
Lemma first_failure (returncode : nat → Z) (n : nat) :
  (∀ i, (i < n)%nat → returncode i = 0)
  ∨ ∃ j, (j < n)%nat ∧ returncode j ≠ 0 ∧ ∀ i, (i < j)%nat → returncode i = 0.
Proof.
  induction n as [|n [Hok|(j & Hj & Hfail & Hok)]].
  - left. lia.
  - destruct (decide (returncode n = 0)) as [Hn|Hn].
    + left. intros i Hi. destruct (decide (i = n)) as [->|]; [done|].
      apply Hok. lia.
    + right. exists n. split; [lia|]. split; [done|]. intros i Hi. by apply Hok.
  - right. exists j. split; [lia|done].
Qed.

Lemma succeeds_true (returncode : nat → Z) (l : list string) :
  succeeds returncode l = true ↔ ∀ i, (i < length l)%nat → returncode i = 0.
Proof.
  unfold succeeds. rewrite forallb_forall. split.
  - intros Hall i Hi. apply Z.eqb_eq, Hall, list_elem_of_In, elem_of_seq. lia.
  - intros Hall i Hi%list_elem_of_In%elem_of_seq. apply Z.eqb_eq, Hall. lia.
Qed.

(** Whatever its commands return, a worker sends one message: its files if
    all commands returned 0, [None] otherwise. *)
Lemma worker_message (temp_dir output_bam output_metrics_file : Path.t)
    (randint : nat → N) (returncode : nat → Z) (l : list string) :
  sent (mark_duplicates_with_mate_cigar temp_dir output_bam output_metrics_file
          randint returncode l)
  = [if succeeds returncode l
     then Some (files temp_dir output_bam output_metrics_file randint 0 l)
     else None].
Proof.
  unfold mark_duplicates_with_mate_cigar.
  destruct (first_failure returncode (length l)) as [Hok|(j & Hj & Hfail & Hok)].
  - rewrite (proj2 (succeeds_true returncode l) Hok).
    rewrite scaffolds_loop_success by done. cbn [app].
    rewrite bool_decide_false by apply files_no_None.
    unfold sent. rewrite omap_app. fold sent. by rewrite sent_runs.
  - destruct (succeeds returncode l) eqn:Hs.
    { destruct Hfail. by apply (proj1 (succeeds_true returncode l) Hs). }
    destruct (scaffolds_loop_failure temp_dir output_bam output_metrics_file
                randint returncode l 0 [] j) as (failed & _ & ->); [done..|].
    cbn [app]. rewrite bool_decide_true by (apply elem_of_app; right; by left).
    unfold sent. rewrite !omap_app. fold sent. by rewrite sent_runs.
Qed.

Lemma run_workers_messages (temp_dir output_bam output_metrics_file : Path.t)
    (randint : nat → nat → N) (returncode : nat → nat → Z)
    (lists : list (list string)) :
  ∀ w,
  (all_succeed returncode w lists = true →
   run_workers temp_dir output_bam output_metrics_file randint returncode w lists
   = successful (outcomes temp_dir output_bam output_metrics_file randint
                   w lists))
  ∧ (all_succeed returncode w lists = false →
     None ∈ run_workers temp_dir output_bam output_metrics_file randint
              returncode w lists)
  ∧ length (run_workers temp_dir output_bam output_metrics_file randint
              returncode w lists) = length lists.
Proof.
  induction lists as [|l lists IH]; intros w; [done|].
  destruct (IH (S w)) as (Hsucc & Hfail & Hlen).
  cbn [run_workers all_succeed outcomes]. rewrite worker_message.
  destruct (succeeds (returncode w) l) eqn:Hl; cbn [andb app].
  - split; [|split].
    + intros Hrest. rewrite (Hsucc Hrest). cbn [successful map].
      by rewrite <- files_Some.
    + intros Hrest. right. by apply Hfail.
    + cbn. by rewrite Hlen.
  - split; [done|]. split; [intros _; by left|]. cbn. by rewrite Hlen.
Qed.

Lemma all_succeed_true (returncode : nat → nat → Z) (lists : list (list string)) :
  ∀ w, all_succeed returncode w lists = true
       ↔ ∀ v l j, lists !! v = Some l → (j < length l)%nat →
                  returncode (w + v)%nat j = 0.
Proof.
  induction lists as [|l lists IH]; intros w; cbn [all_succeed].
  - split; [|done]. intros _ v l j Hv. by rewrite lookup_nil in Hv.
  - rewrite andb_true_iff, succeeds_true, IH. split.
    + intros [Hl Hrest] [|v] l' j Hv Hj; simplify_eq/=.
      * rewrite Nat.add_0_r. by apply Hl.
      * replace (w + S v)%nat with (S w + v)%nat by lia. by eapply Hrest.
    + intros Hall. split.
      * intros j Hj. specialize (Hall 0%nat l j eq_refl Hj).
        by rewrite Nat.add_0_r in Hall.
      * intros v l' j Hv Hj. replace (S w + v)%nat with (w + S v)%nat by lia.
        by apply (Hall (S v) l' j).
Qed.

(** X2. Whatever the duplicate marking commands return: when a command of
    some worker fails, collecting the messages raises [TypeError]; when none
    fails, the messages are the lists of files of all workers; in neither
    case is the count of failed workers printed. *)
Theorem collect_after_workers (temp_dir output_bam output_metrics_file : Path.t)
    (randint : nat → nat → N) (returncode : nat → nat → Z)
    (names : list string) (lists : list (list string)) :
  let messages := run_workers temp_dir output_bam output_metrics_file randint
                    returncode 0 lists in
  length messages = length lists
  ∧ (collect names messages).1 = []
  ∧ ((∃ w l j, lists !! w = Some l ∧ (j < length l)%nat ∧ returncode w j ≠ 0) →
     collect names messages = ([], Raise TypeError))
  ∧ ((∀ w l j, lists !! w = Some l → (j < length l)%nat → returncode w j = 0) →
     messages = successful (outcomes temp_dir output_bam output_metrics_file
                              randint 0 lists)).
Proof.
  cbv zeta.
  destruct (run_workers_messages temp_dir output_bam output_metrics_file
              randint returncode lists 0) as (Hsucc & Hfail & Hlen).
  pose proof (all_succeed_true returncode lists 0) as Hall. cbn in Hall.
  split; [done|].
  destruct (all_succeed returncode 0 lists) eqn:Hs.
  - rewrite (Hsucc eq_refl). rewrite collect_successful.
    split; [done|]. split; [|done].
    intros (w & l & j & Hw & Hj & Hrc). destruct Hrc.
    by apply (proj1 Hall eq_refl w l j).
  - specialize (Hfail eq_refl).
    assert (Hcollect : collect names
              (run_workers temp_dir output_bam output_metrics_file randint
                 returncode 0 lists) = ([], Raise TypeError)).
    { unfold collect. by rewrite for_each_extend_None. }
    rewrite Hcollect. split; [done|]. split; [done|].
    intros Hok. apply Hall in Hok. done.
Qed.

Lemma collect_after_workers_witness :
  let rc := λ w k : nat, if (w =? 1)%nat && (k =? 0)%nat then 1 else 0 in
  collect ["chr1"; "chr2"; "chr3"]%string
    (run_workers (Path.of_string "/tmp/w")
       (Path.of_string "/out/sample.markdup.bam")
       (Path.of_string "/out/sample.markdup.metrics") (λ _ _, 7%N) rc 0
       [["chr1"; "chr3"]; ["chr2"]]%string)
  = ([], Raise TypeError)
  ∧ run_workers (Path.of_string "/tmp/w")
      (Path.of_string "/out/sample.markdup.bam")
      (Path.of_string "/out/sample.markdup.metrics") (λ _ _, 7%N) (λ _ _, 0) 0
      [["chr1"; "chr3"]; ["chr2"]]%string
    = successful [[example_file "chr1"; example_file "chr3"];
                  [example_file "chr2"]].
Proof.
  cbv zeta. split.
  - refine (proj1 (proj2 (proj2 (collect_after_workers _ _ _ _ _ _ _))) _).
    exists 1%nat, ["chr2"%string], 0%nat.
    split; [done|]. split; [cbn; lia|]. cbn. lia.
  - refine (proj2 (proj2 (proj2 (collect_after_workers _ _ _ _ (λ _ _, 0)
                                    [] _))) _).
    done.
Defined.

(** ** The wait always ends *)

Lemma first_finished (poll : nat → option Z) (n : nat) :
  (∀ i, (i < n)%nat → poll i = None)
  ∨ ∃ j code, (j < n)%nat ∧ poll j = Some code ∧ ∀ i, (i < j)%nat → poll i = None.
Proof.
  induction n as [|n [Hrun|(j & code & Hj & Hdone & Hrun)]].
  - left. lia.
  - destruct (poll n) as [code|] eqn:Hn.
    + right. exists n, code. split; [lia|]. split; [done|].
      intros i Hi. by apply Hrun.
    + left. intros i Hi. destruct (decide (i = n)) as [->|]; [done|].
      apply Hrun. lia.
  - right. exists j, code. split; [lia|done].
Qed.

Lemma slept_sleeps (n : nat) (rest : list wait_action) :
  slept (replicate n (Sleep 10) ++ rest) = Z.of_nat n * 10 + slept rest.
Proof.
  induction n as [|n IH]; [done|].
  change (slept (replicate (S n) (Sleep 10) ++ rest))
    with (10 + slept (replicate n (Sleep 10) ++ rest)).
  rewrite IH. lia.
Qed.

(** X3. With fuel for one test more than [polls_before_cap], the wait
    returns whatever the process does: it has slept 10 seconds per test that
    found the process running, never more than [polls_before_cap] times; it
    raises [TimeoutError] exactly when every test before the cap found the
    process running, and when it returns normally the accumulated wait is
    the time slept, below the cap. *)
Theorem wait_always_returns (poll : nat → option Z) (max_wait_minutes : Z)
    (fuel : nat) :
  (polls_before_cap max_wait_minutes < fuel)%nat →
  ∃ acts r,
    wait_for_insert_metrics poll max_wait_minutes fuel = Some (acts, r)
    ∧ slept acts ≤ Z.of_nat (polls_before_cap max_wait_minutes) * 10
    ∧ (r = Raise TimeoutError
       ↔ ∀ i, (i < polls_before_cap max_wait_minutes)%nat → poll i = None)
    ∧ (∀ wait_time, r = Ok wait_time →
       wait_time = slept acts
       ∧ wait_time < Z.of_nat (polls_before_cap max_wait_minutes) * 10).
Proof.
  intros Hfuel. unfold wait_for_insert_metrics.
  assert (HP : (0 < polls_before_cap max_wait_minutes)%nat)
    by (unfold polls_before_cap; lia).
  change 0 with (Z.of_nat 0 * 10).
  destruct (first_finished poll (polls_before_cap max_wait_minutes))
    as [Hrun|(j & code & Hj & Hdone & Hrun)].
  - destruct (polls_before_cap max_wait_minutes) as [|n] eqn:HPn; [lia|].
    eexists _, _. split; [|split; [|split]].
    + apply (wait_loop_timeout poll max_wait_minutes n 0 fuel);
        [rewrite HPn; lia|lia|].
      rewrite HPn. intros i Hi. apply Hrun. lia.
    + rewrite slept_sleeps. cbn. lia.
    + done.
    + done.
  - eexists _, _. split; [|split; [|split]].
    + apply (wait_loop_finished poll max_wait_minutes j 0 fuel code);
        [lia|lia| |done].
      intros i Hi. apply Hrun. lia.
    + pose proof (slept_sleeps j []) as Hs. rewrite (right_id_L [] (++)) in Hs.
      rewrite Hs. cbn. lia.
    + split.
      * by destruct (code =? 0).
      * intros Hall. rewrite (Hall j Hj) in Hdone. done.
    + intros wait_time Hr. destruct (code =? 0); [|done]. injection Hr as <-.
      pose proof (slept_sleeps j []) as Hs. rewrite (right_id_L [] (++)) in Hs.
      rewrite Hs. cbn. lia.
Qed.

Lemma wait_always_returns_witness :
  ∃ acts r,
    wait_for_insert_metrics (λ k, if (k <? 3)%nat then None else Some 0) 1 7
    = Some (acts, r)
    ∧ slept acts ≤ Z.of_nat (polls_before_cap 1) * 10
    ∧ (r = Raise TimeoutError
       ↔ ∀ i, (i < polls_before_cap 1)%nat →
              (if (i <? 3)%nat then None else Some 0) = None)
    ∧ (∀ wait_time, r = Ok wait_time →
       wait_time = slept acts
       ∧ wait_time < Z.of_nat (polls_before_cap 1) * 10).
Proof.
  apply (wait_always_returns (λ k, if (k <? 3)%nat then None else Some 0) 1 7).
  vm_compute. lia.
Defined.

(** ** The number of processes *)

Lemma clamp_processes_range (parallel_processes : Z) :
  2 ≤ clamp_processes parallel_processes ≤ 24.
Proof. unfold clamp_processes. zbool; lia. Qed.

(** X4. Whatever number of processes is asked for on the command line, the
    partition of a catalog the script has read does not raise: it gives
    between 2 and 24 lists, one per worker, which together hold the names of
    the catalog; a number from 2 to 24 is used as it is. *)
Theorem partition_for_every_requested_count (returncode : Z)
    (lines : list string) (c : catalog) (parallel_processes : Z) :
  read_reference_order returncode lines = Ok c →
  ∃ p, partition c (clamp_processes parallel_processes) = Ok p
       ∧ (2 ≤ length (worker_scaffold_lists p) ≤ 24)%nat
       ∧ concat (worker_scaffold_lists p) ≡ₚ reference_names c
       ∧ (2 ≤ parallel_processes ≤ 24 →
          length (worker_scaffold_lists p) = Z.to_nat parallel_processes).
Proof.
  intros Hread. apply read_reference_order_keyed in Hread as Hk.
  pose proof (clamp_processes_range parallel_processes) as Hrange.
  destruct (partition_lists c (clamp_processes parallel_processes) Hk ltac:(lia))
    as (p & Hp & Hlen & Hperm).
  exists p. split; [done|]. split; [lia|]. split; [done|].
  intros Hin. rewrite Hlen. unfold clamp_processes. zbool; lia.
Qed.

Lemma partition_for_every_requested_count_witness :
  ∃ c, read_reference_order 0 ["chr1,100"; "chr2,90"; "chr3,60"]%string = Ok c
  ∧ ∃ p, partition c (clamp_processes (-5)) = Ok p
       ∧ (2 ≤ length (worker_scaffold_lists p) ≤ 24)%nat
       ∧ concat (worker_scaffold_lists p) ≡ₚ reference_names c
       ∧ (2 ≤ -5 ≤ 24 →
          length (worker_scaffold_lists p) = Z.to_nat (-5)).
Proof.
  eexists. split; [vm_compute; reflexivity|].
  apply (partition_for_every_requested_count 0
           ["chr1,100"; "chr2,90"; "chr3,60"]%string).
  vm_compute; reflexivity.
Defined.

(** ** The reported time *)

(** X5. The hours, minutes and seconds reported for a wait add up to the
    wait, with minutes and seconds from 0 to 59 and, for a wait that is not
    negative, hours that are not negative; after a whole number of sleeps of
    10 seconds the seconds are a multiple of 10. *)
Theorem waited_adds_up (wait_time : Z) :
  let '(waited_hours, waited_minutes, waited_seconds) := waited wait_time in
  wait_time = waited_hours * 3600 + waited_minutes * 60 + waited_seconds
  ∧ 0 ≤ waited_minutes < 60 ∧ 0 ≤ waited_seconds < 60
  ∧ (0 ≤ wait_time → 0 ≤ waited_hours)
  ∧ (wait_time `mod` 10 = 0 → waited_seconds `mod` 10 = 0).
Proof.
  unfold waited. cbv zeta.
  split; [|split; [|split; [|split]]]; try intros Hyp;
    Z.div_mod_to_equations; lia.
Qed.

(** ** Moving the metrics files *)

Lemma move_metrics_spec (files : list Path.t) :
  ∀ gone present,
  (∀ g, g ∈ gone → Path.name g ∈ present) →
  let '(deleted, present', r) := move_metrics files gone present in
  (r = Ok tt ↔ NoDup files ∧ ∀ f, f ∈ files → f ∉ gone)
  ∧ (r = Ok tt ∨ r = Raise FileNotFoundError)
  ∧ (r = Ok tt →
     present' = list_to_set (map Path.name files) ∪ present
     ∧ (deleted = []
        ↔ NoDup (map Path.name files)
          ∧ ∀ f, f ∈ files → Path.name f ∉ present))
  ∧ (r ≠ Ok tt →
     ∃ f, f ∈ files ∧ last deleted = Some (Path.name f)
          ∧ Path.name f ∉ present').
Proof.
  induction files as [|f files IH]; intros gone present Hgone.
  - cbn. split; [|split; [by left|split; [|done]]].
    + split; [|done]. intros _. split; [constructor|].
      intros f Hf. by apply elem_of_nil in Hf.
    + intros _. split; [set_solver|]. split; [|done]. intros _.
      split; [constructor|]. intros f Hf. by apply elem_of_nil in Hf.
  - cbn [move_metrics]. case_bool_decide as Hf.
    + split; [|split; [by right|split; [done|]]].
      * split; [done|]. intros [_ Hnot]. destruct (Hnot f); [by left|done].
      * intros _. exists f. split; [by left|].
        rewrite bool_decide_true by by apply Hgone. split; [done|set_solver].
    + specialize (IH (f :: gone) ({[Path.name f]} ∪ present)).
      destruct (move_metrics files (f :: gone) ({[Path.name f]} ∪ present))
        as [[deleted' present'] r].
      destruct IH as (Hok & Hr & Hdone & Hfail).
      { intros g [->|Hg]%elem_of_cons; [set_solver|].
        apply elem_of_union_r. by apply Hgone. }
      split; [|split; [done|split]].
      * rewrite Hok, NoDup_cons. split.
        -- intros [Hnd Hnot]. split; [split; [|done]|].
           ++ intros Hin. by destruct (Hnot f Hin); left.
           ++ intros g [->|Hg]%elem_of_cons; [done|].
              intros Hin. destruct (Hnot g Hg). by right.
        -- intros [[Hnotin Hnd] Hnot]. split; [done|].
           intros g Hg [->|Hin]%elem_of_cons; [done|].
           by destruct (Hnot g); [right|].
      * intros Hrok. destruct (Hdone Hrok) as [-> Hdel].
        split; [cbn [map]; set_solver|].
        cbn [map]. rewrite NoDup_cons. case_bool_decide as Hpres.
        -- split; [done|]. intros [_ Hfree]. destruct (Hfree f); [by left|done].
        -- cbn [app]. rewrite Hdel. split.
           ++ intros [Hnd Hfree]. split; [split; [|done]|].
              ** intros (g & Hname & Hg)%list_elem_of_fmap.
                 specialize (Hfree g Hg). set_solver.
              ** intros g [->|Hg]%elem_of_cons; [done|].
                 specialize (Hfree g Hg). set_solver.
           ++ intros [[Hfn Hnd] Hfree]. split; [done|]. intros g Hg.
              assert (Path.name g ≠ Path.name f).
              { intros Heq. apply Hfn. rewrite <- Heq.
                by apply (list_elem_of_fmap_2 Path.name). }
              specialize (Hfree g). set_solver.
      * intros Hrfail. destruct (Hfail Hrfail) as (g & Hg & Hlast & Hlost).
        exists g. split; [by right|]. split; [|done].
        rewrite last_app, Hlast. done.
Qed.


(** Two files of one path: the second move finds no file, after the copy
    of the first at the destination was deleted. *)
Example metrics_file_moved_twice :
  move_metrics [Path.of_string "/tmp/w/chr1-0000007/s-chr1.metrics";
                Path.of_string "/tmp/w/chr1-0000007/s-chr1.metrics"] [] ∅
  = (["s-chr1.metrics"%string], ∅, Raise FileNotFoundError).
Proof. vm_compute. reflexivity. Qed.

(** ** File names of the workers *)

Lemma append_cons (x : ascii) (a b : string) :
  String x a +:+ b = String x (a +:+ b).
Proof. done. Qed.

Lemma length_append (a b : string) :
  String.length (a +:+ b) = (String.length a + String.length b)%nat.
Proof.
  induction a as [|x a IH]; [done|]. rewrite append_cons. cbn [String.length].
  by rewrite IH.
Qed.

Lemma append_inj_r (a b t : string) : a +:+ t = b +:+ t → a = b.
Proof.
  revert b. induction a as [|x a IH]; intros [|y b] Heq; [done| | |].
  - apply (f_equal String.length) in Heq.
    rewrite !length_append in Heq. cbn [String.length] in Heq. lia.
  - apply (f_equal String.length) in Heq.
    rewrite !length_append in Heq. cbn [String.length] in Heq. lia.
  - rewrite !append_cons in Heq. injection Heq as -> Heq. f_equal. by apply IH.
Qed.

(** A single component joined to a path is the name of the result, and the
    path is its parent. *)
Lemma join_component (p : Path.t) (n : string) :
  contains "/" n = false → n ≠ EmptyString → n ≠ "."%string →
  Path.name (Path.join p n) = n ∧ Path.parent (Path.join p n) = p.
Proof.
  intros Hslash Hne Hdot. unfold Path.join, Path.of_string.
  rewrite split_free by done.
  rewrite (startswith_contains "/" n Hslash). cbn [Path.anchored Path.parts].
  rewrite filter_cons_True; last first.
  { unfold Path.component. by rewrite !bool_decide_false. }
  rewrite filter_nil. unfold Path.name, Path.parent. cbn [Path.parts Path.anchored].
  rewrite last_snoc, removelast_last. split; [done|]. by destruct p.
Qed.

Lemma scaffold_metrics_file_name (temp_dir output_metrics_file : Path.t)
    (randint : nat → N) (k : nat) (scaffold : string) :
  contains "/" (scaffold_metrics_name output_metrics_file scaffold) = false →
  Path.name (scaffold_metrics_file temp_dir output_metrics_file randint k scaffold)
  = scaffold_metrics_name output_metrics_file scaffold.
Proof.
  intros Hslash. unfold scaffold_metrics_file.
  fold (scaffold_metrics_name output_metrics_file scaffold).
  assert (Hdash : contains "-" (scaffold_metrics_name output_metrics_file scaffold)
                  = true).
  { unfold scaffold_metrics_name. rewrite contains_append. cbn.
    by rewrite orb_true_r. }
  apply join_component; [done| |].
  - intros Hnil. by rewrite Hnil in Hdash.
  - intros Hdot. by rewrite Hdot in Hdash.
Qed.

Lemma scaffold_metrics_name_inj (output_metrics_file : Path.t) (s s' : string) :
  scaffold_metrics_name output_metrics_file s
  = scaffold_metrics_name output_metrics_file s' → s = s'.
Proof.
  unfold scaffold_metrics_name. intros Heq.
  apply String.app_inj in Heq.
  set (t := ("." +:+ List.last (Py.split "." (Path.name output_metrics_file))
                       EmptyString)%string) in Heq.
  change (String "-" (s +:+ t) = String "-" (s' +:+ t)) in Heq.
  injection Heq as Heq. by apply append_inj_r in Heq.
Qed.

Lemma split_contains (c sep : ascii) (s : string) :
  contains c s = false → Forall (λ p, contains c p = false) (Py.split sep s).
Proof.
  induction s as [|a s IH]; cbn [contains Py.split]; [by repeat constructor|].
  intros [Ha Hs]%orb_false_iff. specialize (IH Hs).
  destruct (Ascii.eqb a sep); [by constructor|].
  destruct (Py.split sep s) as [|h t]; [repeat constructor; cbn; by rewrite Ha|].
  apply Forall_cons in IH as [Hh Ht]. constructor; [|done].
  cbn. by rewrite Ha, Hh.
Qed.

Lemma concat_contains (c : ascii) (sep : string) (l : list string) :
  contains c sep = false → Forall (λ p, contains c p = false) l →
  contains c (String.concat sep l) = false.
Proof.
  intros Hsep. induction 1 as [|x l Hx Hl IH]; [done|].
  destruct l as [|y l]; [done|].
  change (String.concat sep (x :: y :: l))
    with (x +:+ sep +:+ String.concat sep (y :: l)).
  by rewrite !contains_append, Hx, Hsep, IH.
Qed.

Lemma last_Forall {A} (P : A → Prop) (l : list A) (d : A) :
  P d → Forall P l → P (List.last l d).
Proof.
  intros Hd. induction 1 as [|x l Hx Hl IH]; [done|].
  destruct l; [done|]. apply IH.
Qed.

Lemma removelast_Forall {A} (P : A → Prop) (l : list A) :
  Forall P l → Forall P (removelast l).
Proof.
  induction 1 as [|x l Hx Hl IH]; [constructor|].
  destruct l; [constructor|]. by constructor.
Qed.

(** The stem and the extension of a name without slash have no slash. *)
Lemma stem_contains (p : Path.t) :
  contains "/" (Path.name p) = false →
  contains "/" (Path.stem p) = false
  ∧ contains "/" (List.last (Py.split "." (Path.name p)) EmptyString) = false.
Proof.
  intros Hname. pose proof (split_contains "/" "." _ Hname) as Hpieces.
  split; [|by apply last_Forall].
  unfold Path.stem. destruct (_ && _); [|done].
  apply concat_contains; [done|]. by apply removelast_Forall.
Qed.

Lemma scaffold_metrics_name_contains (output_metrics_file : Path.t) (s : string) :
  contains "/" (Path.name output_metrics_file) = false →
  contains "/" s = false →
  contains "/" (scaffold_metrics_name output_metrics_file s) = false.
Proof.
  intros [Hstem Hext]%stem_contains Hs. unfold scaffold_metrics_name.
  by rewrite !contains_append, Hstem, Hs, Hext.
Qed.

Lemma outcomes_metrics_names (temp_dir output_bam output_metrics_file : Path.t)
    (randint : nat → nat → N) (lists : list (list string)) :
  contains "/" (Path.name output_metrics_file) = false →
  Forall (λ n, contains "/" n = false) (concat lists) →
  ∀ w, map Path.name
         (concat (outcomes temp_dir output_bam output_metrics_file randint
                    w lists)).*2
       = map (scaffold_metrics_name output_metrics_file) (concat lists).
Proof.
  intros Hname. induction lists as [|l lists IH]; intros Hall w; [done|].
  cbn [concat] in Hall. apply Forall_app in Hall as [Hl Hlists].
  cbn [outcomes concat]. rewrite fmap_app, !map_app, IH by done. f_equal.
  clear IH Hlists. generalize 0%nat.
  induction Hl as [|s l Hs Hl IHl]; intros k; [done|].
  cbn. rewrite IHl. f_equal. apply scaffold_metrics_file_name.
  by apply scaffold_metrics_name_contains.
Qed.

(** X7. For a catalog the script has read with distinct names without
    slash, partitioned over at least one worker, and an output file for the
    metrics whose name has no slash: when every worker succeeds, moving the
    metrics files of the scaffolds into a directory that holds none of their
    names does not fail and deletes no file, and afterwards the directory
    holds the metrics file of every scaffold of the catalog. *)
Theorem metrics_of_all_scaffolds_are_kept
    (temp_dir output_bam output_metrics_file : Path.t)
    (randint : nat → nat → N) (returncode : Z) (lines : list string)
    (c : catalog) (processes : Z) (present : gset string) :
  read_reference_order returncode lines = Ok c → 1 ≤ processes →
  NoDup (reference_names c) →
  Forall (λ n, contains "/" n = false) (reference_names c) →
  contains "/" (Path.name output_metrics_file) = false →
  (∀ n, n ∈ reference_names c →
        scaffold_metrics_name output_metrics_file n ∉ present) →
  ∃ p, partition c processes = Ok p
       ∧ ∃ kept,
           move_metrics
             (concat (outcomes temp_dir output_bam output_metrics_file randint
                        0 (worker_scaffold_lists p))).*2 [] present
           = ([], kept, Ok tt)
           ∧ present ⊆ kept
           ∧ ∀ n, n ∈ reference_names c →
                  scaffold_metrics_name output_metrics_file n ∈ kept.
Proof.
  intros Hread Hp Hnd Hslash Hname Hfresh.
  apply read_reference_order_keyed in Hread as Hk.
  destruct (partition_lists c processes Hk Hp) as (p & Hpart & _ & Hperm).
  exists p. split; [done|].
  set (files := (concat (outcomes temp_dir output_bam output_metrics_file
                           randint 0 (worker_scaffold_lists p))).*2).
  assert (Hnames : map Path.name files
                   = map (scaffold_metrics_name output_metrics_file)
                       (concat (worker_scaffold_lists p))).
  { apply outcomes_metrics_names; [done|]. by rewrite Hperm. }
  assert (Hdistinct : NoDup (map Path.name files)).
  { rewrite Hnames. apply NoDup_fmap_2; [|by rewrite Hperm].
    intros s s'. apply scaffold_metrics_name_inj. }
  pose proof (move_metrics_spec files [] present) as Hspec.
  destruct (move_metrics files [] present) as [[deleted kept] r] eqn:Hmove.
  destruct Hspec as (Hok & _ & Hdone & _).
  { intros g Hg. by apply elem_of_nil in Hg. }
  assert (Hr : r = Ok tt).
  { apply Hok. split; [by apply (NoDup_fmap_1 Path.name)|].
    intros f _ Hf. by apply elem_of_nil in Hf. }
  destruct (Hdone Hr) as [Hkept Hdel].
  exists kept. split; [|split].
  - rewrite Hr. do 2 f_equal. apply Hdel. split; [done|].
    intros f Hf. apply (list_elem_of_fmap_2 Path.name) in Hf.
    change (Path.name <$> files) with (map Path.name files) in Hf.
    rewrite Hnames in Hf.
    apply list_elem_of_fmap in Hf as (n & -> & Hn). apply Hfresh.
    by rewrite <- Hperm.
  - rewrite Hkept. set_solver.
  - intros n Hn. rewrite Hkept, Hnames. apply elem_of_union_l.
    apply elem_of_list_to_set, list_elem_of_fmap. exists n. split; [done|].
    by rewrite Hperm.
Qed.

Lemma metrics_of_all_scaffolds_are_kept_witness :
  ∃ c, read_reference_order 0 ["chr1,100"; "chr2,90"; "chr3,60"]%string = Ok c
  ∧ ∃ p, partition c 2 = Ok p
    ∧ ∃ kept,
        move_metrics
          (concat (outcomes (Path.of_string "/tmp/w")
                     (Path.of_string "/out/sample.markdup.bam")
                     (Path.of_string "/out/sample.markdup.metrics")
                     (λ _ _, 7%N) 0 (worker_scaffold_lists p))).*2 [] ∅
        = ([], kept, Ok tt)
        ∧ ∅ ⊆ kept
        ∧ ∀ n, n ∈ reference_names c →
               scaffold_metrics_name
                 (Path.of_string "/out/sample.markdup.metrics") n ∈ kept.
Proof.
  eexists. split; [vm_compute; reflexivity|].
  apply (metrics_of_all_scaffolds_are_kept _ _ _ _ 0
           ["chr1,100"; "chr2,90"; "chr3,60"]%string);
    [vm_compute; reflexivity|lia| | |done|set_solver].
  - apply (bool_decide_unpack _). vm_compute. exact I.
  - apply (bool_decide_unpack _). vm_compute. exact I.
Defined.

(** ** The duplicate marking as a whole *)

Lemma receive_exact (messages : list message) :
  ∀ received,
  receive (length messages) messages received
  = lift (for_each extend messages received).
Proof.
  induction messages as [|m messages IH]; intros received; [done|].
  cbn [length receive for_each]. destruct m as [created|]; cbn; [|done].
  rewrite IH. by destruct (for_each extend messages (received ++ created)).
Qed.

Lemma receive_None (messages : list message) :
  None ∈ messages → ∀ pipes received,
  (length messages ≤ pipes)%nat →
  receive pipes messages received = Run [] (Raises TypeError).
Proof.
  induction messages as [|m messages IH]; intros Hin pipes received Hlen.
  - by apply elem_of_nil in Hin.
  - destruct pipes as [|pipes]; [cbn in Hlen; lia|].
    cbn [receive]. destruct m as [created|]; cbn; [|done].
    apply elem_of_cons in Hin as [?|Hin]; [done|].
    rewrite IH; [done|done|cbn in Hlen; lia].
Qed.

Lemma receive_blocks (outcomes : list (list (Path.t * Path.t))) :
  ∀ pipes received,
  (length outcomes < pipes)%nat →
  receive pipes (successful outcomes) received = Run [] Blocks.
Proof.
  induction outcomes as [|files outcomes IH]; intros pipes received Hlen.
  - destruct pipes; [lia|done].
  - destruct pipes as [|pipes]; [lia|]. cbn.
    fold (successful outcomes). rewrite IH; [done|cbn in Hlen; lia].
Qed.

Lemma partition_negative (c : catalog) (processes : Z) (p : plan) :
  keyed c → processes < 0 → partition c processes = Ok p →
  worker_scaffold_lists p = [].
Proof.
  intros Hk Hp. unfold partition.
  destruct (Z.eqb_spec processes 0); [lia|].
  rewrite (scaffolds_keyed c Hk). cbn [mbind result_bind].
  replace (Z.to_nat processes) with 0%nat by lia. cbn [replicate].
  destruct (sorted_descending (pairs c)) as [|[name len] l].
  - cbn. by intros [= <-].
  - cbn [for_enumerate plan_scaffold worker_scaffolds_cumulative_sums].
    by rewrite getitem_empty.
Qed.

Lemma partition_length (c : catalog) (processes : Z) (p : plan) :
  keyed c → partition c processes = Ok p →
  length (worker_scaffold_lists p) = Z.to_nat processes
  ∧ concat (worker_scaffold_lists p) ≡ₚ reference_names c
  ∧ (reference_names c ≠ [] → 1 ≤ processes).
Proof.
  intros Hk Hpart. destruct (Z.lt_trichotomy processes 0) as [Hneg|[->|Hpos]].
  - pose proof (partition_negative c processes p Hk Hneg Hpart) as Hnil.
    assert (Hperm : sorted_descending (pairs c) = []).
    { revert Hpart. unfold partition.
      destruct (Z.eqb_spec processes 0); [lia|].
      rewrite (scaffolds_keyed c Hk). cbn [mbind result_bind].
      replace (Z.to_nat processes) with 0%nat by lia. cbn [replicate].
      destruct (sorted_descending (pairs c)) as [|[name len] l]; [done|].
      cbn [for_enumerate plan_scaffold worker_scaffolds_cumulative_sums].
      by rewrite getitem_empty. }
    apply sorted_descending_nil in Hperm.
    apply (f_equal (fmap fst)) in Hperm. rewrite pairs_names in Hperm.
    rewrite Hnil, Hperm. cbn. split; [lia|]. split; [done|]. done.
  - done.
  - destruct (partition_lists c processes Hk ltac:(lia)) as (p' & Hp' & Hlen & Hperm).
    rewrite Hpart in Hp'. injection Hp' as <-. split; [done|]. split; [done|lia].
Qed.

Ltac run_simpl :=
  cbn [mbind run_bind mret run_ret lift raise does steps outcome app].

(** The other failures before the workers start: the run stops after the
    reference order command. *)
Lemma parallel_run_early (env : subprocesses) (parallel_processes : Z)
    (bam_path temp_dir : Path.t) (processes : Z)
    (complete_output_bam complete_output_metrics_file : Path.t) :
  let fixed_bam_path :=
    Path.join temp_dir (Path.stem bam_path +:+ ".mateFixed.sorted.bam") in
  let r := mark_duplicates_with_mate_cigar_parallel env parallel_processes
             bam_path temp_dir processes complete_output_bam
             complete_output_metrics_file in
  (called_mate_fixing_cmd env ≠ 0 →
   r = Run [MateFixing (sort_threads processes) bam_path fixed_bam_path;
            Print MateFixingFailed] (Raises (SystemExit 3)))
  ∧ (called_mate_fixing_cmd env = 0 →
     ∀ e,
     (c ← read_reference_order (called_ref_order_command env).1
            (called_ref_order_command env).2;
      p ← partition c processes;
      connections parallel_processes processes) = Raise e →
     r = Run [MateFixing (sort_threads processes) bam_path fixed_bam_path;
              ReferenceOrder fixed_bam_path] (Raises e)).
Proof.
  cbv zeta. unfold mark_duplicates_with_mate_cigar_parallel, check_returncode.
  split.
  - intros Hmate. apply Z.eqb_neq in Hmate. rewrite Hmate. done.
  - intros -> e. cbn.
    destruct (read_reference_order _ _) as [c|e1]; cbn; [|by intros [= ->]].
    destruct (partition c processes) as [p|e2]; cbn; [|by intros [= ->]].
    destruct (connections parallel_processes processes) as [n|e3]; cbn;
      [done|by intros [= ->]].
Qed.

(** A run in which the workers start. *)
Lemma parallel_run (env : subprocesses) (parallel_processes : Z)
    (bam_path temp_dir : Path.t) (processes : Z)
    (complete_output_bam complete_output_metrics_file : Path.t)
    (c : catalog) (p : plan) :
  called_mate_fixing_cmd env = 0 →
  read_reference_order (called_ref_order_command env).1
    (called_ref_order_command env).2 = Ok c →
  partition c processes = Ok p →
  1 ≤ parallel_processes → processes ≤ parallel_processes →
  let fixed_bam_path :=
    Path.join temp_dir (Path.stem bam_path +:+ ".mateFixed.sorted.bam") in
  let rest :=
    if all_succeed (paired_end_dup_marking_cmd env) 0 (worker_scaffold_lists p)
    then if bool_decide (processes = parallel_processes)
         then deliver env bam_path temp_dir fixed_bam_path complete_output_bam
                complete_output_metrics_file (reference_names c)
                (concat (outcomes temp_dir complete_output_bam
                           complete_output_metrics_file (draws env) 0
                           (worker_scaffold_lists p)))
         else Run [] Blocks
    else Run [] (Raises TypeError) in
  mark_duplicates_with_mate_cigar_parallel env parallel_processes bam_path
    temp_dir processes complete_output_bam complete_output_metrics_file
  = Run ([MateFixing (sort_threads processes) bam_path fixed_bam_path;
          ReferenceOrder fixed_bam_path;
          Workers fixed_bam_path (worker_scaffold_lists p)] ++ steps rest)
        (outcome rest).
Proof.
  intros Hmate Hread Hpart Hpp Hle. cbv zeta.
  apply read_reference_order_keyed in Hread as Hk.
  destruct (partition_length c processes p Hk Hpart) as (Hlen & _ & _).
  unfold mark_duplicates_with_mate_cigar_parallel, check_returncode.
  rewrite Hmate, Hread. cbn [Z.eqb]. run_simpl. rewrite Hpart. run_simpl.
  unfold connections.
  destruct (Z.ltb_spec parallel_processes 1); [lia|].
  destruct (Z.ltb_spec parallel_processes processes); [lia|].
  run_simpl.
  destruct (run_workers_messages temp_dir complete_output_bam
              complete_output_metrics_file (draws env)
              (paired_end_dup_marking_cmd env) (worker_scaffold_lists p) 0)
    as (Hsucc & Hfail & Hmsgs).
  destruct (all_succeed _ 0 _).
  - specialize (Hsucc eq_refl). rewrite Hsucc in Hmsgs |- *.
    case_bool_decide as Heq.
    + replace (Z.to_nat parallel_processes)
        with (length (successful (outcomes temp_dir complete_output_bam
                complete_output_metrics_file (draws env) 0
                (worker_scaffold_lists p)))).
      2:{ rewrite Hmsgs, Hlen. by rewrite Heq. }
      rewrite receive_exact, for_each_extend_successful. run_simpl.
      cbn [app]. rewrite bool_decide_false.
      2:{ intros (x & Hx & _)%list_elem_of_fmap. done. }
      by rewrite omap_id_Some.
    + rewrite receive_blocks; [done|].
      unfold successful in Hmsgs. rewrite length_map in Hmsgs.
      rewrite Hmsgs, Hlen. lia.
  - rewrite receive_None; [done|by apply Hfail|].
    rewrite Hmsgs, Hlen. lia.
Qed.

(** *** The exceptions of the stages *)

Lemma getitem_raises {A} (l : list A) (i : Z) (e : exn) :
  Py.getitem l i = Raise e → e = IndexError.
Proof.
  unfold Py.getitem. destruct (_ && _); [|by intros [= <-]].
  destruct (l !! _); [done|by intros [= <-]].
Qed.

Lemma int_raises (s : string) (e : exn) : Py.int s = Raise e → e = ValueError.
Proof.
  assert (Hd : ∀ r, Py.digits r = Raise e → e = ValueError).
  { intros r. unfold Py.digits. destruct (NilZero.uint_of_string r); [done|].
    by intros [= <-]. }
  unfold Py.int. destruct s as [|a s]; [apply Hd|].
  destruct (Ascii.eqb_spec a "-") as [->|]; [|destruct (Ascii.eqb_spec a "+") as [->|]].
  - cbn. destruct (Py.digits s) eqn:Hs; [done|]. intros [= <-]. by apply (Hd s).
  - apply Hd.
  - destruct a as [[] [] [] [] [] [] [] []]; try apply Hd; done.
Qed.

Lemma catalog_line_raises (c : catalog) (t : string) (e : exn) :
  catalog_line c t = Raise e → e = IndexError ∨ e = ValueError.
Proof.
  unfold catalog_line.
  destruct (Py.getitem (Py.split "," t) 0) as [ref_name|e1] eqn:H0; cbn.
  - case_bool_decide; [done|].
    destruct (Py.getitem (Py.split "," t) 1) as [field|e2] eqn:H1; cbn.
    + destruct (Py.int field) as [n|e3] eqn:Hint; cbn.
      * by destruct (n =? 0).
      * intros [= <-]. right. by apply (int_raises field).
    + intros [= <-]. left. by apply getitem_raises in H1.
  - intros [= <-]. left. by apply getitem_raises in H0.
Qed.

Lemma read_reference_order_raises (returncode : Z) (lines : list string)
    (e : exn) :
  read_reference_order returncode lines = Raise e →
  (returncode ≠ 0 ∧ e = SubprocessError)
  ∨ (returncode = 0 ∧ (e = IndexError ∨ e = ValueError)).
Proof.
  unfold read_reference_order. destruct (Z.eqb_spec returncode 0) as [->|Hrc].
  - intros Hfor. right. split; [done|].
    revert Hfor. generalize empty_catalog.
    induction lines as [|t lines IH]; intros c; [done|]. cbn.
    destruct (catalog_line c t) as [c'|e1] eqn:Hline; cbn; [apply IH|].
    intros [= <-]. by apply catalog_line_raises in Hline.
  - intros [= <-]. by left.
Qed.

Lemma partition_raises (c : catalog) (processes : Z) (e : exn) :
  keyed c → partition c processes = Raise e →
  (processes = 0 ∧ e = ZeroDivisionError)
  ∨ (processes < 0 ∧ e = IndexError ∧ reference_names c ≠ []).
Proof.
  intros Hk Hpart. destruct (Z.lt_trichotomy processes 0) as [Hneg|[->|Hpos]].
  - right. split; [done|]. revert Hpart. unfold partition.
    destruct (Z.eqb_spec processes 0); [lia|].
    rewrite (scaffolds_keyed c Hk). cbn [mbind result_bind].
    replace (Z.to_nat processes) with 0%nat by lia. cbn [replicate].
    destruct (sorted_descending (pairs c)) as [|[name len] l] eqn:Hsort; [done|].
    cbn [for_enumerate plan_scaffold worker_scaffolds_cumulative_sums].
    rewrite getitem_empty. cbn. intros [= <-]. split; [done|].
    intros Hnil. rewrite <- pairs_names in Hnil.
    apply fmap_nil_inv in Hnil. by rewrite Hnil in Hsort.
  - left. by injection Hpart as <-.
  - destruct (partition_lists c processes Hk ltac:(lia)) as (p & Hp & _).
    by rewrite Hp in Hpart.
Qed.

Lemma connections_spec (parallel_processes processes : Z) :
  match connections parallel_processes processes with
  | Ok pipes => 1 ≤ parallel_processes ∧ processes ≤ parallel_processes
                ∧ pipes = Z.to_nat parallel_processes
  | Raise e => (parallel_processes < 1 ∧ e = ValueError)
               ∨ (1 ≤ parallel_processes < processes ∧ e = IndexError)
  end.
Proof.
  unfold connections. destruct (Z.ltb_spec parallel_processes 1); [by left|].
  destruct (Z.ltb_spec parallel_processes processes);
    [right; split; [lia|done]|split; [lia|split; [lia|done]]].
Qed.

(** The re-ordering either finds a file for every reference name, or
    raises [ValueError]. *)
Lemma ordered_scaffold_paths_cases (names : list string) (paths : list Path.t) :
  (∃ ps, ordered_scaffold_paths names paths = Ok (map Path.str ps)
         ∧ map received_scaffold ps = names ∧ Forall (λ p, p ∈ paths) ps)
  ∨ (ordered_scaffold_paths names paths = Raise ValueError
     ∧ Exists (λ n, n ∉ map received_scaffold paths) names).
Proof.
  destruct (decide (Forall (λ n, n ∈ map received_scaffold paths) names))
    as [Hall|Hex].
  - left. by apply ordered_scaffold_paths_found.
  - right. apply not_Forall_Exists in Hex; [|apply _].
    split; [|done]. by apply ordered_scaffold_paths_missing.
Qed.

(** *** Every run of the duplicate marking *)

(** The loop that moves the metrics files ends without error exactly when
    no metrics file comes twice, whatever the directory holds. *)
Lemma move_metrics_outcome (files : list Path.t) (present : gset string) :
  (NoDup files ∧ (move_metrics files [] present).2 = Ok tt)
  ∨ (¬ NoDup files
     ∧ (move_metrics files [] present).2 = Raise FileNotFoundError).
Proof.
  pose proof (move_metrics_spec files [] present) as Hspec.
  destruct (move_metrics files [] present) as [[deleted present'] r].
  destruct Hspec as (Hok & Hr & _).
  { intros g Hg. by apply elem_of_nil in Hg. }
  cbn [snd]. destruct Hr as [-> | ->].
  - left. split; [|done]. by apply Hok.
  - right. split; [|done]. intros Hnd.
    assert (Hcontra : @Raise unit FileNotFoundError = Ok tt); [|done].
    apply Hok. split; [done|]. intros f _ Hf. by apply elem_of_nil in Hf.
Qed.

Lemma deliver_run (env : subprocesses) (bam_path temp_path fixed_bam_path : Path.t)
    (complete_output_bam complete_output_metrics_file : Path.t)
    (names : list string) (files : list (Path.t * Path.t)) :
  files ≠ [] →
  let mm := MoveMetrics files.*2
              (Path.join (Path.parent complete_output_metrics_file)
                 (Path.stem bam_path +:+ "_scaffold_metrics")) in
  let concatenated_bam := Path.join temp_path (Path.name complete_output_bam) in
  let index_path := Path.of_string (Path.str concatenated_bam +:+ ".bai") in
  let rt := RemoveTrees (map Path.parent files.*1) in
  let rm := RemoveMateFixed fixed_bam_path in
  let ix := Indexing concatenated_bam index_path in
  let rs := Rsync (drop_last (Path.str concatenated_bam) +:+ "*")
              (Path.parent complete_output_bam) in
  deliver env bam_path temp_path fixed_bam_path complete_output_bam
    complete_output_metrics_file names files
  = match (move_metrics files.*2 [] ∅).2 with
    | Raise e => Run [mm] (Raises e)
    | Ok _ =>
        match ordered_scaffold_paths names files.*1 with
        | Raise e => Run [mm] (Raises e)
        | Ok ordered =>
            let cc := Concatenation ordered concatenated_bam in
            if concatenation_subprocess env =? 0 then
              if indexing_subprocess env =? 0 then
                if rsync_subprocess env =? 0 then
                  Run [mm; cc; rt; rm; ix; rs;
                       Unlink [index_path; concatenated_bam]]
                    (Returns temp_path)
                else Run [mm; cc; rt; rm; ix; rs; Print RsyncFailed]
                       (Raises (SystemExit 1))
              else Run [mm; cc; rt; rm; ix; Print IndexingFailed]
                     (Raises (SystemExit 1))
            else Run [mm; cc; Print ConcatenationFailed] (Raises (SystemExit 1))
        end
    end.
Proof.
  intros Hne. cbv zeta. destruct files as [|f files]; [done|].
  unfold deliver, check_returncode.
  destruct (move_metrics (f :: files).*2 [] ∅).2 as [[]|e]; [|done].
  destruct (ordered_scaffold_paths names _) as [ordered|e]; [|done].
  destruct (concatenation_subprocess env =? 0); [|done].
  destruct (indexing_subprocess env =? 0); [|done].
  by destruct (rsync_subprocess env =? 0).
Qed.

(** The case analysis of a run: the failing mate fixing, a failure before
    the workers start, a failing worker, pipes without a worker, no file
    at all, a metrics file that comes twice, a reference name without file,
    and the return codes of the three commands of the delivery. *)
Ltac parallel_cases env pp bam temp processes cob comf :=
  let Hfail := fresh "Hfail" in
  let Hearly := fresh "Hearly" in
  let Hconn := fresh "Hconn" in
  destruct (parallel_run_early env pp bam temp processes cob comf)
    as [Hfail Hearly];
  destruct (Z.eq_dec (called_mate_fixing_cmd env) 0) as [Hmate|Hmate];
  [ specialize (Hearly Hmate); clear Hfail;
    destruct (read_reference_order (called_ref_order_command env).1
                (called_ref_order_command env).2) as [c|e] eqn:Hread;
    [ pose proof (read_reference_order_keyed _ _ _ Hread) as Hk;
      cbn [mbind result_bind] in Hearly;
      destruct (partition c processes) as [p|e] eqn:Hpart;
      [ pose proof (connections_spec pp processes) as Hconn;
        cbn [mbind result_bind] in Hearly;
        destruct (connections pp processes) as [pipes|e] eqn:Hpipes;
        [ destruct Hconn as (Hpp & Hle & _); clear Hearly;
          rewrite (parallel_run env pp bam temp processes cob comf c p
                     Hmate Hread Hpart Hpp Hle);
          destruct (all_succeed (paired_end_dup_marking_cmd env) 0
                      (worker_scaffold_lists p)) eqn:Hall;
          [ case_bool_decide as Heq;
            [ destruct (concat (outcomes temp cob comf (draws env) 0
                                  (worker_scaffold_lists p)))
                as [|f files] eqn:Hfiles;
              [ | rewrite deliver_run by done;
                  destruct (move_metrics_outcome (f :: files).*2 ∅)
                    as [[Hdistinct Hmoved]|[Htwice Hmoved]];
                  rewrite Hmoved;
                  [ destruct (ordered_scaffold_paths_cases (reference_names c)
                                (f :: files).*1)
                      as [(ps & Hordered & Hps & Hin)|[Hordered Hmissing]];
                    rewrite Hordered;
                    [ destruct (Z.eqb_spec (concatenation_subprocess env) 0)
                        as [Hcat|Hcat];
                      [ destruct (Z.eqb_spec (indexing_subprocess env) 0)
                          as [Hidx|Hidx];
                        [ destruct (Z.eqb_spec (rsync_subprocess env) 0)
                            as [Hrsync|Hrsync] | ] | ] | ] | ] ] | ] | ]
        | rewrite (Hearly e eq_refl) ]
      | pose proof (partition_raises _ _ _ Hk Hpart) as Hraises;
        rewrite (Hearly e eq_refl) ]
    | pose proof (read_reference_order_raises _ _ _ Hread) as Hraises;
      rewrite (Hearly e eq_refl) ]
  | rewrite (Hfail Hmate) ];
  cbn [steps outcome app].


Ltac not_a_step H :=
  repeat (apply elem_of_cons in H as [H|H]; [discriminate|]);
  by apply elem_of_nil in H.




Lemma read_reference_order_returncode (returncode : Z) (lines : list string)
    (c : catalog) :
  read_reference_order returncode lines = Ok c → returncode = 0.
Proof.
  unfold read_reference_order. by destruct (Z.eqb_spec returncode 0).
Qed.

(** X9. The result is synchronized to the directory of the output only
    after every stage before succeeded: the mate fixing, the reference
    order command, every duplicate marking command of every worker, the
    concatenation and the indexing returned 0, the function was called with
    the number of processes the pipes were made for, and the concatenation
    was given one file of a worker per reference name, in reference order.
    The function then returns the temporary directory exactly when the
    synchronization returns 0, and it never returns without it. *)
Theorem synchronization_follows_success (env : subprocesses)
    (parallel_processes : Z) (bam_path temp_dir : Path.t) (processes : Z)
    (complete_output_bam complete_output_metrics_file : Path.t) :
  let r := mark_duplicates_with_mate_cigar_parallel env parallel_processes
             bam_path temp_dir processes complete_output_bam
             complete_output_metrics_file in
  (∀ source final_output_dir,
     Rsync source final_output_dir ∈ steps r →
     called_mate_fixing_cmd env = 0
     ∧ (called_ref_order_command env).1 = 0
     ∧ processes = parallel_processes
     ∧ concatenation_subprocess env = 0
     ∧ indexing_subprocess env = 0
     ∧ final_output_dir = Path.parent complete_output_bam
     ∧ (outcome r = Returns temp_dir ↔ rsync_subprocess env = 0)
     ∧ ∃ c p ps,
         read_reference_order (called_ref_order_command env).1
           (called_ref_order_command env).2 = Ok c
         ∧ partition c processes = Ok p
         ∧ (∀ w l j, worker_scaffold_lists p !! w = Some l →
                     (j < length l)%nat →
                     paired_end_dup_marking_cmd env w j = 0)
         ∧ Concatenation (map Path.str ps)
             (Path.join temp_dir (Path.name complete_output_bam)) ∈ steps r
         ∧ map received_scaffold ps = reference_names c
         ∧ Forall (λ q, q ∈ (concat (outcomes temp_dir complete_output_bam
                                       complete_output_metrics_file
                                       (draws env) 0
                                       (worker_scaffold_lists p))).*1) ps)
  ∧ (∀ t, outcome r = Returns t →
          t = temp_dir
          ∧ ∃ source, Rsync source (Path.parent complete_output_bam) ∈ steps r).
Proof.
  cbv zeta.
  parallel_cases env parallel_processes bam_path temp_dir processes
    complete_output_bam complete_output_metrics_file.
  all: (split; [intros source final_output_dir Hstep|intros t; try discriminate]).
  all: try (not_a_step Hstep).
  all: try (intros [= <-]; split; [done|]; eexists;
            repeat first [apply list_elem_of_here|apply list_elem_of_further]).
  all: assert (final_output_dir = Path.parent complete_output_bam)
         by (repeat (apply elem_of_cons in Hstep as [Hstep|Hstep];
                     [try discriminate; by injection Hstep|]);
             by apply elem_of_nil in Hstep).
  all: pose proof (read_reference_order_returncode _ _ _ Hread) as Hrc.
  all: pose proof (proj1 (all_succeed_true _ _ 0) Hall) as Hworkers.
  all: (do 6 (split; [done|])).
  all: (split; [split; [try discriminate; try done|try done]|]).
  all: exists c, p, ps; rewrite Hfiles.
  all: (split; [done|]); (split; [done|]); (split; [exact Hworkers|]).
  all: (split; [repeat first [apply list_elem_of_here
                              |apply list_elem_of_further]|done]).
Qed.

Lemma synchronization_follows_success_witness :
  let env := Subprocesses 0 (0, ["chr1,100"; "chr2,90"; "chr3,60"]%string)
               (λ _ _, 7%N) (λ _ _, 0) 0 0 1 in
  let r := mark_duplicates_with_mate_cigar_parallel env 2
             (Path.of_string "/in/sample.bam") (Path.of_string "/tmp/w") 2
             (Path.of_string "/out/sample.markdup.bam")
             (Path.of_string "/out/sample.markdup.metrics") in
  Rsync "/tmp/w/sample.markdup.ba*" (Path.of_string "/out") ∈ steps r
  ∧ concatenation_subprocess env = 0
  ∧ (outcome r = Returns (Path.of_string "/tmp/w") ↔ rsync_subprocess env = 0).
Proof.
  cbv zeta.
  assert (Hstep : Rsync "/tmp/w/sample.markdup.ba*" (Path.of_string "/out")
                  ∈ steps (mark_duplicates_with_mate_cigar_parallel
                             (Subprocesses 0
                                (0, ["chr1,100"; "chr2,90"; "chr3,60"]%string)
                                (λ _ _, 7%N) (λ _ _, 0) 0 0 1) 2
                             (Path.of_string "/in/sample.bam")
                             (Path.of_string "/tmp/w") 2
                             (Path.of_string "/out/sample.markdup.bam")
                             (Path.of_string "/out/sample.markdup.metrics"))).
  { vm_compute.
    repeat first [apply list_elem_of_here|apply list_elem_of_further]. }
  split; [exact Hstep|].
  destruct (proj1 (synchronization_follows_success _ _ _ _ _ _ _) _ _ Hstep)
    as (_ & _ & _ & Hcat & _ & _ & Hreturns & _).
  split; [exact Hcat|exact Hreturns].
Defined.

(** X10. The pipes are made for the global [parallel_processes], the
    workers for the argument [processes]. When the two differ the function
    never returns and never gets as far as moving a metrics file: with
    fewer pipes than workers no worker is started, and with more pipes than
    workers it blocks for ever in [recv], exactly when everything up to the
    workers succeeded. *)
Theorem processes_must_match_the_pipes (env : subprocesses)
    (parallel_processes : Z) (bam_path temp_dir : Path.t) (processes : Z)
    (complete_output_bam complete_output_metrics_file : Path.t) :
  processes ≠ parallel_processes →
  let r := mark_duplicates_with_mate_cigar_parallel env parallel_processes
             bam_path temp_dir processes complete_output_bam
             complete_output_metrics_file in
  (∀ t, outcome r ≠ Returns t)
  ∧ (∀ files metrics_output_dir,
       MoveMetrics files metrics_output_dir ∉ steps r)
  ∧ (parallel_processes < processes →
     ∀ fixed_bam_path lists, Workers fixed_bam_path lists ∉ steps r)
  ∧ (outcome r = Blocks
     ↔ called_mate_fixing_cmd env = 0
       ∧ 1 ≤ parallel_processes ∧ processes < parallel_processes
       ∧ ∃ c p,
           read_reference_order (called_ref_order_command env).1
             (called_ref_order_command env).2 = Ok c
           ∧ partition c processes = Ok p
           ∧ ∀ w l j, worker_scaffold_lists p !! w = Some l →
                      (j < length l)%nat →
                      paired_end_dup_marking_cmd env w j = 0).
Proof.
  intros Hne. cbv zeta.
  parallel_cases env parallel_processes bam_path temp_dir processes
    complete_output_bam complete_output_metrics_file.
  all: try done.
  all: (split; [intros t; discriminate|]).
  all: (split; [intros fs d Hstep; not_a_step Hstep|]).
  all: (split; [intros Hlt; try lia; intros fixed lists Hstep;
                not_a_step Hstep|]).
  all: (split; [try discriminate|]).
  all: try (intros (Hm & H1 & Hlt & c' & p' & Hc & Hp & Hw); try done;
            try lia).
  - intros _. split; [done|]. split; [done|]. split; [lia|].
    exists c, p. split; [done|]. split; [done|].
    exact (proj1 (all_succeed_true _ _ 0) Hall).
  - injection Hc as <-. rewrite Hpart in Hp. injection Hp as <-.
    apply (all_succeed_true _ _ 0) in Hw. congruence.
  - injection Hc as <-. congruence.
Qed.

Lemma processes_must_match_the_pipes_witness :
  let env := Subprocesses 0 (0, ["chr1,100"; "chr2,90"; "chr3,60"]%string)
               (λ _ _, 7%N) (λ _ _, 0) 0 0 0 in
  let r := mark_duplicates_with_mate_cigar_parallel env 3
             (Path.of_string "/in/sample.bam") (Path.of_string "/tmp/w") 2
             (Path.of_string "/out/sample.markdup.bam")
             (Path.of_string "/out/sample.markdup.metrics") in
  2 ≠ 3
  ∧ outcome r = Blocks
  ∧ (∀ t, outcome r ≠ Returns t)
  ∧ (∀ files metrics_output_dir,
       MoveMetrics files metrics_output_dir ∉ steps r).
Proof.
  cbv zeta. split; [lia|]. split; [vm_compute; reflexivity|].
  split.
  - refine (proj1 (processes_must_match_the_pipes _ 3 _ _ 2 _ _ _)). lia.
  - refine (proj1 (proj2 (processes_must_match_the_pipes _ 3 _ _ 2 _ _ _))).
    lia.
Defined.

(** X11. A run of the duplicate marking in which every command returns 0,
    called with the number of processes the pipes were made for (at least
    one), on a non-empty catalog whose names are distinct and hold neither
    [-] nor [/], with an output file for the metrics whose name has no
    slash: no metrics file is moved twice, and the run returns the
    temporary directory after exactly these steps, in this order: mate
    fixing, reference order, workers, move of the metrics files,
    concatenation of one file per reference name in reference order,
    removal of the scaffold directories and of the mate-fixed file,
    indexing, synchronization, and removal of the synchronized files. *)
Theorem successful_duplicate_marking (env : subprocesses)
    (parallel_processes : Z) (bam_path temp_dir : Path.t) (processes : Z)
    (complete_output_bam complete_output_metrics_file : Path.t) (c : catalog) :
  called_mate_fixing_cmd env = 0 →
  read_reference_order (called_ref_order_command env).1
    (called_ref_order_command env).2 = Ok c →
  (∀ w j, paired_end_dup_marking_cmd env w j = 0) →
  concatenation_subprocess env = 0 →
  indexing_subprocess env = 0 →
  rsync_subprocess env = 0 →
  processes = parallel_processes → 1 ≤ processes →
  reference_names c ≠ [] →
  NoDup (reference_names c) →
  Forall (λ n, contains "-" n = false ∧ contains "/" n = false)
    (reference_names c) →
  contains "/" (Path.stem complete_output_bam) = false →
  contains "/" (Path.name complete_output_metrics_file) = false →
  let fixed_bam_path :=
    Path.join temp_dir (Path.stem bam_path +:+ ".mateFixed.sorted.bam") in
  let concatenated_bam :=
    Path.join temp_dir (Path.name complete_output_bam) in
  let index_path := Path.of_string (Path.str concatenated_bam +:+ ".bai") in
  ∃ p ps,
    partition c processes = Ok p
    ∧ map received_scaffold ps = reference_names c
    ∧ let files := concat (outcomes temp_dir complete_output_bam
                             complete_output_metrics_file (draws env) 0
                             (worker_scaffold_lists p)) in
      Forall (λ q, q ∈ files.*1) ps
      ∧ NoDup files.*2
      ∧ (move_metrics files.*2 [] ∅).2 = Ok tt
      ∧ mark_duplicates_with_mate_cigar_parallel env parallel_processes
          bam_path temp_dir processes complete_output_bam
          complete_output_metrics_file
        = Run [MateFixing (sort_threads processes) bam_path fixed_bam_path;
               ReferenceOrder fixed_bam_path;
               Workers fixed_bam_path (worker_scaffold_lists p);
               MoveMetrics files.*2
                 (Path.join (Path.parent complete_output_metrics_file)
                    (Path.stem bam_path +:+ "_scaffold_metrics"));
               Concatenation (map Path.str ps) concatenated_bam;
               RemoveTrees (map Path.parent files.*1);
               RemoveMateFixed fixed_bam_path;
               Indexing concatenated_bam index_path;
               Rsync (drop_last (Path.str concatenated_bam) +:+ "*")
                 (Path.parent complete_output_bam);
               Unlink [index_path; concatenated_bam]]
              (Returns temp_dir).
Proof.
  intros Hm Hc Hw Hcat' Hidx' Hrsync' Hsame Hpos Hne Hnd Hnames Hstem Hmetrics.
  cbv zeta.
  assert (Hfound : ∀ p, partition c processes = Ok p →
            map received_scaffold
              (concat (outcomes temp_dir complete_output_bam
                         complete_output_metrics_file (draws env) 0
                         (worker_scaffold_lists p))).*1
            ≡ₚ reference_names c).
  { intros p Hp. apply read_reference_order_keyed in Hc as Hk.
    destruct (partition_length c processes p Hk Hp) as (_ & Hperm & _).
    rewrite outcomes_received_scaffold; [done|done|by rewrite Hperm]. }
  assert (Hapart : ∀ p, partition c processes = Ok p →
            NoDup (concat (outcomes temp_dir complete_output_bam
                             complete_output_metrics_file (draws env) 0
                             (worker_scaffold_lists p))).*2).
  { intros p Hp. apply read_reference_order_keyed in Hc as Hk.
    destruct (partition_length c processes p Hk Hp) as (_ & Hperm & _).
    apply (NoDup_fmap_1 Path.name).
    change (NoDup (map Path.name
                     (concat (outcomes temp_dir complete_output_bam
                                complete_output_metrics_file (draws env) 0
                                (worker_scaffold_lists p))).*2)).
    rewrite outcomes_metrics_names; [|done|].
    - apply NoDup_fmap_2; [|by rewrite Hperm].
      intros s s'. apply scaffold_metrics_name_inj.
    - rewrite Hperm. eapply Forall_impl; [exact Hnames|]. by intros n [_ Hn]. }
  rename c into c0.
  parallel_cases env parallel_processes bam_path temp_dir processes
    complete_output_bam complete_output_metrics_file.
  all: try done.
  all: try lia.
  all: injection Hc as Hcc; subst c0.
  all: try (destruct Hraises as [[? _]|[? _]]; lia).
  all: try (assert (all_succeed (paired_end_dup_marking_cmd env) 0
                      (worker_scaffold_lists p) = true)
              by (apply all_succeed_true; intros; apply Hw); congruence).
  all: specialize (Hfound p Hpart); rewrite Hfiles in Hfound.
  all: specialize (Hapart p Hpart); rewrite Hfiles in Hapart.
  all: try done.
  - symmetry in Hfound. by apply Permutation_nil_r in Hfound.
  - exists p, ps. rewrite Hfiles. done.
  - apply Exists_exists in Hmissing as (n & Hn & Hnot).
    destruct Hnot. by rewrite Hfound.
Qed.

Lemma successful_duplicate_marking_witness :
  outcome (mark_duplicates_with_mate_cigar_parallel
             (Subprocesses 0 (0, ["chr1,100"; "chr2,90"; "chr3,60"]%string)
                (λ _ _, 7%N) (λ _ _, 0) 0 0 0) 2
             (Path.of_string "/in/sample.bam") (Path.of_string "/tmp/w") 2
             (Path.of_string "/out/sample.markdup.bam")
             (Path.of_string "/out/sample.markdup.metrics"))
  = Returns (Path.of_string "/tmp/w").
Proof.
  assert (Hc : ∃ c, read_reference_order 0
                      ["chr1,100"; "chr2,90"; "chr3,60"]%string = Ok c
                    ∧ reference_names c = ["chr1"; "chr2"; "chr3"]%string).
  { eexists. split; vm_compute; reflexivity. }
  destruct Hc as (c & Hc & Hn).
  destruct (successful_duplicate_marking
              (Subprocesses 0 (0, ["chr1,100"; "chr2,90"; "chr3,60"]%string)
                 (λ _ _, 7%N) (λ _ _, 0) 0 0 0) 2
              (Path.of_string "/in/sample.bam") (Path.of_string "/tmp/w") 2
              (Path.of_string "/out/sample.markdup.bam")
              (Path.of_string "/out/sample.markdup.metrics") c)
    as (p & ps & _ & _ & _ & _ & _ & Hrun);
    [reflexivity|exact Hc|reflexivity|reflexivity|reflexivity|reflexivity
    |reflexivity|lia|by rewrite Hn| | |vm_compute; reflexivity
    |vm_compute; reflexivity|].
  - rewrite Hn. apply (bool_decide_unpack _). vm_compute. exact I.
  - rewrite Hn. apply (bool_decide_unpack _). vm_compute. exact I.
  - rewrite Hrun. reflexivity.
Defined.
